(** * SmartRAG demo database setup: [copy_adventureworks_data.py]

    A shallow embedding of the schema-translation and batch-transfer
    script, and the properties of its specification that were checked
    against it.

    Conventions of the embedding.
    - A Python [str] is a [string]; characters are 8-bit and read as ASCII
      (white space, letter case and digits are the ASCII ones).
    - A Python [int] is a [Z]; list lengths and loop fuel are [nat].
    - An optional value ([None] or a [str]) is an [option string].
    - A call that can raise returns a [result]; [try]/[except] is a match
      on it.
    - The external command-line clients ([sqlcmd], [psql], [mysql],
      [sqlite3]) are the operations of the class [DataSource]: the source
      server is a read-only oracle, the targets are a state machine.
      Console output ([print]) is not modelled. *)

From Stdlib Require Import String Ascii List ZArith Lia Bool DecimalString.
Import ListNotations.

Local Open Scope string_scope.
Local Open Scope Z_scope.

(* ================================================================= *)
(** ** Python built-ins used by the script *)

Module Py.

(** Exceptions the script can meet. *)
Inductive exn : Type :=
| ValueError
| TypeError
| IndexError.

Inductive result (A : Type) : Type :=
| Returns (a : A)
| Raises (e : exn).
Arguments Returns {A} a.
Arguments Raises {A} e.

(** The double quote and the control characters, as one-character strings. *)
Definition dquote : string := String (ascii_of_nat 34) EmptyString.
Definition tab_char : ascii := ascii_of_nat 9.
Definition nl_char : ascii := ascii_of_nat 10.
Definition tab : string := String tab_char EmptyString.
Definition nl : string := String nl_char EmptyString.

Definition code (c : ascii) : nat := nat_of_ascii c.

(** [str.isspace] on one ASCII character: TAB, LF, VT, FF, CR, the four
    separators 0x1c-0x1f, and the space. *)
Definition is_space (c : ascii) : bool :=
  let n := code c in
  ((9 <=? n) && (n <=? 13) || (28 <=? n) && (n <=? 32))%nat.

Definition is_digit (c : ascii) : bool :=
  let n := code c in ((48 <=? n) && (n <=? 57))%nat.

Definition is_upper (c : ascii) : bool :=
  let n := code c in ((65 <=? n) && (n <=? 90))%nat.

Definition lower_char (c : ascii) : ascii :=
  if is_upper c then ascii_of_nat (code c + 32) else c.

Definition upper_char (c : ascii) : ascii :=
  let n := code c in
  if ((97 <=? n) && (n <=? 122))%nat then ascii_of_nat (n - 32) else c.

Fixpoint map_str (f : ascii -> ascii) (s : string) : string :=
  match s with
  | EmptyString => EmptyString
  | String c r => String (f c) (map_str f r)
  end.

(** [s.lower()], [s.upper()] *)
Definition lower (s : string) : string := map_str lower_char s.
Definition upper (s : string) : string := map_str upper_char s.

(** [s.lstrip()], [s.rstrip()], [s.strip()] *)
Fixpoint lstrip (s : string) : string :=
  match s with
  | EmptyString => EmptyString
  | String c r => if is_space c then lstrip r else s
  end.

Fixpoint rstrip (s : string) : string :=
  match s with
  | EmptyString => EmptyString
  | String c r =>
      match rstrip r with
      | EmptyString => if is_space c then EmptyString else String c EmptyString
      | r' => String c r'
      end
  end.

Definition strip (s : string) : string := rstrip (lstrip s).

(** Truth value of a string: [bool(s)]. *)
Definition nonempty (s : string) : bool :=
  match s with EmptyString => false | _ => true end.

(** [s.startswith(p)] *)
Definition startswith (p s : string) : bool := String.prefix p s.

(** [p in s] on strings. *)
Fixpoint contains (p s : string) : bool :=
  if String.prefix p s then true
  else match s with
       | EmptyString => false
       | String _ r => contains p r
       end.

(** [s.split(c)] for a one-character separator: never the empty list. *)
Fixpoint split_on (c : ascii) (s : string) : list string :=
  match s with
  | EmptyString => [EmptyString]
  | String a r =>
      if Ascii.eqb a c then EmptyString :: split_on c r
      else match split_on c r with
           | h :: t => String a h :: t
           | [] => [String a EmptyString]
           end
  end.

(** [s.count(c)] for a one-character pattern. *)
Fixpoint count_char (c : ascii) (s : string) : nat :=
  match s with
  | EmptyString => 0%nat
  | String a r => ((if Ascii.eqb a c then 1 else 0) + count_char c r)%nat
  end.

(** [s.replace(c, by)] for a one-character pattern. *)
Fixpoint replace_char (c : ascii) (by_ : string) (s : string) : string :=
  match s with
  | EmptyString => EmptyString
  | String a r =>
      if Ascii.eqb a c then by_ ++ replace_char c by_ r
      else String a (replace_char c by_ r)
  end.

(** [sep.join(l)] *)
Definition join (sep : string) (l : list string) : string :=
  String.concat sep l.

Fixpoint all_chars (p : ascii -> bool) (s : string) : bool :=
  match s with
  | EmptyString => true
  | String c r => p c && all_chars p r
  end.

(** [''.join(c for c in s if p c)] *)
Fixpoint filter_chars (p : ascii -> bool) (s : string) : string :=
  match s with
  | EmptyString => EmptyString
  | String c r => if p c then String c (filter_chars p r) else filter_chars p r
  end.

(** [s.isdigit()] *)
Definition isdigit (s : string) : bool := nonempty s && all_chars is_digit s.

(** [x in l] for a list of strings. *)
Definition in_list (x : string) (l : list string) : bool :=
  existsb (String.eqb x) l.

(** [str(n)] for an integer. *)
Definition str_of_Z (n : Z) : string := NilZero.string_of_int (Z.to_int n).

Definition digit_val (c : ascii) : Z := Z.of_nat (code c) - 48.

(** The digits of an integer literal: decimal digits, single underscores
    allowed between two digits. [seen] tells that the previous character
    was a digit. *)
Fixpoint int_digits (acc : Z) (seen : bool) (s : string) : option Z :=
  match s with
  | EmptyString => if seen then Some acc else None
  | String c r =>
      if is_digit c then int_digits (10 * acc + digit_val c) true r
      else if Ascii.eqb c "_" && seen then int_digits acc false r
      else None
  end.

(** An integer literal: an optional sign, then digits. *)
Definition int_literal (t : string) : option Z :=
  match t with
  | String c r =>
      if Ascii.eqb c "+" then int_digits 0 false r
      else if Ascii.eqb c "-" then option_map Z.opp (int_digits 0 false r)
      else int_digits 0 false t
  | EmptyString => None
  end.

(** [int(s)] on a string: white space around an integer literal. *)
Definition int (s : string) : result Z :=
  match int_literal (strip s) with
  | Some n => Returns n
  | None => Raises ValueError
  end.

(** Truth value of an optional string: [None] and [''] are false. *)
Definition truthy (o : option string) : bool :=
  match o with
  | Some s => nonempty s
  | None => false
  end.

(** [o != s] for an optional string [o]. *)
Definition differs (o : option string) (s : string) : bool :=
  match o with
  | Some x => negb (String.eqb x s)
  | None => true
  end.

(** What an f-string prints for an optional string. *)
Definition fmt (o : option string) : string :=
  match o with
  | Some s => s
  | None => "None"
  end.

End Py.
Import Py.

(* ================================================================= *)
(** ** TypeCatalog: the type table and the three converters *)

Record type_row : Type := mk_type_row {
  pg : string;
  mysql : string;
  sqlite : string
}.

Definition TYPE_MAPPING : list (string * type_row) :=
  [ ("int", mk_type_row "INTEGER" "INT" "INTEGER");
    ("bigint", mk_type_row "BIGINT" "BIGINT" "INTEGER");
    ("smallint", mk_type_row "SMALLINT" "SMALLINT" "INTEGER");
    ("tinyint", mk_type_row "SMALLINT" "TINYINT" "INTEGER");
    ("bit", mk_type_row "BOOLEAN" "BIT" "INTEGER");
    ("decimal", mk_type_row "DECIMAL" "DECIMAL" "REAL");
    ("numeric", mk_type_row "NUMERIC" "DECIMAL" "REAL");
    ("money", mk_type_row "MONEY" "DECIMAL(19,4)" "REAL");
    ("smallmoney", mk_type_row "MONEY" "DECIMAL(10,4)" "REAL");
    ("float", mk_type_row "DOUBLE PRECISION" "DOUBLE" "REAL");
    ("real", mk_type_row "REAL" "FLOAT" "REAL");
    ("datetime", mk_type_row "TIMESTAMP" "DATETIME" "TEXT");
    ("datetime2", mk_type_row "TIMESTAMP" "DATETIME(6)" "TEXT");
    ("date", mk_type_row "DATE" "DATE" "TEXT");
    ("time", mk_type_row "TIME" "TIME" "TEXT");
    ("char", mk_type_row "CHAR" "CHAR" "TEXT");
    ("varchar", mk_type_row "VARCHAR" "VARCHAR" "TEXT");
    ("nvarchar", mk_type_row "VARCHAR" "VARCHAR" "TEXT");
    ("nchar", mk_type_row "CHAR" "CHAR" "TEXT");
    ("text", mk_type_row "TEXT" "TEXT" "TEXT");
    ("ntext", mk_type_row "TEXT" "TEXT" "TEXT");
    ("xml", mk_type_row "XML" "TEXT" "TEXT");
    ("uniqueidentifier", mk_type_row "UUID" "CHAR(36)" "TEXT");
    ("varbinary", mk_type_row "BYTEA" "VARBINARY" "BLOB");
    ("image", mk_type_row "BYTEA" "LONGBLOB" "BLOB");
    ("timestamp", mk_type_row "BYTEA" "BINARY(8)" "BLOB");
    ("hierarchyid", mk_type_row "TEXT" "VARCHAR(892)" "TEXT") ].

(** [TYPE_MAPPING.get(k)]; [k in TYPE_MAPPING] is [lookup_type k <> None]. *)
Fixpoint assoc (k : string) (t : list (string * type_row)) : option type_row :=
  match t with
  | [] => None
  | (k', v) :: r => if String.eqb k k' then Some v else assoc k r
  end.

Definition lookup_type (k : string) : option type_row := assoc k TYPE_MAPPING.

Definition convert_type_mssql_to_pg
    (mssql_type : string) (max_length precision scale : option string)
    : result string :=
  let base_type := lower mssql_type in
  match lookup_type base_type with
  | Some row =>
      let pg_type := pg row in
      if String.eqb base_type "xml" then Returns "TEXT"
      else if in_list base_type ["varchar"; "nvarchar"; "char"; "nchar"] then
        if truthy max_length && differs max_length "-1"
        then Returns (pg_type ++ "(" ++ fmt max_length ++ ")")
        else Returns "TEXT"
      else if in_list base_type ["decimal"; "numeric"] then
        if truthy precision && truthy scale
        then Returns (pg_type ++ "(" ++ fmt precision ++ "," ++ fmt scale ++ ")")
        else if truthy precision
        then Returns (pg_type ++ "(" ++ fmt precision ++ ")")
        else Returns pg_type
      else if String.eqb base_type "varbinary" then
        if truthy max_length && differs max_length "-1"
        then Returns ("VARBINARY(" ++ fmt max_length ++ ")")
        else Returns "BYTEA"
      else Returns pg_type
  | None => Returns "TEXT"
  end.

(** The body of the two [try] blocks of the MySQL converter: what follows
    [int(max_length)] once it has returned. *)
Definition mysql_wide_length (max_len_int : Z) : string :=
  if (max_len_int >? 16383) || (max_len_int * 3 >? 65535) then "TEXT"
  else "VARCHAR(" ++ str_of_Z (Z.min (max_len_int * 4) 65535) ++ ")".

Definition mysql_narrow_length (mysql_type : string) (max_length : option string)
    (max_len_int : Z) : string :=
  if max_len_int >? 65535 then "TEXT"
  else mysql_type ++ "(" ++ fmt max_length ++ ")".

(** [try: x = int(s); body(x) except (ValueError, TypeError): handler]:
    any other exception goes on to the caller. *)
Definition try_int {A : Type} (s : string) (body : Z -> A) (handler : A)
    : result A :=
  match int s with
  | Returns n => Returns (body n)
  | Raises ValueError | Raises TypeError => Returns handler
  | Raises e => Raises e
  end.

Definition convert_type_mssql_to_mysql
    (mssql_type : string) (max_length precision scale : option string)
    : result string :=
  let base_type := lower mssql_type in
  match lookup_type base_type with
  | Some row =>
      let mysql_type := mysql row in
      if String.eqb base_type "xml" then Returns "TEXT"
      else if String.eqb base_type "hierarchyid" then
        if truthy max_length && differs max_length "-1"
        then Returns ("VARCHAR(" ++ fmt max_length ++ ")")
        else Returns "VARCHAR(892)"
      else if in_list base_type ["varchar"; "nvarchar"; "char"; "nchar"] then
        if truthy max_length && differs max_length "-1"
           && differs max_length "NULL"
        then
          if String.eqb base_type "nvarchar" || String.eqb base_type "nchar"
          then try_int (fmt max_length) mysql_wide_length "TEXT"
          else try_int (fmt max_length)
                 (mysql_narrow_length mysql_type max_length) "TEXT"
        else Returns "TEXT"
      else if in_list base_type ["decimal"; "numeric"] then
        if truthy precision && truthy scale
        then Returns (mysql_type ++ "(" ++ fmt precision ++ "," ++ fmt scale ++ ")")
        else if truthy precision
        then Returns (mysql_type ++ "(" ++ fmt precision ++ ")")
        else Returns mysql_type
      else if String.eqb base_type "varbinary" then
        if truthy max_length && differs max_length "-1"
        then Returns ("VARBINARY(" ++ fmt max_length ++ ")")
        else Returns "LONGBLOB"
      else Returns mysql_type
  | None => Returns "TEXT"
  end.

Definition convert_type_mssql_to_sqlite
    (mssql_type : string) (max_length precision scale : option string)
    : result string :=
  let base_type := lower mssql_type in
  match lookup_type base_type with
  | Some row =>
      let sqlite_type := sqlite row in
      if in_list base_type ["decimal"; "numeric"; "money"; "smallmoney"]
      then Returns "REAL"
      else if in_list base_type
                ["varchar"; "nvarchar"; "char"; "nchar"; "text"; "ntext"; "xml"]
      then Returns "TEXT"
      else if in_list base_type ["varbinary"; "image"; "timestamp"]
      then Returns "BLOB"
      else if String.eqb base_type "hierarchyid" then Returns "TEXT"
      else if String.eqb base_type "uniqueidentifier" then Returns "TEXT"
      else if in_list base_type ["datetime"; "datetime2"; "date"; "time"]
      then Returns "TEXT"
      else if in_list base_type ["int"; "bigint"; "smallint"; "tinyint"; "bit"]
      then Returns "INTEGER"
      else if in_list base_type ["float"; "real"] then Returns "REAL"
      else Returns sqlite_type
  | None => Returns "TEXT"
  end.

(* ================================================================= *)
(** ** The external clients and the state of a run *)

(** The command-line clients, each returning [(stdout, returncode)].
    [run_sql_mssql server database query delimiter] only reads the source;
    the three target clients act on the world of target databases. A
    timeout or a failure to start the client is an answer with a nonzero
    code. The same-dialect copy, which also writes through [sqlcmd], is
    not part of the embedding. *)
Class DataSource (World : Type) : Type := {
  run_sql_mssql : string -> string -> string -> string -> string * Z;
  run_sql_postgresql : string -> string -> World -> (string * Z) * World;
  run_sql_mysql : string -> string -> World -> (string * Z) * World;
  run_sql_sqlite : string -> string -> World -> (string * Z) * World
}.

(** The state threaded through a run: the targets, and every statement
    sent to a target so far, oldest first. *)
Record state (World : Type) : Type := mk_state {
  world : World;
  issued : list string
}.
Arguments mk_state {World} world issued.
Arguments world {World} s.
Arguments issued {World} s.

(** State and exception monad of the script's functions. *)
Definition M (World A : Type) : Type := state World -> result A * state World.

Definition ret {World A : Type} (a : A) : M World A :=
  fun st => (Returns a, st).

Definition bind {World A B : Type} (m : M World A) (k : A -> M World B)
    : M World B :=
  fun st =>
    match m st with
    | (Returns a, st') => k a st'
    | (Raises e, st') => (Raises e, st')
    end.

Definition lift {World A : Type} (r : result A) : M World A :=
  fun st => (r, st).

Definition send {World : Type}
    (client : string -> string -> World -> (string * Z) * World)
    (database query : string) : M World (string * Z) :=
  fun st =>
    let (answer, w) := client database query (world st) in
    (Returns answer, mk_state w (issued st ++ [query])).

Declare Scope script_scope.
Delimit Scope script_scope with script.
Notation "x <- m ;; k" := (bind m (fun x => k))
  (at level 61, m at next level, right associativity) : script_scope.
Notation "' p <- m ;; k" := (bind m (fun x => let p := x in k))
  (at level 61, p pattern, m at next level, right associativity) : script_scope.
Notation "m ;;; k" := (bind m (fun _ => k))
  (at level 61, right associativity) : script_scope.

Definition rbind {A B : Type} (r : result A) (k : A -> result B) : result B :=
  match r with
  | Returns a => k a
  | Raises e => Raises e
  end.

Fixpoint rmap {A B : Type} (f : A -> result B) (l : list A) : result (list B) :=
  match l with
  | [] => Returns []
  | a :: r =>
      rbind (f a) (fun b => rbind (rmap f r) (fun bs => Returns (b :: bs)))
  end.

(* ================================================================= *)
(** ** SchemaIntrospector: [get_table_definition_mssql] *)

Record column : Type := mk_column {
  name : string;
  data_type : string;
  is_nullable : bool;
  max_length : option string;
  precision : option string;
  scale : option string;
  is_pk : bool;
  is_identity : bool
}.

(** The header and footer filter of the three name queries. The needle is
    upper case and the line lower case, as in the source. *)
Definition name_line_kept (line : string) : bool :=
  nonempty line && negb (startswith "(" line) && negb (startswith "-" line)
  && negb (contains "COLUMN_NAME" (lower line)).

(** The loop that fills [pk_columns], [identity_columns] and
    [computed_columns]: the first comma-separated field of each kept line.
    The sets are only tested for membership and are kept as lists. *)
Definition parse_name_set (answer : string * Z) : list string :=
  let (result_text, code) := answer in
  if code =? 0 then
    flat_map
      (fun raw =>
         let line := strip raw in
         if name_line_kept line then
           match split_on "," line with
           | p :: _ => [strip p]
           | [] => []
           end
         else [])
      (split_on nl_char result_text)
  else [].

Definition column_line_kept (line : string) : bool :=
  name_line_kept line && negb (contains "rows" (lower line)).

(** [p if p and p != 'NULL' and p else None] *)
Definition field_or_none (p : string) : option string :=
  if nonempty p && negb (String.eqb p "NULL") && nonempty p then Some p
  else None.

(** One line of the column query: the dictionary appended for it, if any. *)
Definition parse_column_line (pk_columns identity_columns : list string)
    (raw : string) : option column :=
  let line := strip raw in
  if column_line_kept line then
    match map strip (split_on "," line) with
    | p0 :: p1 :: p2 :: p3 :: p4 :: p5 :: _ =>
        let col_name := p0 in
        if nonempty col_name && (1 <? String.length col_name)%nat then
          Some {| name := col_name;
                  data_type := lower p1;
                  is_nullable := String.eqb p2 "YES";
                  max_length := field_or_none p3;
                  precision := field_or_none p4;
                  scale := field_or_none p5;
                  is_pk := in_list col_name pk_columns;
                  is_identity := in_list col_name identity_columns |}
        else None
    | _ => None
    end
  else None.

Fixpoint filter_map {A B : Type} (f : A -> option B) (l : list A) : list B :=
  match l with
  | [] => []
  | a :: r =>
      match f a with
      | Some b => b :: filter_map f r
      | None => filter_map f r
      end
  end.

Definition columns_query (schema table : string) : string :=
  "SELECT c.COLUMN_NAME, c.DATA_TYPE, c.IS_NULLABLE, c.CHARACTER_MAXIMUM_LENGTH, c.NUMERIC_PRECISION, c.NUMERIC_SCALE FROM INFORMATION_SCHEMA.COLUMNS c WHERE c.TABLE_SCHEMA = '"
  ++ schema ++ "' AND c.TABLE_NAME = '" ++ table
  ++ "' ORDER BY c.ORDINAL_POSITION;".

Definition pk_query (schema table : string) : string :=
  "SELECT ku.COLUMN_NAME FROM INFORMATION_SCHEMA.TABLE_CONSTRAINTS tc INNER JOIN INFORMATION_SCHEMA.KEY_COLUMN_USAGE ku ON tc.CONSTRAINT_TYPE = 'PRIMARY KEY' AND tc.CONSTRAINT_NAME = ku.CONSTRAINT_NAME WHERE ku.TABLE_SCHEMA = '"
  ++ schema ++ "' AND ku.TABLE_NAME = '" ++ table ++ "';".

Definition property_query (property schema table : string) : string :=
  "SELECT c.COLUMN_NAME FROM INFORMATION_SCHEMA.COLUMNS c WHERE c.TABLE_SCHEMA = '"
  ++ schema ++ "' AND c.TABLE_NAME = '" ++ table
  ++ "' AND COLUMNPROPERTY(OBJECT_ID('" ++ schema ++ "." ++ table
  ++ "'), c.COLUMN_NAME, '" ++ property ++ "') = 1;".

Definition get_table_definition_mssql {World : Type} `{DataSource World}
    (server database schema table : string) : list column :=
  let (result1, code1) :=
    run_sql_mssql server database (columns_query schema table) "," in
  if negb (code1 =? 0) then []
  else
    let pk_columns :=
      parse_name_set (run_sql_mssql server database (pk_query schema table) ",") in
    let identity_columns :=
      parse_name_set
        (run_sql_mssql server database
           (property_query "IsIdentity" schema table) ",") in
    let columns :=
      filter_map (parse_column_line pk_columns identity_columns)
        (split_on nl_char result1) in
    let computed_columns :=
      parse_name_set
        (run_sql_mssql server database
           (property_query "IsComputed" schema table) ",") in
    filter (fun col => negb (in_list (name col) computed_columns)) columns.

(* ================================================================= *)
(** ** DDLBuilder: [create_table_sqlite] and [create_table_mysql] *)

Definition count_pk (columns : list column) : nat :=
  List.length (filter is_pk columns).

Definition integer_types : list string := ["int"; "bigint"; "smallint"; "tinyint"].

Definition backquoted (s : string) : string := "`" ++ s ++ "`".

Definition not_null_clause (col : column) : string :=
  if is_nullable col then EmptyString else " NOT NULL".

(** The test that sets [autoincrement] in [create_table_sqlite]. *)
Definition sqlite_autoincrement (columns : list column) (col : column) : bool :=
  is_identity col && is_pk col && (count_pk columns =? 1)%nat
  && in_list (lower (data_type col)) integer_types.

(** The text appended to [col_defs] for one column. *)
Definition sqlite_col_def (columns : list column) (col : column) : result string :=
  rbind (convert_type_mssql_to_sqlite (data_type col) (max_length col)
           (precision col) (scale col))
    (fun sqlite_type =>
       let nullable := not_null_clause col in
       let autoincrement :=
         if sqlite_autoincrement columns col then " PRIMARY KEY AUTOINCREMENT"
         else EmptyString in
       let nullable :=
         if sqlite_autoincrement columns col then EmptyString else nullable in
       Returns (backquoted (name col) ++ " " ++ sqlite_type ++ autoincrement
                ++ nullable)).

(** The text appended to [pk_cols] for one column, if any. *)
Definition sqlite_pk_entry (columns : list column) (col : column) : option string :=
  if is_pk col && negb (is_identity col && (count_pk columns =? 1)%nat)
  then Some (backquoted (name col))
  else None.

Definition primary_key_clause (pk_cols : list string) : string :=
  "PRIMARY KEY (" ++ join ", " pk_cols ++ ")".

(** [col_defs] as it stands when the statement is built: one entry per
    column, then the key clause when [pk_cols] is not empty. The source
    fills [col_defs] and [pk_cols] in one loop over [columns]; the two
    lists do not depend on each other. *)
Definition sqlite_col_defs (columns : list column) : result (list string) :=
  rbind (rmap (sqlite_col_def columns) columns)
    (fun col_defs =>
       let pk_cols := filter_map (sqlite_pk_entry columns) columns in
       Returns (match pk_cols with
                | [] => col_defs
                | _ => (col_defs ++ [primary_key_clause pk_cols])%list
                end)).

Definition sqlite_table_name (schema table : string) : string :=
  schema ++ "_" ++ table.

Definition sqlite_create_statement (table_name : string) (col_defs : list string)
    : string :=
  "CREATE TABLE `" ++ table_name ++ "` (" ++ join ", " col_defs ++ ");".

(** [db_path] is taken as already absolute. *)
Definition create_table_sqlite {World : Type} `{DataSource World}
    (columns : list column) (schema table db_path : string)
    : M World (bool * string) :=
  (let table_name := sqlite_table_name schema table in
   col_defs <- lift (sqlite_col_defs columns) ;;
   send run_sql_sqlite db_path ("DROP TABLE IF EXISTS `" ++ table_name ++ "`;") ;;;
   '(result_text, code) <-
      send run_sql_sqlite db_path (sqlite_create_statement table_name col_defs) ;;
   ret (code =? 0, result_text))%script.

(** The test that sets [auto_increment] in [create_table_mysql]. *)
Definition mysql_auto_increment (columns : list column) (col : column) : bool :=
  is_identity col && is_pk col && (count_pk columns =? 1)%nat.

Definition mysql_col_def (columns : list column) (col : column) : result string :=
  rbind (convert_type_mssql_to_mysql (data_type col) (max_length col)
           (precision col) (scale col))
    (fun mysql_type =>
       let col_name := backquoted (name col) in
       let nullable := not_null_clause col in
       let auto_increment :=
         if mysql_auto_increment columns col then " AUTO_INCREMENT"
         else EmptyString in
       Returns (col_name ++ " " ++ mysql_type ++ auto_increment ++ nullable)).

(** The key entry of a character column: a prefix length when the column
    is too wide for an index entry. [wide] is the double-byte type name of
    the branch ([nvarchar] or [nchar]). *)
Definition mysql_prefixed_key (wide : string) (col : column) (max_len : Z) : string :=
  if String.eqb (lower (data_type col)) wide && (max_len * 4 >? 767)
  then backquoted (name col) ++ "(191)"
  else if max_len >? 767 then backquoted (name col) ++ "(767)"
  else backquoted (name col).

(** The text appended to [pk_cols] for a primary-key column. *)
Definition mysql_key_entry (col : column) : result string :=
  if String.eqb (lower (data_type col)) "hierarchyid"
  then Returns (backquoted (name col) ++ "(191)")
  else if in_list (lower (data_type col)) ["nvarchar"; "varchar"]
          && truthy (max_length col)
  then try_int (fmt (max_length col)) (mysql_prefixed_key "nvarchar" col)
         (backquoted (name col))
  else if in_list (lower (data_type col)) ["nchar"; "char"]
          && truthy (max_length col)
  then try_int (fmt (max_length col)) (mysql_prefixed_key "nchar" col)
         (backquoted (name col))
  else Returns (backquoted (name col)).

(** The text appended to [pk_cols] for one column, if any. *)
Definition mysql_pk_entry (col : column) : result (option string) :=
  if is_pk col
  then rbind (mysql_key_entry col) (fun entry => Returns (Some entry))
  else Returns None.

Fixpoint somes {A : Type} (l : list (option A)) : list A :=
  match l with
  | [] => []
  | Some a :: r => a :: somes r
  | None :: r => somes r
  end.

Definition mysql_pk_cols (columns : list column) : result (list string) :=
  rbind (rmap mysql_pk_entry columns) (fun entries => Returns (somes entries)).

Definition mysql_col_defs (columns : list column) : result (list string) :=
  rbind (rmap (mysql_col_def columns) columns)
    (fun col_defs =>
       rbind (mysql_pk_cols columns)
         (fun pk_cols =>
            Returns (match pk_cols with
                     | [] => col_defs
                     | _ => (col_defs ++ [primary_key_clause pk_cols])%list
                     end))).

Definition mysql_table_name (schema table : string) : string :=
  schema ++ "_" ++ table.

Definition mysql_qualified (database table_name : string) : string :=
  "`" ++ database ++ "`.`" ++ table_name ++ "`".

Definition mysql_create_statement (database table_name : string)
    (col_defs : list string) : string :=
  "CREATE TABLE " ++ mysql_qualified database table_name ++ " ("
  ++ join ", " col_defs ++ ");".

Definition create_table_mysql {World : Type} `{DataSource World}
    (columns : list column) (schema table database : string)
    : M World (bool * string) :=
  (let table_name := mysql_table_name schema table in
   col_defs <- lift (mysql_col_defs columns) ;;
   send run_sql_mysql database
     ("DROP TABLE IF EXISTS " ++ mysql_qualified database table_name ++ ";") ;;;
   '(result_text, code) <-
      send run_sql_mysql database
        (mysql_create_statement database table_name col_defs) ;;
   ret (code =? 0, result_text))%script.

(* ================================================================= *)
(** ** Literal rendering: one field value to one SQL literal *)

Definition starts_with_digit (s : string) : bool :=
  match s with
  | String c _ => is_digit c
  | EmptyString => false
  end.

(** What is left of [s] after a run of digits (single underscores allowed
    between digits). *)
Fixpoint after_digits (seen : bool) (s : string) : string :=
  match s with
  | EmptyString => s
  | String c r =>
      if is_digit c then after_digits true r
      else if Ascii.eqb c "_" && seen && starts_with_digit r
      then after_digits false r
      else s
  end.

Definition drop_sign (s : string) : string :=
  match s with
  | String "+" r => r
  | String "-" r => r
  | _ => s
  end.

(** Whether [float(s)] returns: white space around, an optional sign, then
    [inf], [infinity], [nan] in any letter case, or a decimal number with
    an optional fraction and exponent. *)
Definition float_parses (s : string) : bool :=
  let t := drop_sign (strip s) in
  if in_list (lower t) ["inf"; "infinity"; "nan"] then true
  else
    let after_int := after_digits false t in
    let '(has_frac, after_frac) :=
      match after_int with
      | String "." r => (starts_with_digit r, after_digits false r)
      | _ => (false, after_int)
      end in
    if negb (starts_with_digit t || has_frac) then false
    else
      match after_frac with
      | EmptyString => true
      | String c r =>
          if Ascii.eqb (lower_char c) "e" then
            let digits := drop_sign r in
            starts_with_digit digits
            && negb (nonempty (after_digits false digits))
          else false
      end.

(** [float(s)]: only whether it returns matters to the script. *)
Definition float (s : string) : result unit :=
  if float_parses s then Returns tt else Raises ValueError.

(** [try: f(val) if val else None; values.append(val if val else 'NULL')
     except (ValueError, TypeError): values.append('NULL')] *)
Definition parse_or_null {A : Type} (parse : string -> result A) (val : string)
    : result string :=
  if nonempty val then
    match parse val with
    | Returns _ => Returns val
    | Raises ValueError | Raises TypeError => Returns "NULL"
    | Raises e => Raises e
    end
  else Returns "NULL".

Definition squote : ascii := "'"%char.
Definition backslash : ascii := "\"%char.

Definition quoted (s : string) : string := "'" ++ s ++ "'".

(** [val.replace("'", "''").replace('\\', '\\\\')] (PostgreSQL path) *)
Definition escape_pg (val : string) : string :=
  replace_char backslash "\\" (replace_char squote "''" val).

(** [val.replace("\\", "\\\\").replace("'", "''")] (MySQL and SQLite paths) *)
Definition escape_mysql (val : string) : string :=
  replace_char squote "''" (replace_char backslash "\\" val).

Definition escape_sqlite (val : string) : string :=
  replace_char squote "''" (replace_char backslash "\\" val).

Definition string_types : list string :=
  ["varchar"; "nvarchar"; "char"; "nchar"; "text"; "ntext"; "uniqueidentifier"].
Definition datetime_types : list string := ["datetime"; "datetime2"; "date"; "time"].
Definition numeric_types : list string :=
  ["decimal"; "numeric"; "money"; "smallmoney"; "float"; "real"].

Definition is_null_text (val : string) : bool :=
  String.eqb val "NULL" || String.eqb val EmptyString.

Definition bit_is_true (val : string) : bool :=
  String.eqb val "1" || String.eqb (lower val) "true".

(** The body of the inner loop of [copy_data_mssql_to_pg_alternative] for
    one column: [raw] is [row[i]], or [''] past the end of the row. *)
Definition render_pg (col : column) (raw : string) : result string :=
  let val := if nonempty raw then strip raw else EmptyString in
  let dt := lower (data_type col) in
  if is_null_text val then Returns "NULL"
  else if String.eqb dt "xml" then Returns (quoted (escape_pg val))
  else if in_list dt
            ["varchar"; "nvarchar"; "char"; "nchar"; "text"; "ntext"; "datetime";
             "datetime2"; "date"; "time"; "uniqueidentifier"]
  then Returns (quoted (escape_pg val))
  else if String.eqb dt "bit"
  then Returns (if bit_is_true val then "TRUE" else "FALSE")
  else if in_list dt integer_types then parse_or_null int val
  else if in_list dt numeric_types then parse_or_null float val
  else if in_list dt ["varbinary"; "image"; "timestamp"]
  then Returns (quoted (escape_pg val) ++ "::BYTEA")
  else Returns (quoted (escape_pg val)).

(** The literal for an empty or ['NULL'] value on the MySQL and SQLite
    paths. *)
Definition null_or_empty (col : column) : string :=
  if negb (is_nullable col) then
    if in_list (lower (data_type col))
         (string_types ++ ["hierarchyid"])%list
    then "''"
    else if in_list (lower (data_type col)) datetime_types then "NULL"
    else "NULL"
  else "NULL".

Definition is_hex_digit (c : ascii) : bool :=
  is_digit c || ((65 <=? code c) && (code c <=? 70))%nat.

(** The binary branch: [wrap] builds the dialect's hex literal. *)
Definition render_hex (wrap : string -> string) (val : string) : string :=
  if nonempty val && startswith "0x" val then
    let hex_val := strip (upper (substring 2 (String.length val) val)) in
    let hex_val_clean := filter_chars is_hex_digit hex_val in
    if nonempty hex_val_clean then wrap hex_val_clean else "NULL"
  else if nonempty val then
    let hex_val := strip (upper val) in
    let hex_val_clean := filter_chars is_hex_digit hex_val in
    if nonempty hex_val_clean then wrap hex_val_clean else "NULL"
  else "NULL".

Definition unhex (h : string) : string := "UNHEX('" ++ h ++ "')".
Definition xhex (h : string) : string := "X'" ++ h ++ "'".

(** The date and time branch of the MySQL and SQLite paths. *)
Definition render_datetime (escape : string -> string) (col : column)
    (val : string) : string :=
  if nonempty val && negb (String.eqb val "NULL") && nonempty (strip val)
  then quoted (escape val)
  else if is_nullable col then "NULL" else "NULL".

(** The body of the inner loop of [copy_data_mssql_to_mysql_batch]. *)
Definition render_mysql (col : column) (raw : string) : result string :=
  let val := if nonempty raw then strip raw else EmptyString in
  let dt := lower (data_type col) in
  if is_null_text val then Returns (null_or_empty col)
  else if String.eqb dt "xml" then Returns (quoted (escape_mysql val))
  else if String.eqb dt "hierarchyid"
  then Returns (quoted (escape_mysql (strip val)))
  else if in_list dt datetime_types
  then Returns (render_datetime escape_mysql col val)
  else if in_list dt string_types then Returns (quoted (escape_mysql val))
  else if String.eqb dt "bit"
  then Returns (if bit_is_true val then "1" else "0")
  else if in_list dt integer_types then parse_or_null int val
  else if in_list dt numeric_types then parse_or_null float val
  else if in_list dt ["varbinary"; "image"] then Returns (render_hex unhex val)
  else if String.eqb dt "timestamp" then Returns (render_hex unhex val)
  else Returns (quoted (escape_mysql val)).

(** The body of the inner loop of [copy_data_mssql_to_sqlite_batch]. *)
Definition render_sqlite (col : column) (raw : string) : result string :=
  let val := if nonempty raw then strip raw else EmptyString in
  let dt := lower (data_type col) in
  if is_null_text val then Returns (null_or_empty col)
  else if String.eqb dt "xml" then Returns (quoted (escape_sqlite val))
  else if String.eqb dt "hierarchyid"
  then Returns (quoted (escape_sqlite (strip val)))
  else if in_list dt datetime_types
  then Returns (render_datetime escape_sqlite col val)
  else if in_list dt string_types then Returns (quoted (escape_sqlite val))
  else if String.eqb dt "bit"
  then Returns (if bit_is_true val then "1" else "0")
  else if in_list dt integer_types then parse_or_null int val
  else if in_list dt numeric_types then parse_or_null float val
  else if in_list dt ["varbinary"; "image"] then Returns (render_hex xhex val)
  else if String.eqb dt "timestamp" then Returns (render_hex xhex val)
  else Returns (quoted (escape_sqlite val)).

(** [values] for one row, then the tuple text appended to [batch_values]:
    the column at position [i] is paired with [row[i]], or with [''] when
    the row is shorter. *)
Fixpoint render_values (render : column -> string -> result string)
    (columns : list column) (row : list string) : result (list string) :=
  match columns with
  | [] => Returns []
  | col :: rest =>
      rbind (render col (hd EmptyString row))
        (fun v =>
           rbind (render_values render rest (tl row))
             (fun vs => Returns (v :: vs)))
  end.

Definition render_tuple (render : column -> string -> result string)
    (columns : list column) (row : list string) : result string :=
  rbind (render_values render columns row)
    (fun values => Returns ("(" ++ join ", " values ++ ")")).

(* ================================================================= *)
(** ** Row-text parsing of one page *)

Definition footer_free (line : string) : bool :=
  negb (contains "rows affected" (lower line))
  && negb (contains "column" (lower line)).

(** PostgreSQL path: one physical line is one row. The list comprehension
    tests [startswith] on the line before it is stripped. *)
Definition pg_lines (data_result : string) : list string :=
  map strip
    (filter
       (fun l => nonempty (strip l) && negb (startswith "(" l)
                 && negb (startswith "-" l))
       (split_on nl_char data_result)).

Definition pg_row_of_line (ncols : nat) (line : string) : option (list string) :=
  if nonempty line && footer_free line then
    let parts := split_on tab_char line in
    if (ncols <=? List.length parts)%nat
    then Some (map strip (firstn ncols parts))
    else None
  else None.

Definition pg_rows (ncols : nat) (data_result : string) : list (list string) :=
  filter_map (pg_row_of_line ncols) (pg_lines data_result).

(** MySQL and SQLite paths: the two functions carry the same text. A
    physical line with fewer tabs than expected is kept in [current_line]
    and glued to what follows. *)
Definition data_line (line_stripped : string) : bool :=
  nonempty line_stripped && negb (startswith "(" line_stripped)
  && negb (startswith "-" line_stripped) && footer_free line_stripped.

(** One turn of the loop over [data_result.split('\n')]; the state is
    [(lines, current_line)]. *)
Definition reassemble_step (ncols : nat) (acc : list string * string)
    (line : string) : list string * string :=
  let (lines, current_line) := acc in
  let line_stripped := strip line in
  if data_line line_stripped then
    let expected_tabs := Z.of_nat ncols - 1 in
    let actual_tabs := Z.of_nat (count_char tab_char line_stripped) in
    if actual_tabs <? expected_tabs
    then (lines, (current_line ++ line_stripped ++ " ")%string)
    else if nonempty current_line
    then ((lines ++ [(current_line ++ line_stripped)%string])%list, EmptyString)
    else ((lines ++ [line_stripped])%list, EmptyString)
  else acc.

Definition reassemble_physical (ncols : nat) (physical : list string)
    : list string :=
  let (lines, current_line) :=
    fold_left (reassemble_step ncols) physical ([], EmptyString) in
  if nonempty current_line then (lines ++ [strip current_line])%list else lines.

Definition reassemble_lines (ncols : nat) (data_result : string) : list string :=
  reassemble_physical ncols (split_on nl_char data_result).

(** Pad with [''] or cut to [ncols] parts. *)
Definition fit_parts (ncols : nat) (parts : list string) : list string :=
  if (List.length parts <? ncols)%nat
  then (parts ++ repeat EmptyString (ncols - List.length parts))%list
  else if (ncols <? List.length parts)%nat then firstn ncols parts
  else parts.

Definition clean_part (p : string) : string :=
  let part_stripped := if nonempty p then strip p else EmptyString in
  if String.eqb part_stripped "[EMPTY]" then EmptyString else part_stripped.

Definition row_of_line (ncols : nat) (line : string) : option (list string) :=
  if nonempty line then
    let cleaned_parts := map clean_part (fit_parts ncols (split_on tab_char line)) in
    if (List.length cleaned_parts =? ncols)%nat then Some cleaned_parts else None
  else None.

Definition mysql_rows (ncols : nat) (data_result : string) : list (list string) :=
  filter_map (row_of_line ncols) (reassemble_lines ncols data_result).

Definition sqlite_rows (ncols : nat) (data_result : string) : list (list string) :=
  filter_map (row_of_line ncols) (reassemble_lines ncols data_result).

(* ================================================================= *)
(** ** Paging *)

Definition batch_size : Z := 1000.
Definition insert_batch_size : nat := 200.

Definition bracketed (s : string) : string := "[" ++ s ++ "]".

(** [(pk_cols[0] if pk_cols else non_xml_cols[0]) if non_xml_cols
     else col_names[0]] *)
Definition order_by_col (columns : list column) : result string :=
  let pk_cols := map name (filter is_pk columns) in
  let non_xml_cols :=
    map name
      (filter (fun col => negb (String.eqb (lower (data_type col)) "xml"))
         columns) in
  match non_xml_cols with
  | first_non_xml :: _ =>
      match pk_cols with
      | first_pk :: _ => Returns first_pk
      | [] => Returns first_non_xml
      end
  | [] =>
      match columns with
      | col :: _ => Returns (name col)
      | [] => Raises IndexError
      end
  end.

Definition as_nvarchar_max (col : column) : string :=
  "CAST(" ++ bracketed (name col) ++ " AS NVARCHAR(MAX)) AS " ++ bracketed (name col).

Definition pg_col_select (col : column) : string :=
  let dt := lower (data_type col) in
  if String.eqb dt "xml" then as_nvarchar_max col
  else if String.eqb dt "hierarchyid"
  then "CONVERT(NVARCHAR(892), " ++ bracketed (name col) ++ ") AS "
       ++ bracketed (name col)
  else if String.eqb dt "uniqueidentifier"
  then "CAST(" ++ bracketed (name col) ++ " AS NVARCHAR(50)) AS "
       ++ bracketed (name col)
  else if in_list dt ["varbinary"; "image"] then as_nvarchar_max col
  else if String.eqb dt "timestamp"
  then "CAST(" ++ bracketed (name col) ++ " AS VARBINARY(8)) AS "
       ++ bracketed (name col)
  else bracketed (name col).

Definition indent : string := "        ".

(** The page query of the PostgreSQL path. *)
Definition pg_select_query (columns : list column)
    (source_schema source_table order_by : string) (offset : Z) : string :=
  nl ++ indent ++ "SELECT " ++ join ", " (map pg_col_select columns) ++ nl
  ++ indent ++ "FROM " ++ source_schema ++ "." ++ source_table ++ nl
  ++ indent ++ "ORDER BY " ++ bracketed order_by ++ nl
  ++ indent ++ "OFFSET " ++ str_of_Z offset ++ " ROWS FETCH NEXT "
  ++ str_of_Z batch_size ++ " ROWS ONLY;" ++ nl ++ indent.

(** [REPLACE(REPLACE(REPLACE(e, CHAR(9), r), CHAR(10), r), CHAR(13), r)] *)
Definition without_breaks (e r : string) : string :=
  "REPLACE(REPLACE(REPLACE(" ++ e ++ ", CHAR(9), '" ++ r ++ "'), CHAR(10), '"
  ++ r ++ "'), CHAR(13), '" ++ r ++ "')".

Definition empty_marked (col : column) (width : string) : string :=
  "CASE WHEN " ++ bracketed (name col) ++ " IS NULL OR LTRIM(RTRIM(CONVERT(NVARCHAR("
  ++ width ++ "), " ++ bracketed (name col)
  ++ "))) = '' THEN '[EMPTY]' ELSE CONVERT(NVARCHAR(" ++ width ++ "), "
  ++ bracketed (name col) ++ ") END".

(** The select list entry of the MySQL and SQLite paths. *)
Definition mysql_col_select (col : column) : result string :=
  let dt := lower (data_type col) in
  let cast_max := "CAST(" ++ bracketed (name col) ++ " AS NVARCHAR(MAX))" in
  if String.eqb dt "xml"
  then Returns (without_breaks cast_max " " ++ " AS " ++ bracketed (name col))
  else if String.eqb dt "hierarchyid"
  then Returns ("CONVERT(NVARCHAR(892), " ++ bracketed (name col) ++ ") AS "
                ++ bracketed (name col))
  else if String.eqb dt "uniqueidentifier"
  then Returns ("CAST(" ++ bracketed (name col) ++ " AS NVARCHAR(50)) AS "
                ++ bracketed (name col))
  else if in_list dt ["varbinary"; "image"]
  then Returns (without_breaks
                  ("sys.fn_varbintohexstr(" ++ bracketed (name col) ++ ")")
                  EmptyString
                ++ " AS " ++ bracketed (name col))
  else if String.eqb dt "timestamp"
  then Returns (without_breaks
                  ("sys.fn_varbintohexstr(CAST(" ++ bracketed (name col)
                   ++ " AS VARBINARY(8)))")
                  EmptyString
                ++ " AS " ++ bracketed (name col))
  else if in_list dt ["nvarchar"; "varchar"; "ntext"; "text"]
  then Returns (without_breaks cast_max " " ++ " AS " ++ bracketed (name col))
  else if in_list dt ["nchar"; "char"] then
    if truthy (max_length col) && differs (max_length col) "NULL"
       && isdigit (fmt (max_length col))
    then rbind (int (fmt (max_length col)))
           (fun max_len =>
              Returns ("LEFT(RTRIM(" ++ empty_marked col (str_of_Z max_len) ++ "), "
                       ++ str_of_Z (max_len + 7) ++ ") AS " ++ bracketed (name col)))
    else Returns ("RTRIM(" ++ empty_marked col "MAX" ++ ") AS "
                  ++ bracketed (name col))
  else Returns (bracketed (name col)).

(** The page query of the MySQL path; [where_clause] is the empty string. *)
Definition mysql_select_query (col_selects : list string)
    (source_schema source_table order_by : string) (offset : Z) : string :=
  nl ++ indent ++ "SELECT " ++ join ", " col_selects ++ nl
  ++ indent ++ "FROM " ++ source_schema ++ "." ++ source_table ++ nl
  ++ indent ++ nl
  ++ indent ++ "ORDER BY " ++ bracketed order_by ++ nl
  ++ indent ++ "OFFSET " ++ str_of_Z offset ++ " ROWS FETCH NEXT "
  ++ str_of_Z batch_size ++ " ROWS ONLY;" ++ nl ++ indent.

(** [range(0, len(l), n)] with the slices [l[start:min(start + n, len(l))]]:
    the insert chunks, in order. *)
Fixpoint chunks_from {A : Type} (fuel n : nat) (l : list A) : list (list A) :=
  match fuel with
  | O => []
  | S fuel' =>
      match l with
      | [] => []
      | _ => firstn n l :: chunks_from fuel' n (skipn n l)
      end
  end.

Definition chunks {A : Type} (n : nat) (l : list A) : list (list A) :=
  chunks_from (List.length l) n l.

(** The first line of a count answer that is all digits, as a number;
    [0] when there is none. *)
Fixpoint first_number_of (lines : list string) : result Z :=
  match lines with
  | [] => Returns 0
  | raw :: rest =>
      let line := strip raw in
      if nonempty line && isdigit line then int line else first_number_of rest
  end.

Definition first_number (answer_text : string) : result Z :=
  first_number_of (split_on nl_char answer_text).

(* ================================================================= *)
(** ** BatchTransferEngine, PostgreSQL path *)

Definition dquoted (s : string) : string := dquote ++ s ++ dquote.

Definition pg_qualified (target_schema target_table : string) : string :=
  dquoted target_schema ++ "." ++ dquoted target_table.

Definition pg_delete (target_schema target_table : string) : string :=
  "DELETE FROM " ++ pg_qualified target_schema target_table ++ ";".

Definition pg_truncate (target_schema target_table : string) : string :=
  "TRUNCATE TABLE " ++ pg_qualified target_schema target_table ++ " CASCADE;".

Definition pg_count_query (target_schema target_table : string) : string :=
  "SELECT COUNT(*) FROM " ++ pg_qualified target_schema target_table ++ ";".

Definition source_count_query (source_schema source_table : string) : string :=
  "SELECT COUNT(*) FROM " ++ source_schema ++ "." ++ source_table ++ ";".

Definition pg_on_conflict_clause (columns : list column) : string :=
  let pk_cols_quoted := map (fun col => dquoted (name col)) (filter is_pk columns) in
  match pk_cols_quoted with
  | [] => EmptyString
  | _ => " ON CONFLICT (" ++ join ", " pk_cols_quoted ++ ") DO NOTHING"
  end.

Definition pg_override_clause (columns : list column) : string :=
  if existsb is_identity columns then " OVERRIDING SYSTEM VALUE" else EmptyString.

Definition pg_insert_query (columns : list column)
    (target_schema target_table : string) (batch_insert_values : list string)
    : string :=
  "INSERT INTO " ++ pg_qualified target_schema target_table ++ " ("
  ++ join ", " (map (fun col => dquoted (name col)) columns) ++ ")"
  ++ pg_override_clause columns ++ " VALUES " ++ join ", " batch_insert_values
  ++ pg_on_conflict_clause columns ++ ";".

(** A failed insert that the PostgreSQL path does not take for a conflict. *)
Definition pg_real_error (insert_result : string) : bool :=
  negb (contains "duplicate key" (lower insert_result))
  && negb (contains "conflict" (lower insert_result)).

(** What one turn of the [while] loop leaves: go on with a new [offset]
    and [copied_count], leave the loop, or return from the function. *)
Inductive page_outcome : Type :=
| NextPage (offset copied_count : Z)
| Break (copied_count : Z)
| Return (value : bool * Z).

Section PostgresEngine.
Context {World : Type} {DS : DataSource World}.
Variables (server source_db source_schema source_table : string).
Variables (target_db target_schema target_table : string).
Variable columns : list column.

(** The [for batch_start in range(...)] loop: the state is
    [(offset, copied_count)]. [continue] goes to the next chunk. *)
Fixpoint pg_insert_chunks (todo : list (list string)) (offset copied_count : Z)
    : M World (Z * Z) :=
  match todo with
  | [] => ret (offset, copied_count)
  | batch_insert_values :: rest =>
      ('(insert_result, insert_code) <-
         send run_sql_postgresql target_db
           (pg_insert_query columns target_schema target_table
              batch_insert_values) ;;
       if negb (insert_code =? 0) && pg_real_error insert_result
       then pg_insert_chunks rest (offset + batch_size) copied_count
       else pg_insert_chunks rest offset
              (copied_count + Z.of_nat (List.length batch_insert_values)))%script
  end.

(** One turn of the [while offset < total_rows] loop. *)
Definition pg_page (order_by : string) (offset copied_count : Z)
    : M World page_outcome :=
  let select_query :=
    pg_select_query columns source_schema source_table order_by offset in
  let (data_result, data_code) :=
    run_sql_mssql server source_db select_query tab in
  if negb (data_code =? 0) then ret (Return (false, copied_count))
  else
    let rows := pg_rows (List.length columns) data_result in
    match rows with
    | [] => ret (Break copied_count)
    | _ =>
        (batch_values <- lift (rmap (render_tuple render_pg columns) rows) ;;
         match batch_values with
         | [] => ret (NextPage (offset + batch_size) copied_count)
         | _ =>
             '(offset', copied_count') <-
               pg_insert_chunks (chunks insert_batch_size batch_values)
                 offset copied_count ;;
             ret (NextPage (offset' + batch_size) copied_count')
         end)%script
    end.

(** The [while] loop on [fuel] turns; [None] when the fuel runs out
    before the loop ends. *)
Fixpoint pg_pages (fuel : nat) (total_rows : Z) (order_by : string)
    (offset copied_count : Z) : M World (option (bool * Z)) :=
  if offset <? total_rows then
    match fuel with
    | O => ret None
    | S fuel' =>
        (outcome <- pg_page order_by offset copied_count ;;
         match outcome with
         | NextPage offset' copied_count' =>
             pg_pages fuel' total_rows order_by offset' copied_count'
         | Break copied_count' => ret (Some (true, copied_count'))
         | Return value => ret (Some value)
         end)%script
    end
  else ret (Some (true, copied_count)).

(** Every turn adds at least [batch_size] to [offset]. *)
Definition page_fuel (total_rows : Z) : nat :=
  S (Z.to_nat (total_rows / batch_size)).

(** [col_names] and [col_names_quoted] are what the only caller passes:
    the names of [columns], and the same between double quotes. *)
Definition copy_data_mssql_to_pg_alternative (total_rows : Z)
    : M World (option (bool * Z)) :=
  (send run_sql_postgresql target_db (pg_delete target_schema target_table) ;;;
   order_by <- lift (order_by_col columns) ;;
   pg_pages (page_fuel total_rows) total_rows order_by 0 0)%script.

End PostgresEngine.

Arguments pg_insert_chunks {World DS}.
Arguments pg_page {World DS}.
Arguments pg_pages {World DS}.
Arguments copy_data_mssql_to_pg_alternative {World DS}.

Definition copy_data_mssql_to_pg {World : Type} `{DataSource World}
    (server source_db source_schema source_table : string)
    (target_db target_schema target_table : string)
    : M World (option (bool * Z)) :=
  ('(delete_result, delete_code) <-
     send run_sql_postgresql target_db (pg_delete target_schema target_table) ;;
   (if negb (delete_code =? 0)
    then send run_sql_postgresql target_db
           (pg_truncate target_schema target_table) ;;; ret tt
    else ret tt) ;;;
   let columns :=
     get_table_definition_mssql server source_db source_schema source_table in
   match columns with
   | [] => ret (Some (false, 0))
   | _ =>
       let (count_result, count_code) :=
         run_sql_mssql server source_db
           (source_count_query source_schema source_table) tab in
       if negb (count_code =? 0) then ret (Some (false, 0))
       else
         total_rows <- lift (first_number count_result) ;;
         if total_rows =? 0 then ret (Some (true, 0))
         else
           '(check_result, check_code) <-
             send run_sql_postgresql target_db
               (pg_count_query target_schema target_table) ;;
           pg_count <-
             (if check_code =? 0 then lift (first_number check_result)
              else ret 0) ;;
           if (pg_count >? 0) && (pg_count =? total_rows)
           then ret (Some (true, pg_count))
           else copy_data_mssql_to_pg_alternative server source_db source_schema
                  source_table target_db target_schema target_table columns
                  total_rows
   end)%script.

(* ================================================================= *)
(** ** BatchTransferEngine, MySQL path *)

Definition mysql_delete (target_db table_name : string) : string :=
  "DELETE FROM " ++ mysql_qualified target_db table_name ++ ";".

Definition mysql_truncate (target_db table_name : string) : string :=
  "TRUNCATE TABLE " ++ mysql_qualified target_db table_name ++ ";".

Definition mysql_count_query (target_db table_name : string) : string :=
  "SELECT COUNT(*) FROM " ++ mysql_qualified target_db table_name ++ ";".

Definition mysql_exists_query (target_db table_name : string) : string :=
  "SELECT COUNT(*) FROM INFORMATION_SCHEMA.TABLES WHERE TABLE_SCHEMA = '"
  ++ target_db ++ "' AND TABLE_NAME = '" ++ table_name ++ "';".

Definition mysql_insert_query (columns : list column)
    (target_db table_name : string) (batch_insert_values : list string)
    : string :=
  "INSERT INTO " ++ mysql_qualified target_db table_name ++ " ("
  ++ join ", " (map (fun col => backquoted (name col)) columns) ++ ") VALUES "
  ++ join ", " batch_insert_values ++ ";".

(** A failed insert that the MySQL path does not take for a duplicate. *)
Definition mysql_real_error (insert_result : string) : bool :=
  negb (contains "duplicate" (lower insert_result))
  && negb (contains "key" (lower insert_result)).

(** The loop that sets [table_exists]: some line of the answer is a
    positive number. *)
Fixpoint positive_line (lines : list string) : result bool :=
  match lines with
  | [] => Returns false
  | raw :: rest =>
      let line := strip raw in
      if nonempty line && isdigit line then
        rbind (int line)
          (fun n => if n >? 0 then Returns true else positive_line rest)
      else positive_line rest
  end.

Section MySQLEngine.
Context {World : Type} {DS : DataSource World}.
Variables (server source_db source_schema source_table : string).
Variables (target_db target_schema target_table : string).
Variable columns : list column.

Definition table_name : string := mysql_table_name target_schema target_table.

Fixpoint mysql_insert_chunks (todo : list (list string))
    (offset copied_count : Z) : M World (Z * Z) :=
  match todo with
  | [] => ret (offset, copied_count)
  | batch_insert_values :: rest =>
      ('(insert_result, insert_code) <-
         send run_sql_mysql target_db
           (mysql_insert_query columns target_db table_name
              batch_insert_values) ;;
       if negb (insert_code =? 0) && mysql_real_error insert_result
       then mysql_insert_chunks rest (offset + batch_size) copied_count
       else mysql_insert_chunks rest offset
              (copied_count + Z.of_nat (List.length batch_insert_values)))%script
  end.

Definition mysql_page (order_by : string) (offset copied_count : Z)
    : M World page_outcome :=
  (col_selects <- lift (rmap mysql_col_select columns) ;;
   let select_query :=
     mysql_select_query col_selects source_schema source_table order_by
       offset in
   let (data_result, data_code) :=
     run_sql_mssql server source_db select_query tab in
   if negb (data_code =? 0) then ret (Return (false, copied_count))
   else
     let rows := mysql_rows (List.length columns) data_result in
     match rows with
     | [] => ret (Break copied_count)
     | _ =>
         batch_values <- lift (rmap (render_tuple render_mysql columns) rows) ;;
         match batch_values with
         | [] => ret (NextPage (offset + batch_size) copied_count)
         | _ =>
             '(offset', copied_count') <-
               mysql_insert_chunks (chunks insert_batch_size batch_values)
                 offset copied_count ;;
             ret (NextPage (offset' + batch_size) copied_count')
         end
     end)%script.

Fixpoint mysql_pages (fuel : nat) (total_rows : Z) (order_by : string)
    (offset copied_count : Z) : M World (option (bool * Z)) :=
  if offset <? total_rows then
    match fuel with
    | O => ret None
    | S fuel' =>
        (outcome <- mysql_page order_by offset copied_count ;;
         match outcome with
         | NextPage offset' copied_count' =>
             mysql_pages fuel' total_rows order_by offset' copied_count'
         | Break copied_count' => ret (Some (true, copied_count'))
         | Return value => ret (Some value)
         end)%script
    end
  else ret (Some (true, copied_count)).

Definition copy_data_mssql_to_mysql_batch (total_rows : Z)
    : M World (option (bool * Z)) :=
  (send run_sql_mysql target_db (mysql_delete target_db table_name) ;;;
   order_by <- lift (order_by_col columns) ;;
   mysql_pages (S (Z.to_nat (total_rows / batch_size))) total_rows order_by
     0 0)%script.

End MySQLEngine.

Arguments mysql_insert_chunks {World DS}.
Arguments mysql_page {World DS}.
Arguments mysql_pages {World DS}.
Arguments copy_data_mssql_to_mysql_batch {World DS}.

Definition copy_data_mssql_to_mysql {World : Type} `{DataSource World}
    (server source_db source_schema source_table : string)
    (target_db target_schema target_table : string)
    : M World (option (bool * Z)) :=
  (let table_name := mysql_table_name target_schema target_table in
   '(check_result, check_code) <-
     send run_sql_mysql target_db (mysql_exists_query target_db table_name) ;;
   table_exists <-
     (if check_code =? 0
      then lift (positive_line (split_on nl_char check_result))
      else ret false) ;;
   let columns :=
     get_table_definition_mssql server source_db source_schema source_table in
   match columns with
   | [] => ret (Some (false, 0))
   | _ =>
       created <-
         (if negb table_exists
          then create_table_mysql columns target_schema target_table target_db
          else ret (true, EmptyString)) ;;
       if negb (fst created) then ret (Some (false, 0))
       else
         let table_exists := true in
         let (count_result, count_code) :=
           run_sql_mssql server source_db
             (source_count_query source_schema source_table) tab in
         if negb (count_code =? 0) then ret (Some (false, 0))
         else
           total_rows <- lift (first_number count_result) ;;
           if total_rows =? 0 then ret (Some (true, 0))
           else
             '(check_result, check_code) <-
               send run_sql_mysql target_db
                 (mysql_count_query target_db table_name) ;;
             mysql_count <-
               (if check_code =? 0 then lift (first_number check_result)
                else ret 0) ;;
             if (mysql_count >? 0) && (mysql_count =? total_rows)
             then ret (Some (true, mysql_count))
             else
               (if table_exists then
                  '(delete_result, delete_code) <-
                    send run_sql_mysql target_db
                      (mysql_delete target_db table_name) ;;
                  if negb (delete_code =? 0)
                  then send run_sql_mysql target_db
                         (mysql_truncate target_db table_name) ;;; ret tt
                  else ret tt
                else ret tt) ;;;
               copy_data_mssql_to_mysql_batch server source_db source_schema
                 source_table target_db target_schema target_table columns
                 total_rows
   end)%script.

(** The vocabulary of the specification for the MySQL character types:
    the double-byte variants, the widening factor, and the widest field. *)
Definition wide_character (base_type : string) : bool :=
  String.eqb base_type "nvarchar" || String.eqb base_type "nchar".
Definition mysql_widening_factor : Z := 4.
Definition mysql_max_field_width : Z := 65535.
Definition mysql_base_name (base_type : string) : string :=
  match lookup_type base_type with
  | Some row => mysql row
  | None => EmptyString
  end.

(* ================================================================= *)
(** ** Reading a string literal back *)

(** Modelled from the spec: the SQL engines that read the rendered
    literals are not part of the repository. The reader follows the
    escaping rules the specification gives for every dialect adapter
    (quote and backslash are escaped by doubling, then the value is put
    between quotes): a literal is a quote, a body and a closing quote; in
    the body two quotes stand for one quote and two backslashes for one
    backslash; a single backslash or an unclosed body is not a literal. *)
Fixpoint read_body (s : string) : option string :=
  match s with
  | EmptyString => None
  | String c r =>
      if Ascii.eqb c squote then
        match r with
        | EmptyString => Some EmptyString
        | String c' r' =>
            if Ascii.eqb c' squote
            then option_map (String squote) (read_body r')
            else None
        end
      else if Ascii.eqb c backslash then
        match r with
        | EmptyString => None
        | String c' r' =>
            if Ascii.eqb c' backslash
            then option_map (String backslash) (read_body r')
            else None
        end
      else option_map (String c) (read_body r)
  end.

Definition read_literal (literal : string) : option string :=
  match literal with
  | EmptyString => None
  | String c body => if Ascii.eqb c squote then read_body body else None
  end.

(** The character and text family of the specification. *)
Definition character_family : list string :=
  ["char"; "varchar"; "nchar"; "nvarchar"; "text"; "ntext"].

(* ================================================================= *)
(** ** TableSpec: derived properties *)

(** Invariant of the data model: an identity column has an integer type. *)
Definition identity_is_integer (columns : list column) : Prop :=
  forall col, In col columns -> is_identity col = true ->
    in_list (lower (data_type col)) integer_types = true.

(** Exactly one primary-key column, which is an identity column of the
    integer family. *)
Definition hasSingleAutoincrementKey (columns : list column) : bool :=
  match filter is_pk columns with
  | [key] =>
      is_identity key && in_list (lower (data_type key)) integer_types
  | _ => false
  end.

(* ================================================================= *)
(** ** A small source and simulated targets, for the examples *)

Module Demo.

(** The table of the end-to-end scenario of the specification:
    [(ID int identity PK, Name nvarchar(50) NOT NULL, Flag bit NULL)],
    three rows, one of them with an empty [Flag]. *)
Definition columns_answer : string :=
  "ID,int,NO,NULL,10,0" ++ nl ++ "Name,nvarchar,NO,50,NULL,NULL" ++ nl
  ++ "Flag,bit,YES,NULL,1,0" ++ nl ++ nl ++ "(3 rows affected)" ++ nl.

Definition page_answer : string :=
  "1" ++ tab ++ "Ann" ++ tab ++ "1" ++ nl
  ++ "2" ++ tab ++ "Bob" ++ tab ++ "NULL" ++ nl
  ++ "3" ++ tab ++ "Cy" ++ tab ++ "0" ++ nl ++ nl
  ++ "(3 rows affected)" ++ nl.

(** [sqlcmd] on the source; [first_page] is the answer to the page query
    at offset 0 and [later_pages] the answer to every other page query. *)
Definition mssql (first_page later_pages : string * Z)
    (server database query delimiter : string) : string * Z :=
  if contains "ORDINAL_POSITION" query then (columns_answer, 0)
  else if contains "PRIMARY KEY" query then ("ID" ++ nl, 0)
  else if contains "IsIdentity" query then ("ID" ++ nl, 0)
  else if contains "IsComputed" query then (nl ++ "(0 rows affected)" ++ nl, 0)
  else if startswith "SELECT COUNT(*)" query
  then ("3" ++ nl ++ nl ++ "(1 rows affected)" ++ nl, 0)
  else if contains "OFFSET 0 ROWS" query then first_page
  else if contains "OFFSET" query then later_pages
  else (EmptyString, 0).

(** Number of occurrences of [p] in [s], overlapping ones included. *)
Fixpoint occurrences (p s : string) : nat :=
  match s with
  | EmptyString => 0%nat
  | String _ r => ((if String.prefix p s then 1 else 0) + occurrences p r)%nat
  end.

(** A target with one table: its row count, and the answer of the server
    to an [INSERT] (an answer with code [0] stores the tuples). *)
Record target : Type := mk_target {
  table_rows : Z;
  insert_answer : string * Z
}.

Definition client (database query : string) (t : target)
    : (string * Z) * target :=
  if startswith "DELETE" query || startswith "TRUNCATE" query
  then ((EmptyString, 0), mk_target 0 (insert_answer t))
  else if startswith "SELECT COUNT(*) FROM INFORMATION_SCHEMA" query
  then (("1" ++ nl, 0), t)
  else if startswith "SELECT COUNT(*)" query
  then ((str_of_Z (table_rows t) ++ nl, 0), t)
  else if startswith "INSERT" query then
    if snd (insert_answer t) =? 0
    then (insert_answer t,
          mk_target (table_rows t + Z.of_nat (S (occurrences "), (" query)))
            (insert_answer t))
    else (insert_answer t, t)
  else ((EmptyString, 0), t).

Definition source_ok : DataSource target :=
  {| run_sql_mssql := mssql (page_answer, 0) (EmptyString, 0);
     run_sql_postgresql := client;
     run_sql_mysql := client;
     run_sql_sqlite := client |}.

Definition source_down : DataSource target :=
  {| run_sql_mssql := mssql (page_answer, 0) ("Timeout", 1);
     run_sql_postgresql := client;
     run_sql_mysql := client;
     run_sql_sqlite := client |}.

Definition accepting (n : Z) : state target :=
  mk_state (mk_target n ("INSERT 0 3", 0)) [].

Definition duplicate_entry : string :=
  "ERROR 1062 (23000) at line 1: Duplicate entry '1' for key 'PRIMARY'".

Definition rejecting (n : Z) : state target :=
  mk_state (mk_target n (duplicate_entry, 1)) [].

(** The columns of the scenario table, and of a table with a composite
    key. *)
Definition customer : list column :=
  [ mk_column "ID" "int" false None (Some "10") (Some "0") true true;
    mk_column "Name" "nvarchar" false (Some "50") None None false false;
    mk_column "Flag" "bit" true None (Some "1") (Some "0") false false ].

Definition order_line : list column :=
  [ mk_column "OrderID" "int" false None (Some "10") (Some "0") true false;
    mk_column "LineNo" "smallint" false None (Some "5") (Some "0") true false;
    mk_column "Note" "nvarchar" true (Some "200") None None false false ].

(** A page of one row of three fields, wrapped inside its second field. *)
Definition wrapped_page : string :=
  "7" ++ tab ++ "long" ++ nl ++ "tail" ++ tab ++ "z" ++ nl ++ nl
  ++ "(1 rows affected)" ++ nl.

(** A page of one row of three fields, wrapped inside its first field. *)
Definition wrapped_first_field : string :=
  "ab" ++ nl ++ "cd" ++ tab ++ "x" ++ tab ++ "y" ++ nl.

End Demo.

(* ================================================================= *)
(** ** DDLBuilder: [create_table_pg] *)

Definition pg_col_def (col : column) : result string :=
  rbind (convert_type_mssql_to_pg (data_type col) (max_length col)
           (precision col) (scale col))
    (fun pg_type =>
       let nullable := not_null_clause col in
       let identity :=
         if is_identity col then " GENERATED ALWAYS AS IDENTITY"
         else EmptyString in
       Returns (dquoted (name col) ++ " " ++ pg_type ++ identity ++ nullable)).

Definition pg_col_defs (columns : list column) : result (list string) :=
  rbind (rmap pg_col_def columns)
    (fun col_defs =>
       let pk_cols := map (fun col => dquoted (name col)) (filter is_pk columns) in
       Returns (match pk_cols with
                | [] => col_defs
                | _ => (col_defs ++ [primary_key_clause pk_cols])%list
                end)).

Definition pg_create_schema (schema : string) : string :=
  "CREATE SCHEMA IF NOT EXISTS " ++ dquoted schema ++ ";".

Definition pg_drop_statement (schema table : string) : string :=
  "DROP TABLE IF EXISTS " ++ pg_qualified schema table ++ " CASCADE;".

Definition pg_create_statement (schema table : string) (col_defs : list string)
    : string :=
  "CREATE TABLE " ++ pg_qualified schema table ++ " (" ++ join ", " col_defs
  ++ ");".

Definition create_table_pg {World : Type} `{DataSource World}
    (columns : list column) (schema table database : string)
    : M World (bool * string) :=
  ('(schema_result, schema_code) <-
     send run_sql_postgresql database (pg_create_schema schema) ;;
   if negb (schema_code =? 0) then ret (false, schema_result)
   else
     col_defs <- lift (pg_col_defs columns) ;;
     send run_sql_postgresql database (pg_drop_statement schema table) ;;;
     '(result_text, code) <-
        send run_sql_postgresql database
          (pg_create_statement schema table col_defs) ;;
     ret (code =? 0, result_text))%script.

Definition sqlite_drop_statement (table_name : string) : string :=
  "DROP TABLE IF EXISTS `" ++ table_name ++ "`;".

Definition mysql_drop_statement (database table_name : string) : string :=
  "DROP TABLE IF EXISTS " ++ mysql_qualified database table_name ++ ";".

(* ================================================================= *)
(** ** BatchTransferEngine, SQLite path *)

Definition sqlite_delete (table_name : string) : string :=
  "DELETE FROM `" ++ table_name ++ "`;".

Definition sqlite_count_query (table_name : string) : string :=
  "SELECT COUNT(*) FROM `" ++ table_name ++ "`;".

Definition sqlite_exists_query (table_name : string) : string :=
  "SELECT name FROM sqlite_master WHERE type='table' AND name='" ++ table_name
  ++ "';".

Definition sqlite_insert_query (columns : list column) (table_name : string)
    (batch_insert_values : list string) : string :=
  "INSERT INTO `" ++ table_name ++ "` ("
  ++ join ", " (map (fun col => backquoted (name col)) columns) ++ ") VALUES "
  ++ join ", " batch_insert_values ++ ";".

(** A failed insert that the SQLite path does not take for a duplicate.
    The second needle has upper-case letters and the text is lower case,
    as in the source. *)
Definition sqlite_real_error (insert_result : string) : bool :=
  negb (contains "duplicate" (lower insert_result))
  && negb (contains "UNIQUE constraint" (lower insert_result)).

(** The page query of the SQLite path. *)
Definition sqlite_select_query (col_selects : list string)
    (source_schema source_table order_by : string) (offset : Z) : string :=
  nl ++ indent ++ "SELECT " ++ join ", " col_selects ++ nl
  ++ indent ++ "FROM " ++ source_schema ++ "." ++ source_table ++ nl
  ++ indent ++ "ORDER BY " ++ bracketed order_by ++ nl
  ++ indent ++ "OFFSET " ++ str_of_Z offset ++ " ROWS FETCH NEXT "
  ++ str_of_Z batch_size ++ " ROWS ONLY;" ++ nl ++ indent.

(** The loop that sets [table_exists] on the SQLite path: some line of
    the answer is the table name, letter case apart. *)
Definition names_table (table_name : string) (answer_text : string) : bool :=
  existsb
    (fun raw =>
       let line := strip raw in
       nonempty line && String.eqb (lower line) (lower table_name))
    (split_on nl_char answer_text).

Section SQLiteEngine.
Context {World : Type} {DS : DataSource World}.
Variables (server source_db source_schema source_table : string).
Variables (db_path target_schema target_table : string).
Variable columns : list column.

Fixpoint sqlite_insert_chunks (todo : list (list string))
    (offset copied_count : Z) : M World (Z * Z) :=
  match todo with
  | [] => ret (offset, copied_count)
  | batch_insert_values :: rest =>
      ('(insert_result, insert_code) <-
         send run_sql_sqlite db_path
           (sqlite_insert_query columns
              (sqlite_table_name target_schema target_table)
              batch_insert_values) ;;
       if negb (insert_code =? 0) && sqlite_real_error insert_result
       then sqlite_insert_chunks rest (offset + batch_size) copied_count
       else sqlite_insert_chunks rest offset
              (copied_count + Z.of_nat (List.length batch_insert_values)))%script
  end.

Definition sqlite_page (order_by : string) (offset copied_count : Z)
    : M World page_outcome :=
  (col_selects <- lift (rmap mysql_col_select columns) ;;
   let select_query :=
     sqlite_select_query col_selects source_schema source_table order_by
       offset in
   let (data_result, data_code) :=
     run_sql_mssql server source_db select_query tab in
   if negb (data_code =? 0) then ret (Return (false, copied_count))
   else
     let rows := sqlite_rows (List.length columns) data_result in
     match rows with
     | [] => ret (Break copied_count)
     | _ =>
         batch_values <- lift (rmap (render_tuple render_sqlite columns) rows) ;;
         match batch_values with
         | [] => ret (NextPage (offset + batch_size) copied_count)
         | _ =>
             '(offset', copied_count') <-
               sqlite_insert_chunks (chunks insert_batch_size batch_values)
                 offset copied_count ;;
             ret (NextPage (offset' + batch_size) copied_count')
         end
     end)%script.

Fixpoint sqlite_pages (fuel : nat) (total_rows : Z) (order_by : string)
    (offset copied_count : Z) : M World (option (bool * Z)) :=
  if offset <? total_rows then
    match fuel with
    | O => ret None
    | S fuel' =>
        (outcome <- sqlite_page order_by offset copied_count ;;
         match outcome with
         | NextPage offset' copied_count' =>
             sqlite_pages fuel' total_rows order_by offset' copied_count'
         | Break copied_count' => ret (Some (true, copied_count'))
         | Return value => ret (Some value)
         end)%script
    end
  else ret (Some (true, copied_count)).

(** Unlike the two other batch functions, this one clears nothing. *)
Definition copy_data_mssql_to_sqlite_batch (total_rows : Z)
    : M World (option (bool * Z)) :=
  (order_by <- lift (order_by_col columns) ;;
   sqlite_pages (page_fuel total_rows) total_rows order_by 0 0)%script.

End SQLiteEngine.

Arguments sqlite_insert_chunks {World DS}.
Arguments sqlite_page {World DS}.
Arguments sqlite_pages {World DS}.
Arguments copy_data_mssql_to_sqlite_batch {World DS}.

Definition copy_data_mssql_to_sqlite {World : Type} `{DataSource World}
    (server source_db source_schema source_table : string)
    (db_path target_schema target_table : string)
    : M World (option (bool * Z)) :=
  (let table_name := sqlite_table_name target_schema target_table in
   '(check_result, check_code) <-
     send run_sql_sqlite db_path (sqlite_exists_query table_name) ;;
   let table_exists :=
     if check_code =? 0 then names_table table_name check_result else false in
   let columns :=
     get_table_definition_mssql server source_db source_schema source_table in
   match columns with
   | [] => ret (Some (false, 0))
   | _ =>
       created <-
         (if negb table_exists
          then create_table_sqlite columns target_schema target_table db_path
          else ret (true, EmptyString)) ;;
       if negb (fst created) then ret (Some (false, 0))
       else
         let table_exists := true in
         let (count_result, count_code) :=
           run_sql_mssql server source_db
             (source_count_query source_schema source_table) tab in
         if negb (count_code =? 0) then ret (Some (false, 0))
         else
           total_rows <- lift (first_number count_result) ;;
           if total_rows =? 0 then ret (Some (true, 0))
           else
             '(check_result, check_code) <-
               send run_sql_sqlite db_path (sqlite_count_query table_name) ;;
             sqlite_count <-
               (if check_code =? 0 then lift (first_number check_result)
                else ret 0) ;;
             if (sqlite_count >? 0) && (sqlite_count =? total_rows)
             then ret (Some (true, sqlite_count))
             else
               (if table_exists
                then send run_sql_sqlite db_path (sqlite_delete table_name) ;;;
                     ret tt
                else ret tt) ;;;
               copy_data_mssql_to_sqlite_batch server source_db source_schema
                 source_table db_path target_schema target_table columns
                 total_rows
   end)%script.

(* ================================================================= *)
(** ** Table discovery: [get_tables_mssql] *)

Definition is_alpha (c : ascii) : bool :=
  let n := code c in
  ((65 <=? n) && (n <=? 90) || (97 <=? n) && (n <=? 122))%nat.

Definition is_printable (c : ascii) : bool :=
  let n := code c in ((32 <=? n) && (n <=? 126))%nat.

(** [s.isprintable()]: true on the empty string. *)
Definition isprintable (s : string) : bool := all_chars is_printable s.

Definition tables_query (schema : string) : string :=
  "SELECT name FROM sys.tables WHERE SCHEMA_NAME(schema_id) = '" ++ schema
  ++ "' ORDER BY name;".

Definition table_line_kept (line : string) : bool :=
  nonempty line && negb (startswith "(" line) && negb (startswith "-" line)
  && negb (contains "name" (lower line))
  && negb (contains "rows affected" (lower line))
  && isprintable line.

Definition first_is_alpha (s : string) : bool :=
  match s with
  | String c _ => is_alpha c
  | EmptyString => false
  end.

Definition valid_table_name (table_name : string) : bool :=
  nonempty table_name && (1 <? String.length table_name)%nat
  && negb (isdigit table_name) && first_is_alpha table_name.

(** One line of the answer: the table name appended for it, if any. *)
Definition table_of_line (raw : string) : option string :=
  let line := strip raw in
  if table_line_kept line then
    let table_name :=
      match split_on "," line with
      | p :: _ => strip p
      | [] => strip line
      end in
    if valid_table_name table_name then Some table_name else None
  else None.

Definition get_tables_mssql {World : Type} `{DataSource World}
    (server database schema : string) : list string :=
  let (result_text, code) :=
    run_sql_mssql server database (tables_query schema) "," in
  if code =? 0 then filter_map table_of_line (split_on nl_char result_text)
  else [].

(* ================================================================= *)
(** ** DDLBuilder: [create_table_mssql_sql] *)

(** [type_def] of one column. The type name is kept, in upper case; the
    nested test for ['-1'] is the one of the source. *)
Definition mssql_type_def (col : column) : string :=
  let mssql_type := upper (data_type col) in
  if in_list mssql_type ["VARCHAR"; "NVARCHAR"; "CHAR"; "NCHAR"] then
    if truthy (max_length col) && differs (max_length col) "-1"
       && differs (max_length col) "NULL"
    then
      if negb (differs (max_length col) "-1")
      then mssql_type ++ "(MAX)"
      else mssql_type ++ "(" ++ fmt (max_length col) ++ ")"
    else mssql_type ++ "(MAX)"
  else if in_list mssql_type ["DECIMAL"; "NUMERIC"] then
    if truthy (precision col) && truthy (scale col)
    then mssql_type ++ "(" ++ fmt (precision col) ++ "," ++ fmt (scale col)
         ++ ")"
    else if truthy (precision col)
    then mssql_type ++ "(" ++ fmt (precision col) ++ ")"
    else mssql_type
  else if in_list mssql_type ["FLOAT"] then
    if truthy (precision col)
    then mssql_type ++ "(" ++ fmt (precision col) ++ ")"
    else mssql_type
  else mssql_type.

Definition mssql_col_def (col : column) : string :=
  let nullable := not_null_clause col in
  let identity :=
    if is_identity col then " IDENTITY(1,1)" else EmptyString in
  bracketed (name col) ++ " " ++ mssql_type_def col ++ identity ++ nullable.

Definition mssql_create_schema (schema : string) : string :=
  "IF NOT EXISTS (SELECT * FROM sys.schemas WHERE name = '" ++ schema
  ++ "') EXEC('CREATE SCHEMA [" ++ schema ++ "]');".

Definition mssql_drop_statement (schema table : string) : string :=
  "IF EXISTS (SELECT * FROM sys.objects WHERE object_id = OBJECT_ID(N'["
  ++ schema ++ "].[" ++ table ++ "]') AND type in (N'U')) DROP TABLE ["
  ++ schema ++ "].[" ++ table ++ "];".

Definition mssql_pk_clause (pk_cols : list string) : string :=
  match pk_cols with
  | [] => EmptyString
  | _ => ", PRIMARY KEY (" ++ join ", " pk_cols ++ ")"
  end.

Definition create_table_mssql_sql (columns : list column)
    (schema table : string) : string :=
  let col_defs := map mssql_col_def columns in
  let pk_cols := map (fun col => bracketed (name col)) (filter is_pk columns) in
  let create_table_sql :=
    "CREATE TABLE [" ++ schema ++ "].[" ++ table ++ "] ("
    ++ join ", " col_defs ++ mssql_pk_clause pk_cols ++ ");" in
  mssql_create_schema schema ++ " " ++ mssql_drop_statement schema table
  ++ " " ++ create_table_sql.

(* ================================================================= *)
(** ** A configurable source and target, for the examples *)

Module Lab.

(** [sqlcmd] on a source whose answers to the column query, the count
    query and the page queries are given; the key and identity answers
    are those of the scenario table. *)
Definition mssql (columns_answer count_answer page : string * Z)
    (server database query delimiter : string) : string * Z :=
  if contains "ORDINAL_POSITION" query then columns_answer
  else if contains "PRIMARY KEY" query then ("ID" ++ nl, 0)
  else if contains "IsIdentity" query then ("ID" ++ nl, 0)
  else if contains "IsComputed" query then (nl ++ "(0 rows affected)" ++ nl, 0)
  else if startswith "SELECT COUNT(*)" query then count_answer
  else if startswith "SELECT name FROM sys.tables" query
  then ("Customer" ++ nl ++ "FirstNames" ++ nl ++ "X" ++ nl ++ "2024" ++ nl
        ++ nl ++ "(4 rows affected)" ++ nl, 0)
  else if contains "OFFSET" query then page
  else (EmptyString, 0).

(** A target client that also answers the existence query of the SQLite
    path, and the answers of [Demo.client] otherwise. *)
Definition client (database query : string) (t : Demo.target)
    : (string * Z) * Demo.target :=
  if startswith "SELECT name FROM sqlite_master" query
  then (("Person_Customer" ++ nl, 0), t)
  else Demo.client database query t.

(** A target whose schema creation fails. *)
Definition refusing_client (database query : string) (t : Demo.target)
    : (string * Z) * Demo.target :=
  if startswith "CREATE SCHEMA" query
  then (("ERROR:  permission denied for database", 1), t)
  else Demo.client database query t.

Definition source (columns_answer count_answer page : string * Z)
    (target_client : string -> string -> Demo.target
                     -> (string * Z) * Demo.target)
    : DataSource Demo.target :=
  {| run_sql_mssql := mssql columns_answer count_answer page;
     run_sql_postgresql := target_client;
     run_sql_mysql := target_client;
     run_sql_sqlite := target_client |}.

Definition three_rows : string * Z :=
  ("3" ++ nl ++ nl ++ "(1 rows affected)" ++ nl, 0).

Definition no_rows : string * Z :=
  ("0" ++ nl ++ nl ++ "(1 rows affected)" ++ nl, 0).

(** The scenario source. *)
Definition usual : DataSource Demo.target :=
  source (Demo.columns_answer, 0) three_rows (Demo.page_answer, 0) client.

(** The scenario source with an empty table. *)
Definition empty_table : DataSource Demo.target :=
  source (Demo.columns_answer, 0) no_rows (EmptyString, 0) client.

(** A source whose column query fails. *)
Definition undescribed : DataSource Demo.target :=
  source ("Timeout", 1) three_rows (Demo.page_answer, 0) client.

(** A source whose pages hold no row. *)
Definition blank_pages : DataSource Demo.target :=
  source (Demo.columns_answer, 0) three_rows
    (nl ++ "(0 rows affected)" ++ nl, 0) client.

(** A target whose schema cannot be created. *)
Definition no_schema : DataSource Demo.target :=
  source (Demo.columns_answer, 0) three_rows (Demo.page_answer, 0)
    refusing_client.

Definition not_null_error : string :=
  "ERROR 1048 (23000) at line 1: Column 'Name' cannot be null".

Definition unique_error : string :=
  "Error: UNIQUE constraint failed: Person_Customer.ID".

(** A target that answers every [INSERT] with the given error. *)
Definition failing (n : Z) (error_text : string) : state Demo.target :=
  mk_state (Demo.mk_target n (error_text, 1)) [].

End Lab.

(* ================================================================= *)
(** ** Auxiliary definitions used in the statements *)

(** The escaping of one character, and of a string character by
    character: what both orders of the two [replace] calls compute. *)
Definition escape_char (c : ascii) : string :=
  if Ascii.eqb c squote then "''"
  else if Ascii.eqb c backslash then "\\"
  else String c EmptyString.

Fixpoint escape_each (s : string) : string :=
  match s with
  | EmptyString => EmptyString
  | String c r => escape_char c ++ escape_each r
  end.

(** The value the serializers work on: [val.strip() if val else '']. *)
Definition field_value (raw : string) : string :=
  if nonempty raw then strip raw else EmptyString.

(** A field of a column as the introspector leaves it: absent, or a
    text that is not empty, not ['NULL'], and has no white space at
    either end. *)
Definition normal_field (o : option string) : Prop :=
  forall s, o = Some s -> s <> EmptyString /\ s <> "NULL" /\ strip s = s.

(** A computation that only adds to the statements issued so far. *)
Definition grows {World A : Type} (m : M World A) : Prop :=
  forall st, exists more, issued (snd (m st)) = (issued st ++ more)%list.

(** A computation that sends nothing but statements built by [statement],
    one for each of some lists of tuples. *)
Definition sends_only {World A : Type} (statement : list string -> string)
    (m : M World A) : Prop :=
  forall st, exists batches,
    issued (snd (m st)) = (issued st ++ map statement batches)%list.

(** A computation of a transfer that does not stop for lack of fuel. *)
Definition ends {World A : Type} (m : M World (option A)) : Prop :=
  forall st, fst (m st) <> Returns None.

(* ================================================================= *)
(** * Properties *)

(** ** Python built-ins *)

Lemma int_raises_value_error (s : string) (e : exn) :
  int s = Raises e -> e = ValueError.
Proof. unfold int. destruct (int_literal (strip s)); congruence. Qed.

Lemma try_int_returns {A : Type} (s : string) (body : Z -> A) (handler : A) :
  exists a, try_int s body handler = Returns a.
Proof.
  unfold try_int.
  destruct (int s) as [n | e] eqn:E.
  - now exists (body n).
  - apply int_raises_value_error in E. subst e. now exists handler.
Qed.

Lemma try_int_of_int {A : Type} (s : string) (n : Z) (body : Z -> A) (handler : A) :
  int s = Returns n -> try_int s body handler = Returns (body n).
Proof. unfold try_int. now intros ->. Qed.

Lemma in_list_In (x : string) (l : list string) :
  in_list x l = true <-> In x l.
Proof.
  unfold in_list. rewrite existsb_exists. split.
  - intros [y [Hy E]]. apply String.eqb_eq in E. now subst.
  - intros Hx. exists x. split; [assumption | apply String.eqb_refl].
Qed.

Lemma lstrip_length (s : string) :
  lstrip s = s \/ (String.length (lstrip s) < String.length s)%nat.
Proof.
  induction s as [| c r IH]; simpl.
  - now left.
  - destruct (is_space c).
    + right. destruct IH as [-> | IH]; lia.
    + now left.
Qed.

Lemma rstrip_length (s : string) :
  (String.length (rstrip s) <= String.length s)%nat.
Proof.
  induction s as [| c r IH]; simpl.
  - lia.
  - destruct (rstrip r) as [| c' r'] eqn:E.
    + destruct (is_space c); simpl; lia.
    + simpl in *. lia.
Qed.

Lemma lstrip_head (s : string) :
  lstrip s = EmptyString
  \/ exists c r, lstrip s = String c r /\ is_space c = false.
Proof.
  induction s as [| c r IH]; simpl.
  - now left.
  - destruct (is_space c) eqn:E.
    + exact IH.
    + right. now exists c, r.
Qed.

Lemma rstrip_idempotent (s : string) : rstrip (rstrip s) = rstrip s.
Proof.
  induction s as [| c r IH]; simpl.
  - reflexivity.
  - destruct (rstrip r) as [| c' r'] eqn:E.
    + destruct (is_space c) eqn:Ec; simpl.
      * reflexivity.
      * now rewrite Ec.
    + change (rstrip (String c (String c' r')))
        with (match rstrip (String c' r') with
              | EmptyString =>
                  if is_space c then EmptyString else String c EmptyString
              | x => String c x
              end).
      now rewrite IH.
Qed.

Lemma lstrip_cons (c : ascii) (r : string) :
  is_space c = false -> lstrip (String c r) = String c r.
Proof. simpl. now intros ->. Qed.

Lemma rstrip_cons_head (c : ascii) (r : string) :
  is_space c = false -> exists r', rstrip (String c r) = String c r'.
Proof.
  intros Hc. simpl. destruct (rstrip r) as [| c' r'].
  - rewrite Hc. now exists EmptyString.
  - now exists (String c' r').
Qed.

Lemma strip_idempotent (s : string) : strip (strip s) = strip s.
Proof.
  unfold strip.
  destruct (lstrip_head s) as [-> | [c [r [-> Hc]]]].
  - reflexivity.
  - destruct (rstrip_cons_head c r Hc) as [r' E].
    rewrite <- (rstrip_idempotent (String c r)) at 2.
    rewrite E. now rewrite (lstrip_cons c r' Hc).
Qed.

(** A string that [strip] leaves alone is left alone by both halves. *)
Lemma stripped_both (s : string) :
  strip s = s -> lstrip s = s /\ rstrip s = s.
Proof.
  unfold strip. intros E.
  assert (L : lstrip s = s).
  { destruct (lstrip_length s) as [L | L]; [exact L |].
    pose proof (rstrip_length (lstrip s)) as R. rewrite E in R. lia. }
  split; [exact L |]. now rewrite L in E.
Qed.

Lemma stripped_head (s : string) :
  strip s = s -> s <> EmptyString ->
  exists c r, s = String c r /\ is_space c = false.
Proof.
  intros E Hs. destruct (stripped_both s E) as [L _].
  destruct (lstrip_head s) as [L' | [c [r [L' Hc]]]]; rewrite L in L'.
  - contradiction.
  - now exists c, r.
Qed.

Lemma append_empty_r (s : string) : s ++ EmptyString = s.
Proof. induction s as [| c r IH]; simpl; [reflexivity | now rewrite IH]. Qed.

Lemma append_assoc (a b c : string) : (a ++ b) ++ c = a ++ b ++ c.
Proof. induction a as [| x r IH]; simpl; [reflexivity | now rewrite IH]. Qed.

Lemma append_nonempty_r (a b : string) :
  b <> EmptyString -> a ++ b <> EmptyString.
Proof. destruct a; simpl; [trivial | discriminate]. Qed.

Lemma rstrip_app_space (s : string) : rstrip (s ++ " ") = rstrip s.
Proof.
  induction s as [| c r IH]; simpl.
  - reflexivity.
  - now rewrite IH.
Qed.

Lemma rstrip_app_stripped (a b : string) :
  rstrip b = b -> b <> EmptyString -> rstrip (a ++ b) = a ++ b.
Proof.
  intros Hb Hne. induction a as [| c r IH]; simpl.
  - exact Hb.
  - rewrite IH. destruct (r ++ b) eqn:E; [| reflexivity].
    exfalso. now apply (append_nonempty_r r b Hne).
Qed.

(** Two stripped fragments glued the way the row parser glues them. *)
Lemma strip_glued (a b : string) :
  strip a = a -> a <> EmptyString -> strip b = b -> b <> EmptyString ->
  strip ((a ++ " ") ++ b ++ " ") = a ++ " " ++ b.
Proof.
  intros Ha Hane Hb Hbne.
  destruct (stripped_head a Ha Hane) as [c [r [-> Hc]]].
  destruct (stripped_both b Hb) as [_ Rb].
  unfold strip.
  change ((String c r ++ " ") ++ b ++ " ")
    with (String c ((r ++ " ") ++ b ++ " ")).
  rewrite (lstrip_cons _ _ Hc).
  change (String c ((r ++ " ") ++ b ++ " "))
    with ((String c r ++ " ") ++ b ++ " ").
  rewrite <- (append_assoc (String c r ++ " ") b " ").
  rewrite rstrip_app_space.
  rewrite (rstrip_app_stripped (String c r ++ " ") b Rb Hbne).
  apply append_assoc.
Qed.

Lemma count_char_app (c : ascii) (a b : string) :
  count_char c (a ++ b) = (count_char c a + count_char c b)%nat.
Proof. induction a as [| x r IH]; simpl; [reflexivity | rewrite IH; lia]. Qed.

Lemma split_on_length (c : ascii) (s : string) :
  List.length (split_on c s) = S (count_char c s).
Proof.
  induction s as [| a r IH]; simpl.
  - reflexivity.
  - destruct (Ascii.eqb a c); simpl.
    + now rewrite IH.
    + destruct (split_on c r) as [| h t]; simpl in *; lia.
Qed.

Lemma nonempty_true (s : string) : nonempty s = true <-> s <> EmptyString.
Proof. destruct s; simpl; split; congruence. Qed.

(* ----------------------------------------------------------------- *)
(** ** TypeCatalog *)

Lemma convert_pg_returns (t : string) (ml p s : option string) :
  exists target, convert_type_mssql_to_pg t ml p s = Returns target.
Proof.
  unfold convert_type_mssql_to_pg.
  destruct (lookup_type (lower t)); [| now eexists].
  repeat match goal with
         | |- context [if ?b then _ else _] => destruct b
         end; now eexists.
Qed.

Lemma convert_mysql_returns (t : string) (ml p s : option string) :
  exists target, convert_type_mssql_to_mysql t ml p s = Returns target.
Proof.
  unfold convert_type_mssql_to_mysql.
  destruct (lookup_type (lower t)); [| now eexists].
  repeat match goal with
         | |- exists _, try_int _ _ _ = _ => apply try_int_returns
         | |- context [if ?b then _ else _] => destruct b
         end; try apply try_int_returns; now eexists.
Qed.

Lemma convert_sqlite_returns (t : string) (ml p s : option string) :
  exists target, convert_type_mssql_to_sqlite t ml p s = Returns target.
Proof.
  unfold convert_type_mssql_to_sqlite.
  destruct (lookup_type (lower t)); [| now eexists].
  repeat match goal with
         | |- context [if ?b then _ else _] => destruct b
         end; now eexists.
Qed.

(** C7. The three type converters are functions of their four arguments
    that return a target type for every source type string and every
    length, precision and scale, without raising; a source type that is
    not in the table gives [TEXT], the unbounded text type of each of the
    three dialects. *)
Theorem type_conversion_total
    (mssql_type : string) (max_length precision scale : option string) :
  (exists target,
     convert_type_mssql_to_pg mssql_type max_length precision scale
     = Returns target)
  /\ (exists target,
        convert_type_mssql_to_mysql mssql_type max_length precision scale
        = Returns target)
  /\ (exists target,
        convert_type_mssql_to_sqlite mssql_type max_length precision scale
        = Returns target)
  /\ (lookup_type (lower mssql_type) = None ->
      convert_type_mssql_to_pg mssql_type max_length precision scale
      = Returns "TEXT"
      /\ convert_type_mssql_to_mysql mssql_type max_length precision scale
         = Returns "TEXT"
      /\ convert_type_mssql_to_sqlite mssql_type max_length precision scale
         = Returns "TEXT").
Proof.
  split; [apply convert_pg_returns |].
  split; [apply convert_mysql_returns |].
  split; [apply convert_sqlite_returns |].
  intros Hunknown.
  unfold convert_type_mssql_to_pg, convert_type_mssql_to_mysql,
    convert_type_mssql_to_sqlite.
  now rewrite Hunknown.
Qed.

Lemma type_conversion_total_witness :
  lookup_type (lower "Geography") = None
  /\ convert_type_mssql_to_pg "Geography" (Some "-1") None None = Returns "TEXT"
  /\ convert_type_mssql_to_mysql "Geography" (Some "-1") None None
     = Returns "TEXT"
  /\ convert_type_mssql_to_sqlite "Geography" (Some "-1") None None
     = Returns "TEXT".
Proof.
  split; [reflexivity |].
  apply (type_conversion_total "Geography" (Some "-1") None None).
  reflexivity.
Defined.

Lemma int_of_empty : int EmptyString = Raises ValueError.
Proof. reflexivity. Qed.

Lemma int_of_null : int "NULL" = Raises ValueError.
Proof. reflexivity. Qed.

Lemma mysql_wide_length_spec (n : Z) :
  mysql_wide_length n
  = if mysql_max_field_width <? mysql_widening_factor * n then "TEXT"
    else "VARCHAR(" ++ str_of_Z (mysql_widening_factor * n) ++ ")".
Proof.
  unfold mysql_wide_length, mysql_max_field_width, mysql_widening_factor.
  destruct (Z.ltb_spec 65535 (4 * n)) as [Hw | Hw].
  - destruct (Z.gtb_spec n 16383) as [H1 | H1]; [reflexivity | lia].
  - destruct (Z.gtb_spec n 16383) as [H1 | H1]; [lia |].
    destruct (Z.gtb_spec (n * 3) 65535) as [H2 | H2]; [lia |].
    simpl. rewrite Z.min_l by lia. now rewrite (Z.mul_comm n 4).
Qed.

(** C8. MySQL resolution of [char], [varchar], [nchar], [nvarchar]. With
    no length, or the length ['-1'], the type is [TEXT]. With a length
    that reads as the integer [n]: a double-byte type becomes
    [VARCHAR(4 * n)] unless [4 * n] exceeds 65535, a single-byte type
    keeps its name and its length unless [n] exceeds 65535; past the bound
    the type is [TEXT]. *)
Theorem mysql_character_type_resolution
    (mssql_type : string) (max_length precision scale : option string) :
  In (lower mssql_type) ["char"; "varchar"; "nchar"; "nvarchar"] ->
  (max_length = None \/ max_length = Some "-1" ->
   convert_type_mssql_to_mysql mssql_type max_length precision scale
   = Returns "TEXT")
  /\ (forall (length_text : string) (n : Z),
        max_length = Some length_text -> length_text <> "-1" ->
        int length_text = Returns n ->
        convert_type_mssql_to_mysql mssql_type max_length precision scale
        = Returns
            (if wide_character (lower mssql_type) then
               if mysql_max_field_width <? mysql_widening_factor * n
               then "TEXT"
               else "VARCHAR(" ++ str_of_Z (mysql_widening_factor * n) ++ ")"
             else
               if mysql_max_field_width <? n then "TEXT"
               else mysql_base_name (lower mssql_type) ++ "(" ++ length_text
                    ++ ")")).
Proof.
  intros Hfamily. split.
  - intros Habsent. unfold convert_type_mssql_to_mysql.
    simpl in Hfamily.
    destruct Hfamily as [<- | [<- | [<- | [<- | []]]]];
      destruct Habsent as [-> | ->]; reflexivity.
  - intros length_text n -> Hsentinel Hint.
    assert (Hne : nonempty length_text = true).
    { destruct length_text; [| reflexivity].
      rewrite int_of_empty in Hint. discriminate. }
    assert (Hs : negb (String.eqb length_text "-1") = true).
    { apply negb_true_iff. now apply String.eqb_neq. }
    assert (Hn : negb (String.eqb length_text "NULL") = true).
    { apply negb_true_iff. apply String.eqb_neq. intros ->.
      rewrite int_of_null in Hint. discriminate. }
    unfold convert_type_mssql_to_mysql, mysql_base_name.
    simpl in Hfamily.
    destruct Hfamily as [<- | [<- | [<- | [<- | []]]]];
      cbn [lookup_type assoc TYPE_MAPPING]; simpl;
      rewrite Hne, Hs, Hn; simpl;
      rewrite (try_int_of_int _ _ _ _ Hint);
      rewrite ?mysql_wide_length_spec; unfold mysql_narrow_length, fmt,
        mysql_max_field_width;
      try reflexivity;
      rewrite Z.gtb_ltb; reflexivity.
Qed.

Lemma mysql_character_type_resolution_witness :
  convert_type_mssql_to_mysql "NVARCHAR" None None None = Returns "TEXT"
  /\ convert_type_mssql_to_mysql "NVARCHAR" (Some "50") None None
     = Returns "VARCHAR(200)".
Proof.
  split.
  - apply (mysql_character_type_resolution "NVARCHAR" None None None).
    + simpl. tauto.
    + now left.
  - apply (proj2 (mysql_character_type_resolution "NVARCHAR" (Some "50")
                    None None
                    (or_intror (or_intror (or_intror (or_introl eq_refl)))))
             "50" 50 eq_refl).
    + discriminate.
    + reflexivity.
Defined.

(* ----------------------------------------------------------------- *)
(** ** SchemaIntrospector *)

Lemma filter_map_In {A B : Type} (f : A -> option B) (l : list A) (b : B) :
  In b (filter_map f l) -> exists a, In a l /\ f a = Some b.
Proof.
  induction l as [| a r IH]; simpl; [tauto |].
  destruct (f a) as [b' |] eqn:E.
  - intros [<- | Hb].
    + exists a. auto.
    + destruct (IH Hb) as [a' [Ha' Ea']]. exists a'. auto.
  - intros Hb. destruct (IH Hb) as [a' [Ha' Ea']]. exists a'. auto.
Qed.

Lemma filter_map_app {A B : Type} (f : A -> option B) (l1 l2 : list A) :
  filter_map f (l1 ++ l2) = (filter_map f l1 ++ filter_map f l2)%list.
Proof.
  induction l1 as [| a r IH]; simpl; [reflexivity |].
  destruct (f a); simpl; now rewrite IH.
Qed.

Lemma parse_column_line_name (pk_columns identity_columns : list string)
    (raw : string) (col : column) :
  parse_column_line pk_columns identity_columns raw = Some col ->
  (2 <= String.length (name col))%nat.
Proof.
  unfold parse_column_line.
  destruct (column_line_kept (strip raw)); [| discriminate].
  destruct (map strip (split_on "," (strip raw)))
    as [| p0 [| p1 [| p2 [| p3 [| p4 [| p5 rest]]]]]]; try discriminate.
  destruct (nonempty p0); simpl; [| discriminate].
  destruct (Nat.ltb_spec 1 (String.length p0)) as [Hlen | Hlen];
    [| discriminate].
  intros [= <-]. simpl. lia.
Qed.

(** C10. Every column returned by [get_table_definition_mssql] has a name
    of at least two characters; a metadata line whose first field is one
    character long yields no column, whatever its other fields are. *)
Theorem described_column_names_have_two_characters
    {World : Type} `{DataSource World}
    (server database schema table : string) :
  (forall col,
     In col (get_table_definition_mssql server database schema table) ->
     (2 <= String.length (name col))%nat)
  /\ (forall (pk_columns identity_columns : list string) (raw col_name : string)
             (fields : list string),
        map strip (split_on "," (strip raw)) = col_name :: fields ->
        String.length col_name = 1%nat ->
        parse_column_line pk_columns identity_columns raw = None).
Proof.
  split.
  - intros col. unfold get_table_definition_mssql.
    destruct (run_sql_mssql server database (columns_query schema table) ",")
      as [result1 code1].
    destruct (negb (code1 =? 0)); [intros [] |].
    intros Hin. apply filter_In in Hin. destruct Hin as [Hin _].
    apply filter_map_In in Hin. destruct Hin as [raw [_ Hparse]].
    now apply parse_column_line_name in Hparse.
  - intros pk_columns identity_columns raw col_name fields Hfields Hlen.
    unfold parse_column_line. rewrite Hfields.
    destruct (column_line_kept (strip raw)); [| reflexivity].
    destruct fields as [| p1 [| p2 [| p3 [| p4 [| p5 rest]]]]]; try reflexivity.
    rewrite Hlen. simpl. now rewrite andb_false_r.
Qed.

Lemma described_column_names_have_two_characters_witness :
  (2 <= String.length "ID")%nat
  /\ parse_column_line ["X"] [] "X,int,NO,NULL,10,0" = None.
Proof.
  destruct (@described_column_names_have_two_characters Demo.target
              Demo.source_ok "srv" "AdventureWorks2022" "Person" "Customer")
    as [Hnames Hone].
  split.
  - apply (Hnames (mk_column "ID" "int" false None (Some "10") (Some "0")
                     true true)).
    vm_compute. now left.
  - apply (Hone ["X"] [] "X,int,NO,NULL,10,0" "X"
             ["int"; "NO"; "NULL"; "10"; "0"]); reflexivity.
Defined.

(* ----------------------------------------------------------------- *)
(** ** Literal rendering *)

Lemma escape_pg_each (s : string) : escape_pg s = escape_each s.
Proof.
  unfold escape_pg. induction s as [| c r IH]; simpl.
  - reflexivity.
  - unfold escape_char.
    destruct (Ascii.eqb_spec c squote) as [-> | Hq]; simpl.
    + now rewrite IH.
    + destruct (Ascii.eqb_spec c backslash) as [-> | Hb]; simpl;
        now rewrite IH.
Qed.

Lemma escape_mysql_each (s : string) : escape_mysql s = escape_each s.
Proof.
  unfold escape_mysql. induction s as [| c r IH]; simpl.
  - reflexivity.
  - unfold escape_char.
    destruct (Ascii.eqb_spec c backslash) as [-> | Hb]; simpl.
    + now rewrite IH.
    + destruct (Ascii.eqb_spec c squote) as [-> | Hq]; simpl;
        now rewrite IH.
Qed.

Lemma escape_sqlite_each (s : string) : escape_sqlite s = escape_each s.
Proof. exact (escape_mysql_each s). Qed.

Lemma read_body_escape_each (s : string) :
  read_body (escape_each s ++ "'") = Some s.
Proof.
  induction s as [| c r IH].
  - reflexivity.
  - cbn [escape_each]. unfold escape_char.
    destruct (Ascii.eqb_spec c squote) as [-> | Hq].
    + cbn. now rewrite IH.
    + destruct (Ascii.eqb_spec c backslash) as [-> | Hb].
      * cbn. now rewrite IH.
      * cbn [append read_body].
        apply Ascii.eqb_neq in Hq, Hb. rewrite Hq, Hb, IH. reflexivity.
Qed.

Lemma read_literal_quoted (s : string) :
  read_literal (quoted (escape_each s)) = Some s.
Proof. unfold quoted. cbn. apply read_body_escape_each. Qed.

Lemma contains_quote_not_null (val : string) :
  contains "'" val = true -> nonempty val = true /\ is_null_text val = false.
Proof.
  intros Hq. split.
  - destruct val; [discriminate | reflexivity].
  - unfold is_null_text. apply orb_false_iff. split.
    + apply String.eqb_neq. intros ->. discriminate.
    + apply String.eqb_neq. intros ->. discriminate.
Qed.

(** C4. A stripped field value of a character or text column that holds a
    quote and a backslash is rendered, on the PostgreSQL, MySQL and SQLite
    paths, as a literal that reads back as the value itself under the
    escaping rules of the adapters. *)
Theorem string_literal_round_trip (col : column) (val : string) :
  In (lower (data_type col)) character_family ->
  strip val = val ->
  contains "'" val = true ->
  contains "\" val = true ->
  (exists literal,
     render_pg col val = Returns literal /\ read_literal literal = Some val)
  /\ (exists literal,
        render_mysql col val = Returns literal
        /\ read_literal literal = Some val)
  /\ (exists literal,
        render_sqlite col val = Returns literal
        /\ read_literal literal = Some val).
Proof.
  intros Hfamily Hstripped Hquote _.
  destruct (contains_quote_not_null val Hquote) as [Hne Hnull].
  unfold render_pg, render_mysql, render_sqlite.
  rewrite Hne, Hstripped, Hnull.
  simpl in Hfamily.
  destruct Hfamily as [<- | [<- | [<- | [<- | [<- | [<- | []]]]]]];
    cbn [String.eqb in_list existsb string_types datetime_types orb
         Ascii.eqb Bool.eqb];
    (split; [| split]); eexists; (split; [reflexivity |]);
    rewrite ?escape_pg_each, ?escape_mysql_each, ?escape_sqlite_each;
    apply read_literal_quoted.
Qed.

Lemma string_literal_round_trip_witness :
  exists literal,
    render_mysql (mk_column "Name" "nvarchar" false (Some "50") None None
                    false false) "O'Neil \ Sons"
    = Returns literal
    /\ read_literal literal = Some "O'Neil \ Sons".
Proof.
  apply (string_literal_round_trip
           (mk_column "Name" "nvarchar" false (Some "50") None None false false)
           "O'Neil \ Sons").
  - simpl. tauto.
  - reflexivity.
  - reflexivity.
  - reflexivity.
Defined.

Lemma null_or_empty_spec (col : column) :
  null_or_empty col
  = if negb (is_nullable col)
       && in_list (lower (data_type col)) (string_types ++ ["hierarchyid"])
    then "''" else "NULL".
Proof.
  unfold null_or_empty.
  destruct (is_nullable col); cbn [negb andb]; [reflexivity |].
  destruct (in_list (lower (data_type col)) (string_types ++ ["hierarchyid"]));
    [reflexivity |].
  now destruct (in_list (lower (data_type col)) datetime_types).
Qed.

(** The MySQL and SQLite paths give an empty or ['NULL'] field the empty
    string literal in a NOT NULL column of a string type, and [NULL]
    otherwise. *)
Lemma mysql_sqlite_missing_value (col : column) (val : string) :
  val = EmptyString \/ val = "NULL" ->
  render_mysql col val = Returns (null_or_empty col)
  /\ render_sqlite col val = Returns (null_or_empty col).
Proof. intros [-> | ->]; split; reflexivity. Qed.

(** C2. On the PostgreSQL path an empty or ['NULL'] field of a NOT NULL
    character or text column is rendered [NULL]; the MySQL and SQLite
    paths render the empty string literal for the same column and
    value. *)
Theorem pg_missing_text_value_is_null (col : column) (val : string) :
  is_nullable col = false ->
  In (lower (data_type col)) character_family ->
  val = EmptyString \/ val = "NULL" ->
  render_pg col val = Returns "NULL"
  /\ render_mysql col val = Returns "''"
  /\ render_sqlite col val = Returns "''".
Proof.
  intros Hnotnull Hfamily Hval.
  destruct (mysql_sqlite_missing_value col val Hval) as [-> ->].
  rewrite null_or_empty_spec, Hnotnull.
  split.
  - destruct Hval as [-> | ->]; reflexivity.
  - simpl in Hfamily.
    destruct Hfamily as [<- | [<- | [<- | [<- | [<- | [<- | []]]]]]];
      split; reflexivity.
Qed.

Lemma pg_missing_text_value_is_null_witness :
  render_pg (mk_column "Name" "nvarchar" false (Some "50") None None
               false false) EmptyString
  = Returns "NULL"
  /\ render_mysql (mk_column "Name" "nvarchar" false (Some "50") None None
                     false false) EmptyString
     = Returns "''"
  /\ render_sqlite (mk_column "Name" "nvarchar" false (Some "50") None None
                      false false) EmptyString
     = Returns "''".
Proof.
  apply (pg_missing_text_value_is_null
           (mk_column "Name" "nvarchar" false (Some "50") None None false false)
           EmptyString).
  - reflexivity.
  - simpl. tauto.
  - now left.
Defined.

(* ----------------------------------------------------------------- *)
(** ** DDLBuilder *)

Lemma rmap_returns {A B : Type} (f : A -> result B) (l : list A) :
  (forall a, In a l -> exists b, f a = Returns b) ->
  exists bs, rmap f l = Returns bs /\ List.length bs = List.length l.
Proof.
  induction l as [| a r IH]; intros Hf; simpl.
  - now exists [].
  - destruct (Hf a (or_introl eq_refl)) as [b ->].
    destruct IH as [bs [-> Hlen]].
    { intros a' Ha'. apply Hf. now right. }
    exists (b :: bs). simpl. now rewrite Hlen.
Qed.

Lemma prefix_append (p x : string) : String.prefix p (p ++ x) = true.
Proof.
  induction p as [| c r IH]; simpl.
  - now destruct x.
  - destruct (ascii_dec c c); [exact IH | congruence].
Qed.

Lemma sqlite_col_def_returns (columns : list column) (col : column) :
  exists def, sqlite_col_def columns col = Returns def.
Proof.
  unfold sqlite_col_def.
  destruct (convert_sqlite_returns (data_type col) (max_length col)
              (precision col) (scale col)) as [t ->].
  simpl. now eexists.
Qed.

Lemma mysql_col_def_returns (columns : list column) (col : column) :
  exists def, mysql_col_def columns col = Returns def.
Proof.
  unfold mysql_col_def.
  destruct (convert_mysql_returns (data_type col) (max_length col)
              (precision col) (scale col)) as [t ->].
  simpl. now eexists.
Qed.

Lemma mysql_prefixed_key_prefix (wide : string) (col : column) (n : Z) :
  startswith (backquoted (name col)) (mysql_prefixed_key wide col n) = true.
Proof.
  unfold mysql_prefixed_key, startswith.
  destruct (_ && _); [apply prefix_append |].
  destruct (n >? 767); [apply prefix_append |].
  rewrite <- (append_empty_r (backquoted (name col))) at 2.
  apply prefix_append.
Qed.

Lemma backquoted_prefix_self (col : column) :
  startswith (backquoted (name col)) (backquoted (name col)) = true.
Proof.
  unfold startswith.
  rewrite <- (append_empty_r (backquoted (name col))) at 2.
  apply prefix_append.
Qed.

Lemma try_int_cases {A : Type} (P : A -> Prop) (s : string) (body : Z -> A)
    (handler : A) :
  (forall n, P (body n)) -> P handler ->
  exists a, try_int s body handler = Returns a /\ P a.
Proof.
  intros Hbody Hhandler. unfold try_int.
  destruct (int s) as [n | e] eqn:E.
  - now exists (body n).
  - apply int_raises_value_error in E. subst e. now exists handler.
Qed.

(** The key entry of a column names that column, with or without a prefix
    length. *)
Lemma mysql_key_entry_returns (col : column) :
  exists entry,
    mysql_key_entry col = Returns entry
    /\ startswith (backquoted (name col)) entry = true.
Proof.
  unfold mysql_key_entry.
  destruct (String.eqb (lower (data_type col)) "hierarchyid").
  { eexists. split; [reflexivity | apply prefix_append]. }
  destruct (_ && _).
  { apply try_int_cases;
      [intros n; apply mysql_prefixed_key_prefix
      | apply backquoted_prefix_self]. }
  destruct (_ && _).
  { apply try_int_cases;
      [intros n; apply mysql_prefixed_key_prefix
      | apply backquoted_prefix_self]. }
  eexists. split; [reflexivity | apply backquoted_prefix_self].
Qed.

Lemma mysql_key_entry_integer (col : column) :
  in_list (lower (data_type col)) integer_types = true ->
  mysql_key_entry col = Returns (backquoted (name col)).
Proof.
  intros Hint. apply in_list_In in Hint. unfold mysql_key_entry.
  simpl in Hint.
  destruct Hint as [<- | [<- | [<- | [<- | []]]]]; reflexivity.
Qed.

(** [pk_cols] of the MySQL builder: the key entries of the primary-key
    columns, in order. *)
Lemma mysql_pk_cols_filter (columns : list column) :
  mysql_pk_cols columns = rmap mysql_key_entry (filter is_pk columns).
Proof.
  unfold mysql_pk_cols.
  induction columns as [| col rest IH]; simpl.
  - reflexivity.
  - unfold mysql_pk_entry at 1.
    destruct (is_pk col); simpl.
    + destruct (mysql_key_entry col) as [entry | e]; simpl; [| reflexivity].
      rewrite <- IH.
      destruct (rmap mysql_pk_entry rest); reflexivity.
    + rewrite <- IH.
      destruct (rmap mysql_pk_entry rest); reflexivity.
Qed.

Lemma mysql_pk_cols_returns (columns : list column) :
  exists pk_cols,
    mysql_pk_cols columns = Returns pk_cols
    /\ Forall2 (fun col entry => startswith (backquoted (name col)) entry = true)
         (filter is_pk columns) pk_cols.
Proof.
  rewrite mysql_pk_cols_filter.
  induction (filter is_pk columns) as [| col rest IH]; simpl.
  - exists []. split; [reflexivity | constructor].
  - destruct (mysql_key_entry_returns col) as [entry [-> Hentry]].
    destruct IH as [entries [-> Hentries]].
    exists (entry :: entries). split; [reflexivity | now constructor].
Qed.

(** [pk_cols] of the SQLite builder. *)
Lemma sqlite_pk_cols_filter (columns l : list column) :
  filter_map (sqlite_pk_entry columns) l
  = map (fun col => backquoted (name col))
      (filter (fun col => negb (is_identity col && (count_pk columns =? 1)%nat))
         (filter is_pk l)).
Proof.
  induction l as [| col rest IH]; simpl.
  - reflexivity.
  - unfold sqlite_pk_entry at 1.
    destruct (is_pk col); simpl.
    + destruct (negb (is_identity col && (count_pk columns =? 1)%nat));
        simpl; now rewrite IH.
    + exact IH.
Qed.

Lemma single_key (columns : list column) :
  hasSingleAutoincrementKey columns = true ->
  exists key,
    filter is_pk columns = [key] /\ In key columns /\ is_pk key = true
    /\ is_identity key = true
    /\ in_list (lower (data_type key)) integer_types = true.
Proof.
  unfold hasSingleAutoincrementKey.
  destruct (filter is_pk columns) as [| key [| other rest]] eqn:E;
    try discriminate.
  intros Hkey. apply andb_true_iff in Hkey. destruct Hkey as [Hid Hint].
  assert (Hin : In key (filter is_pk columns)) by (rewrite E; now left).
  apply filter_In in Hin. destruct Hin as [Hin Hpk].
  exists key. auto.
Qed.

Lemma convert_sqlite_integer (col : column) :
  in_list (lower (data_type col)) integer_types = true ->
  convert_type_mssql_to_sqlite (data_type col) (max_length col) (precision col)
    (scale col)
  = Returns "INTEGER".
Proof.
  intros Hint. apply in_list_In in Hint. unfold convert_type_mssql_to_sqlite.
  simpl in Hint.
  destruct Hint as [<- | [<- | [<- | [<- | []]]]]; reflexivity.
Qed.

(** C5. With a single auto-increment key, the SQLite builder declares the
    key inside its column ([INTEGER PRIMARY KEY AUTOINCREMENT]) and adds no
    [PRIMARY KEY] clause; the MySQL builder marks the column
    [AUTO_INCREMENT] and still adds the clause [PRIMARY KEY (`key`)].
    For any other table with a primary key whose identity columns are of
    integer type, both builders end the column list with a [PRIMARY KEY]
    clause that names the key columns in order (the MySQL builder may add
    a prefix length to an entry). *)
Theorem primary_key_rendering (columns : list column) :
  (hasSingleAutoincrementKey columns = true ->
   exists key sqlite_defs mysql_defs mysql_type,
     filter is_pk columns = [key]
     /\ rmap (sqlite_col_def columns) columns = Returns sqlite_defs
     /\ sqlite_col_defs columns = Returns sqlite_defs
     /\ sqlite_col_def columns key
        = Returns (backquoted (name key) ++ " INTEGER PRIMARY KEY AUTOINCREMENT")
     /\ rmap (mysql_col_def columns) columns = Returns mysql_defs
     /\ mysql_col_defs columns
        = Returns
            (mysql_defs ++ [primary_key_clause [backquoted (name key)]])%list
     /\ mysql_col_def columns key
        = Returns (backquoted (name key) ++ " " ++ mysql_type
                   ++ " AUTO_INCREMENT" ++ not_null_clause key))
  /\ (hasSingleAutoincrementKey columns = false ->
      identity_is_integer columns ->
      filter is_pk columns <> [] ->
      exists sqlite_defs mysql_defs mysql_keys,
        rmap (sqlite_col_def columns) columns = Returns sqlite_defs
        /\ sqlite_col_defs columns
           = Returns
               (sqlite_defs
                ++ [primary_key_clause
                      (map (fun col => backquoted (name col))
                         (filter is_pk columns))])%list
        /\ rmap (mysql_col_def columns) columns = Returns mysql_defs
        /\ Forall2
             (fun col entry => startswith (backquoted (name col)) entry = true)
             (filter is_pk columns) mysql_keys
        /\ mysql_col_defs columns
           = Returns (mysql_defs ++ [primary_key_clause mysql_keys])%list).
Proof.
  destruct (rmap_returns (sqlite_col_def columns) columns
              (fun col _ => sqlite_col_def_returns columns col))
    as [sqlite_defs [Hsqlite _]].
  destruct (rmap_returns (mysql_col_def columns) columns
              (fun col _ => mysql_col_def_returns columns col))
    as [mysql_defs [Hmysql _]].
  split.
  - intros Hsingle.
    destruct (single_key columns Hsingle)
      as [key [Hkeys [Hin [Hpk [Hid Hint]]]]].
    assert (Hcount : (count_pk columns =? 1)%nat = true).
    { unfold count_pk. now rewrite Hkeys. }
    destruct (convert_mysql_returns (data_type key) (max_length key)
                (precision key) (scale key)) as [mysql_type Htype].
    exists key, sqlite_defs, mysql_defs, mysql_type.
    split; [exact Hkeys |]. split; [exact Hsqlite |]. split; [| split].
    + unfold sqlite_col_defs. rewrite Hsqlite. simpl.
      rewrite sqlite_pk_cols_filter, Hkeys. simpl.
      now rewrite Hid, Hcount.
    + unfold sqlite_col_def, sqlite_autoincrement.
      rewrite (convert_sqlite_integer key Hint), Hid, Hpk, Hcount, Hint.
      simpl. unfold backquoted. now rewrite !append_assoc.
    + split; [exact Hmysql |]. split.
      * unfold mysql_col_defs. rewrite Hmysql. simpl.
        rewrite mysql_pk_cols_filter, Hkeys. simpl.
        now rewrite (mysql_key_entry_integer key Hint).
      * unfold mysql_col_def, mysql_auto_increment.
        rewrite Htype, Hid, Hpk, Hcount. reflexivity.
  - intros Hother Hinvariant Hkeyed.
    destruct (mysql_pk_cols_returns columns) as [mysql_keys [Hkeys Hnames]].
    exists sqlite_defs, mysql_defs, mysql_keys.
    split; [exact Hsqlite |]. split; [| split; [exact Hmysql | split]].
    + unfold sqlite_col_defs. rewrite Hsqlite. simpl.
      rewrite sqlite_pk_cols_filter.
      assert (Hall :
        filter (fun col => negb (is_identity col && (count_pk columns =? 1)%nat))
          (filter is_pk columns) = filter is_pk columns).
      { apply forallb_filter_id. apply forallb_forall. intros col Hcol.
        apply negb_true_iff. apply andb_false_iff.
        destruct (is_identity col) eqn:Hid; [right | now left].
        apply Nat.eqb_neq. intros Hone.
        unfold hasSingleAutoincrementKey, count_pk in *.
        destruct (filter is_pk columns) as [| key [| other rest]] eqn:E;
          try discriminate.
        destruct Hcol as [<- | []].
        assert (Hin : In key (filter is_pk columns)) by (rewrite E; now left).
        apply filter_In in Hin. destruct Hin as [Hin _].
        rewrite Hid, (Hinvariant key Hin Hid) in Hother. discriminate. }
      rewrite Hall.
      destruct (filter is_pk columns) as [| key rest]; [congruence |].
      reflexivity.
    + exact Hnames.
    + unfold mysql_col_defs. rewrite Hmysql. simpl. rewrite Hkeys. simpl.
      destruct mysql_keys as [| entry entries]; [| reflexivity].
      inversion Hnames as [Hnil |]. congruence.
Qed.

(* ----------------------------------------------------------------- *)
(** ** Row-text reconstruction *)

Lemma fit_parts_length (ncols : nat) (parts : list string) :
  List.length (fit_parts ncols parts) = ncols.
Proof.
  unfold fit_parts.
  destruct (Nat.ltb_spec (List.length parts) ncols) as [Hshort | Hshort].
  - rewrite length_app, repeat_length. lia.
  - destruct (Nat.ltb_spec ncols (List.length parts)) as [Hlong | Hlong].
    + rewrite length_firstn. lia.
    + lia.
Qed.

Lemma fit_parts_exact (ncols : nat) (parts : list string) :
  List.length parts = ncols -> fit_parts ncols parts = parts.
Proof.
  intros <-. unfold fit_parts. now rewrite Nat.ltb_irrefl.
Qed.

(** Every row handed to the serializer has one field per column. *)
Lemma row_of_line_length (ncols : nat) (line : string) (row : list string) :
  row_of_line ncols line = Some row -> List.length row = ncols.
Proof.
  unfold row_of_line. destruct (nonempty line); [| discriminate].
  destruct (Nat.eqb_spec
              (List.length
                 (map clean_part (fit_parts ncols (split_on tab_char line))))
              ncols) as [Hlen | Hlen]; [| discriminate].
  now intros [= <-].
Qed.

Lemma row_of_line_exact (ncols : nat) (line : string) :
  line <> EmptyString ->
  S (count_char tab_char line) = ncols ->
  row_of_line ncols line = Some (map clean_part (split_on tab_char line)).
Proof.
  intros Hne Htabs. unfold row_of_line.
  apply nonempty_true in Hne. rewrite Hne.
  rewrite fit_parts_exact by (now rewrite split_on_length).
  rewrite length_map, split_on_length, Htabs. now rewrite Nat.eqb_refl.
Qed.

Lemma reassemble_step_frame (ncols : nat) (lines : list string)
    (current line : string) :
  reassemble_step ncols (lines, current) line
  = ((lines ++ fst (reassemble_step ncols ([], current) line))%list,
     snd (reassemble_step ncols ([], current) line)).
Proof.
  unfold reassemble_step.
  destruct (data_line (strip line)); simpl; [| now rewrite app_nil_r].
  destruct (_ <? _); simpl; [now rewrite app_nil_r |].
  destruct (nonempty current); reflexivity.
Qed.

Lemma reassemble_fold_frame (ncols : nat) (physical lines : list string)
    (current : string) :
  fold_left (reassemble_step ncols) physical (lines, current)
  = ((lines
      ++ fst (fold_left (reassemble_step ncols) physical ([], current)))%list,
     snd (fold_left (reassemble_step ncols) physical ([], current))).
Proof.
  revert lines current.
  induction physical as [| line rest IH]; intros lines current;
    cbn [fold_left].
  - cbn [fst snd]. now rewrite app_nil_r.
  - rewrite reassemble_step_frame.
    rewrite IH.
    destruct (reassemble_step ncols ([], current) line) as [found pending].
    cbn [fst snd].
    rewrite (IH found pending).
    cbn [fst snd]. now rewrite app_assoc.
Qed.

Lemma reassemble_fold_skipped (ncols : nat) (physical : list string)
    (acc : list string * string) :
  Forall (fun raw => data_line (strip raw) = false) physical ->
  fold_left (reassemble_step ncols) physical acc = acc.
Proof.
  intros Hskipped. revert acc.
  induction Hskipped as [| raw rest Hraw _ IH]; intros acc; simpl.
  - reflexivity.
  - rewrite IH. unfold reassemble_step. destruct acc as [lines current].
    now rewrite Hraw.
Qed.

Lemma data_line_nonempty (line : string) :
  data_line line = true -> line <> EmptyString.
Proof.
  unfold data_line. intros Hdata.
  apply andb_true_iff in Hdata. destruct Hdata as [Hdata _].
  apply andb_true_iff in Hdata. destruct Hdata as [Hdata _].
  apply andb_true_iff in Hdata. destruct Hdata as [Hdata _].
  now apply nonempty_true.
Qed.

(** The two physical lines of a wrapped row, met with no fragment
    pending: the lines joined by one space, either as a finished line or
    as the pending fragment. *)
Lemma reassemble_wrapped_pair (ncols : nat) (lines : list string)
    (first second : string) :
  data_line (strip first) = true ->
  data_line (strip second) = true ->
  (count_char tab_char (strip first) + 1 < ncols)%nat ->
  fold_left (reassemble_step ncols) [first; second] (lines, EmptyString)
  = if (count_char tab_char (strip second) + 1 <? ncols)%nat
    then (lines, ((strip first ++ " ") ++ strip second ++ " ")%string)
    else ((lines ++ [(strip first ++ " " ++ strip second)%string])%list,
          EmptyString).
Proof.
  intros Hfirst Hsecond Hfragment. cbn [fold_left].
  assert (Hpending :
    reassemble_step ncols (lines, EmptyString) first
    = (lines, (strip first ++ " ")%string)).
  { unfold reassemble_step. rewrite Hfirst.
    destruct (Z.ltb_spec (Z.of_nat (count_char tab_char (strip first)))
                (Z.of_nat ncols - 1)) as [_ | Hno]; [reflexivity | lia]. }
  rewrite Hpending.
  unfold reassemble_step. rewrite Hsecond.
  destruct (Z.ltb_spec (Z.of_nat (count_char tab_char (strip second)))
              (Z.of_nat ncols - 1)) as [Hshort | Hfull];
    destruct (Nat.ltb_spec (count_char tab_char (strip second) + 1) ncols)
      as [Hshort' | Hfull']; try lia.
  - reflexivity.
  - assert (Hne : nonempty (strip first ++ " ") = true).
    { apply nonempty_true. apply append_nonempty_r. discriminate. }
    rewrite Hne. now rewrite append_assoc.
Qed.

Lemma reassemble_physical_settled (ncols : nat) (physical : list string) :
  snd (fold_left (reassemble_step ncols) physical ([], EmptyString))
  = EmptyString ->
  reassemble_physical ncols physical
  = fst (fold_left (reassemble_step ncols) physical ([], EmptyString)).
Proof.
  unfold reassemble_physical.
  destruct (fold_left (reassemble_step ncols) physical ([], EmptyString))
    as [lines current].
  simpl. now intros ->.
Qed.

(** The lines rebuilt from a page that holds a row wrapped over two
    physical lines. *)
Lemma reassemble_wrapped_page (ncols : nat) (before after : list string)
    (first second : string) :
  snd (fold_left (reassemble_step ncols) before ([], EmptyString))
  = EmptyString ->
  data_line (strip first) = true ->
  data_line (strip second) = true ->
  (count_char tab_char (strip first) + 1 < ncols)%nat ->
  ((count_char tab_char (strip second) + 1 < ncols)%nat ->
   Forall (fun raw => data_line (strip raw) = false) after) ->
  reassemble_physical ncols (before ++ first :: second :: after)
  = (reassemble_physical ncols before
     ++ [(strip first ++ " " ++ strip second)%string]
     ++ reassemble_physical ncols after)%list.
Proof.
  intros Hsettled Hfirst Hsecond Hfragment Hlast.
  rewrite (reassemble_physical_settled ncols before Hsettled).
  unfold reassemble_physical at 1.
  rewrite fold_left_app.
  destruct (fold_left (reassemble_step ncols) before ([], EmptyString))
    as [lines0 current0].
  simpl in Hsettled. subst current0.
  change (first :: second :: after) with ([first; second] ++ after)%list.
  rewrite fold_left_app.
  rewrite (reassemble_wrapped_pair ncols lines0 first second Hfirst Hsecond
             Hfragment).
  destruct (Nat.ltb_spec (count_char tab_char (strip second) + 1) ncols)
    as [Hshort | Hfull].
  - specialize (Hlast Hshort).
    rewrite (reassemble_fold_skipped ncols after _ Hlast).
    assert (Hne : nonempty ((strip first ++ " ") ++ strip second ++ " ") = true).
    { apply nonempty_true. rewrite append_assoc.
      apply append_nonempty_r. discriminate. }
    rewrite Hne.
    rewrite strip_glued;
      try apply strip_idempotent; try now apply data_line_nonempty.
    unfold reassemble_physical.
    rewrite (reassemble_fold_skipped ncols after _ Hlast). reflexivity.
  - rewrite reassemble_fold_frame. unfold reassemble_physical.
    destruct (fold_left (reassemble_step ncols) after ([], EmptyString))
      as [more current].
    simpl. destruct (nonempty current); now rewrite <- !app_assoc.
Qed.

(** C6. A page in which one row of [ncols] fields is wrapped over two
    physical lines, met with no fragment pending, the first line short of
    tabs: when the second line carries all the tabs by itself, or when no
    data line follows it in the page, the parser hands over, in place, a
    row of exactly [ncols] fields, which are the fields of the two
    stripped lines joined by one space. *)
Theorem wrapped_row_reassembly (ncols : nat) (data_result : string)
    (before after : list string) (first second : string) :
  split_on nl_char data_result = (before ++ first :: second :: after)%list ->
  snd (fold_left (reassemble_step ncols) before ([], EmptyString))
  = EmptyString ->
  data_line (strip first) = true ->
  data_line (strip second) = true ->
  (count_char tab_char (strip first) + 1 < ncols)%nat ->
  (count_char tab_char (strip first) + count_char tab_char (strip second) + 1
   = ncols)%nat ->
  ((count_char tab_char (strip second) + 1 < ncols)%nat ->
   Forall (fun raw => data_line (strip raw) = false) after) ->
  let row :=
    map clean_part (split_on tab_char (strip first ++ " " ++ strip second)) in
  List.length row = ncols
  /\ mysql_rows ncols data_result
     = (filter_map (row_of_line ncols) (reassemble_physical ncols before)
        ++ [row]
        ++ filter_map (row_of_line ncols) (reassemble_physical ncols after))%list
  /\ sqlite_rows ncols data_result
     = (filter_map (row_of_line ncols) (reassemble_physical ncols before)
        ++ [row]
        ++ filter_map (row_of_line ncols) (reassemble_physical ncols after))%list.
Proof.
  intros Hpage Hsettled Hfirst Hsecond Hfragment Hrow Hlast row.
  assert (Htabs :
    S (count_char tab_char (strip first ++ " " ++ strip second)) = ncols).
  { rewrite !count_char_app. simpl. lia. }
  assert (Hne : strip first ++ " " ++ strip second <> EmptyString).
  { apply append_nonempty_r. discriminate. }
  assert (Hparsed :
    filter_map (row_of_line ncols) (reassemble_lines ncols data_result)
    = (filter_map (row_of_line ncols) (reassemble_physical ncols before)
       ++ [row]
       ++ filter_map (row_of_line ncols) (reassemble_physical ncols after))%list).
  { unfold reassemble_lines. rewrite Hpage.
    rewrite (reassemble_wrapped_page ncols before after first second Hsettled
               Hfirst Hsecond Hfragment Hlast).
    rewrite !filter_map_app. cbn [filter_map].
    now rewrite (row_of_line_exact ncols _ Hne Htabs). }
  split; [| split].
  - unfold row. now rewrite length_map, split_on_length.
  - exact Hparsed.
  - exact Hparsed.
Qed.

Lemma primary_key_rendering_witness :
  (exists key sqlite_defs mysql_defs mysql_type,
     filter is_pk Demo.customer = [key]
     /\ rmap (sqlite_col_def Demo.customer) Demo.customer = Returns sqlite_defs
     /\ sqlite_col_defs Demo.customer = Returns sqlite_defs
     /\ sqlite_col_def Demo.customer key
        = Returns (backquoted (name key) ++ " INTEGER PRIMARY KEY AUTOINCREMENT")
     /\ rmap (mysql_col_def Demo.customer) Demo.customer = Returns mysql_defs
     /\ mysql_col_defs Demo.customer
        = Returns
            (mysql_defs ++ [primary_key_clause [backquoted (name key)]])%list
     /\ mysql_col_def Demo.customer key
        = Returns (backquoted (name key) ++ " " ++ mysql_type
                   ++ " AUTO_INCREMENT" ++ not_null_clause key))
  /\ (exists sqlite_defs mysql_defs mysql_keys,
        rmap (sqlite_col_def Demo.order_line) Demo.order_line
        = Returns sqlite_defs
        /\ sqlite_col_defs Demo.order_line
           = Returns
               (sqlite_defs
                ++ [primary_key_clause
                      (map (fun col => backquoted (name col))
                         (filter is_pk Demo.order_line))])%list
        /\ rmap (mysql_col_def Demo.order_line) Demo.order_line
           = Returns mysql_defs
        /\ Forall2
             (fun col entry => startswith (backquoted (name col)) entry = true)
             (filter is_pk Demo.order_line) mysql_keys
        /\ mysql_col_defs Demo.order_line
           = Returns (mysql_defs ++ [primary_key_clause mysql_keys])%list).
Proof.
  split.
  - apply (proj1 (primary_key_rendering Demo.customer)). reflexivity.
  - apply (proj2 (primary_key_rendering Demo.order_line)).
    + reflexivity.
    + intros col Hcol Hid. simpl in Hcol.
      destruct Hcol as [<- | [<- | [<- | []]]]; simpl in Hid; discriminate.
    + discriminate.
Defined.

(** The MySQL builder on the scenario table, which has a single
    auto-increment key: the column is marked [AUTO_INCREMENT], not
    [PRIMARY KEY], and the separate clause is there. *)
Lemma mysql_keeps_primary_key_clause :
  hasSingleAutoincrementKey Demo.customer = true
  /\ mysql_col_defs Demo.customer
     = Returns [ "`ID` INT AUTO_INCREMENT NOT NULL";
                 "`Name` VARCHAR(200) NOT NULL";
                 "`Flag` BIT";
                 "PRIMARY KEY (`ID`)" ].
Proof. split; reflexivity. Qed.

(** Outside the invariant of the data model: a single key that is an
    identity column of a type other than the four integer types gets
    neither [AUTOINCREMENT] nor a [PRIMARY KEY] clause from the SQLite
    builder. *)
Lemma sqlite_decimal_identity_key_has_no_clause :
  sqlite_col_defs
    [ mk_column "ID" "decimal" false None (Some "18") (Some "0") true true;
      mk_column "Name" "nvarchar" true (Some "50") None None false false ]
  = Returns ["`ID` REAL NOT NULL"; "`Name` TEXT"].
Proof. reflexivity. Qed.

Lemma wrapped_row_reassembly_witness :
  List.length ["7"; "long tail"; "z"] = 3%nat
  /\ mysql_rows 3 Demo.wrapped_page = [["7"; "long tail"; "z"]]
  /\ sqlite_rows 3 Demo.wrapped_page = [["7"; "long tail"; "z"]].
Proof.
  apply (wrapped_row_reassembly 3 Demo.wrapped_page []
           [EmptyString; "(1 rows affected)"; EmptyString]
           ("7" ++ tab ++ "long") ("tail" ++ tab ++ "z")).
  - reflexivity.
  - reflexivity.
  - reflexivity.
  - reflexivity.
  - vm_compute. lia.
  - reflexivity.
  - intros _. repeat constructor.
Defined.

(** A row wrapped inside its first field: the two pieces come back with a
    space between them, which the plain concatenation does not have. *)
Lemma wrapped_row_gets_a_space :
  (count_char tab_char "ab" < 3 - 1)%nat
  /\ mysql_rows 3 Demo.wrapped_first_field = [["ab cd"; "x"; "y"]]
  /\ sqlite_rows 3 Demo.wrapped_first_field = [["ab cd"; "x"; "y"]]
  /\ mysql_rows 3 Demo.wrapped_first_field
     <> [split_on tab_char ("ab" ++ "cd" ++ tab ++ "x" ++ tab ++ "y")].
Proof.
  split; [vm_compute; lia |].
  split; [reflexivity |]. split; [reflexivity |].
  vm_compute. discriminate.
Qed.

(** A row wrapped inside its second field and followed by another row:
    the second physical line is short of tabs too, so the next row is
    glued to the fragment and lost. *)
Lemma wrapped_row_swallows_next_row :
  mysql_rows 3
    ("1" ++ tab ++ "long" ++ nl ++ "tail" ++ tab ++ "z" ++ nl
     ++ "2" ++ tab ++ "b" ++ tab ++ "c" ++ nl)
  = [["1"; "long tail"; "z 2"]].
Proof. reflexivity. Qed.

(* ----------------------------------------------------------------- *)
(** ** BatchTransferEngine *)

Lemma digit_not_space (c : ascii) : is_digit c = true -> is_space c = false.
Proof.
  unfold is_digit, is_space. intros Hd.
  apply andb_true_iff in Hd. destruct Hd as [Hlo Hhi].
  apply Nat.leb_le in Hlo, Hhi.
  apply orb_false_iff.
  split; apply andb_false_iff; right; apply Nat.leb_gt; lia.
Qed.

Lemma all_digits_rstrip (s : string) :
  all_chars is_digit s = true -> rstrip s = s.
Proof.
  induction s as [| c r IH]; simpl; [reflexivity |].
  intros Hd. apply andb_true_iff in Hd. destruct Hd as [Hc Hr].
  rewrite (IH Hr). destruct r; [| reflexivity].
  now rewrite (digit_not_space c Hc).
Qed.

Lemma all_digits_strip (s : string) :
  all_chars is_digit s = true -> strip s = s.
Proof.
  intros Hd. unfold strip.
  destruct s as [| c r]; [reflexivity |].
  pose proof Hd as Hd'. simpl in Hd'.
  apply andb_true_iff in Hd'. destruct Hd' as [Hc _].
  rewrite (lstrip_cons c r (digit_not_space c Hc)).
  now apply all_digits_rstrip.
Qed.

Lemma int_digits_all_digits (s : string) :
  all_chars is_digit s = true ->
  forall acc seen, s <> EmptyString \/ seen = true ->
    exists n, int_digits acc seen s = Some n.
Proof.
  induction s as [| c r IH]; simpl; intros Hd acc seen Hstart.
  - destruct Hstart as [Hne | ->]; [congruence | now exists acc].
  - apply andb_true_iff in Hd. destruct Hd as [Hc Hr].
    rewrite Hc. apply (IH Hr). now right.
Qed.

(** [int] returns on every string that [isdigit] accepts. *)
Lemma isdigit_int (s : string) :
  isdigit s = true -> exists n, int s = Returns n.
Proof.
  unfold isdigit. intros Hd.
  apply andb_true_iff in Hd. destruct Hd as [Hne Hd].
  unfold int. rewrite (all_digits_strip s Hd).
  destruct s as [| c r]; [discriminate |].
  unfold int_literal.
  pose proof Hd as Hd'. simpl in Hd'.
  apply andb_true_iff in Hd'. destruct Hd' as [Hc _].
  destruct (Ascii.eqb_spec c "+") as [-> | _]; [discriminate |].
  destruct (Ascii.eqb_spec c "-") as [-> | _]; [discriminate |].
  destruct (int_digits_all_digits (String c r) Hd 0 false) as [n ->].
  - left. discriminate.
  - now exists n.
Qed.

Lemma mysql_col_select_returns (col : column) :
  exists entry, mysql_col_select col = Returns entry.
Proof.
  unfold mysql_col_select.
  repeat match goal with
         | |- context [if ?b then _ else _] =>
             lazymatch b with
             | context [isdigit] => fail
             | _ => destruct b; [now eexists |]
             end
         end.
  destruct (in_list (lower (data_type col)) ["nchar"; "char"]);
    [| now eexists].
  destruct (truthy (max_length col) && differs (max_length col) "NULL"
            && isdigit (fmt (max_length col))) eqn:E; [| now eexists].
  apply andb_true_iff in E. destruct E as [_ Hdigits].
  destruct (isdigit_int _ Hdigits) as [n ->]. simpl. now eexists.
Qed.

Section EngineFacts.
Context {World : Type} {DS : DataSource World}.
Variables (server source_db source_schema source_table : string).
Variables (target_db target_schema target_table : string).
Variable columns : list column.

(** C9. In the paging loop of the PostgreSQL and MySQL paths, when the
    fetch of the page at [offset] answers with a nonzero code, the
    function returns [(False, copied_count)] with the count reached so
    far, and the state is the one the failing fetch found: no statement
    is sent to the target, whose rows stay as the earlier pages left
    them. *)
Theorem extraction_failure_aborts (fuel : nat) (total_rows : Z)
    (order_by : string) (offset copied_count : Z) (st : state World) :
  offset < total_rows ->
  (snd (run_sql_mssql server source_db
          (pg_select_query columns source_schema source_table order_by offset)
          tab) <> 0 ->
   pg_pages server source_db source_schema source_table target_db
     target_schema target_table columns (S fuel) total_rows order_by offset
     copied_count st
   = (Returns (Some (false, copied_count)), st))
  /\ (forall col_selects,
        rmap mysql_col_select columns = Returns col_selects ->
        snd (run_sql_mssql server source_db
               (mysql_select_query col_selects source_schema source_table
                  order_by offset)
               tab) <> 0 ->
        mysql_pages server source_db source_schema source_table target_db
          target_schema target_table columns (S fuel) total_rows order_by
          offset copied_count st
        = (Returns (Some (false, copied_count)), st)).
Proof.
  intros Hmore. apply Z.ltb_lt in Hmore. split.
  - intros Hcode. cbn [pg_pages]. rewrite Hmore.
    unfold bind, pg_page. cbv zeta.
    destruct (run_sql_mssql server source_db
                (pg_select_query columns source_schema source_table order_by
                   offset) tab) as [data_result data_code].
    simpl in Hcode. apply Z.eqb_neq in Hcode. rewrite Hcode. reflexivity.
  - intros col_selects Hselects Hcode. cbn [mysql_pages]. rewrite Hmore.
    unfold mysql_page, lift, bind. cbv beta. rewrite Hselects.
    cbv beta iota zeta.
    destruct (run_sql_mssql server source_db
                (mysql_select_query col_selects source_schema source_table
                   order_by offset) tab) as [data_result data_code].
    simpl in Hcode. apply Z.eqb_neq in Hcode. rewrite Hcode. reflexivity.
Qed.

End EngineFacts.

Lemma extraction_failure_aborts_witness :
  @pg_pages Demo.target Demo.source_down "srv" "AdventureWorks2022" "Person"
    "Customer" "personmanagement" "Person" "Customer" Demo.customer 2 2500
    "ID" 1000 1000 (Demo.accepting 1000)
  = (Returns (Some (false, 1000)), Demo.accepting 1000)
  /\ @mysql_pages Demo.target Demo.source_down "srv" "AdventureWorks2022"
       "Person" "Customer" "inventorymanagement" "Person" "Customer"
       Demo.customer 2 2500 "ID" 1000 1000 (Demo.accepting 1000)
     = (Returns (Some (false, 1000)), Demo.accepting 1000).
Proof.
  split.
  - apply (@extraction_failure_aborts Demo.target Demo.source_down "srv"
             "AdventureWorks2022" "Person" "Customer" "personmanagement"
             "Person" "Customer" Demo.customer 1 2500 "ID" 1000 1000
             (Demo.accepting 1000)).
    + reflexivity.
    + vm_compute. discriminate.
  - eapply (@extraction_failure_aborts Demo.target Demo.source_down "srv"
              "AdventureWorks2022" "Person" "Customer" "inventorymanagement"
              "Person" "Customer" Demo.customer 1 2500 "ID" 1000 1000
              (Demo.accepting 1000)).
    + reflexivity.
    + reflexivity.
    + vm_compute. discriminate.
Defined.

Lemma grows_ret {World A : Type} (a : A) : grows (@ret World A a).
Proof. intros st. exists []. simpl. now rewrite app_nil_r. Qed.

Lemma grows_lift {World A : Type} (r : result A) : grows (@lift World A r).
Proof. intros st. exists []. simpl. now rewrite app_nil_r. Qed.

Lemma grows_send {World : Type}
    (client : string -> string -> World -> (string * Z) * World)
    (database query : string) :
  grows (send client database query).
Proof.
  intros st. unfold send.
  destruct (client database query (world st)) as [answer w].
  now exists [query].
Qed.

Lemma grows_bind {World A B : Type} (m : M World A) (k : A -> M World B) :
  grows m -> (forall a, grows (k a)) -> grows (bind m k).
Proof.
  intros Hm Hk st. unfold bind.
  destruct (Hm st) as [more1 H1].
  destruct (m st) as [[a | e] st1]; simpl in H1.
  - destruct (Hk a st1) as [more2 H2].
    exists (more1 ++ more2)%list. now rewrite H2, H1, app_assoc.
  - now exists more1.
Qed.

Ltac grows_step :=
  first
    [ apply grows_ret
    | apply grows_lift
    | apply grows_send
    | apply grows_bind; [| intros ?]
    | match goal with
      | |- grows (match ?x with _ => _ end) => destruct x
      | |- grows (if ?b then _ else _) => destruct b
      end ].

Section TransferFacts.
Context {World : Type} {DS : DataSource World}.
Variables (server source_db source_schema source_table : string).
Variables (target_db target_schema target_table : string).
Variable columns : list column.

Lemma pg_insert_chunks_grows (todo : list (list string)) :
  forall offset copied_count,
    grows (pg_insert_chunks target_db target_schema target_table columns todo
             offset copied_count).
Proof.
  induction todo as [| batch rest IH]; intros offset copied_count;
    cbn [pg_insert_chunks]; repeat grows_step; apply IH.
Qed.

Lemma pg_page_grows (order_by : string) (offset copied_count : Z) :
  grows (pg_page server source_db source_schema source_table target_db
           target_schema target_table columns order_by offset copied_count).
Proof.
  unfold pg_page. cbv zeta.
  repeat grows_step; apply pg_insert_chunks_grows.
Qed.

Lemma pg_pages_grows (fuel : nat) (total_rows : Z) (order_by : string) :
  forall offset copied_count,
    grows (pg_pages server source_db source_schema source_table target_db
             target_schema target_table columns fuel total_rows order_by
             offset copied_count).
Proof.
  induction fuel as [| fuel IH]; intros offset copied_count;
    cbn [pg_pages]; repeat grows_step;
    try apply pg_page_grows; apply IH.
Qed.

Lemma copy_data_mssql_to_pg_alternative_grows (total_rows : Z) :
  grows (copy_data_mssql_to_pg_alternative server source_db source_schema
           source_table target_db target_schema target_table columns
           total_rows).
Proof.
  unfold copy_data_mssql_to_pg_alternative.
  repeat grows_step; apply pg_pages_grows.
Qed.

(** C3. On the PostgreSQL path the statement of every chunk ends with the
    [ON CONFLICT (...) DO NOTHING] clause over the key columns when the
    table has a primary key. On the MySQL path a chunk whose insert
    returns zero, or fails with a text that holds [duplicate] or [key],
    adds its whole length to [copied_count] and the loop goes on with the
    next chunk; a chunk that fails with any other text adds nothing and
    the loop goes on with the next chunk as well. *)
Theorem insert_conflict_policy :
  (filter is_pk columns <> [] ->
   forall batch, exists head,
     pg_insert_query columns target_schema target_table batch
     = head ++ " ON CONFLICT ("
       ++ join ", " (map (fun col => dquoted (name col)) (filter is_pk columns))
       ++ ") DO NOTHING;")
  /\ (forall (batch : list string) (rest : list (list string))
             (offset copied_count : Z) (st : state World)
             (insert_result : string) (insert_code : Z) (w : World),
        let insert_query :=
          mysql_insert_query columns target_db
            (table_name target_schema target_table) batch in
        run_sql_mysql target_db insert_query (world st)
        = ((insert_result, insert_code), w) ->
        (insert_code = 0
         \/ contains "duplicate" (lower insert_result) = true
         \/ contains "key" (lower insert_result) = true ->
         mysql_insert_chunks target_db target_schema target_table columns
           (batch :: rest) offset copied_count st
         = mysql_insert_chunks target_db target_schema target_table columns
             rest offset (copied_count + Z.of_nat (List.length batch))
             (mk_state w (issued st ++ [insert_query])))
        /\ (insert_code <> 0 ->
            contains "duplicate" (lower insert_result) = false ->
            contains "key" (lower insert_result) = false ->
            exists offset',
              mysql_insert_chunks target_db target_schema target_table columns
                (batch :: rest) offset copied_count st
              = mysql_insert_chunks target_db target_schema target_table
                  columns rest offset' copied_count
                  (mk_state w (issued st ++ [insert_query])))).
Proof.
  split.
  - intros Hkeyed batch. unfold pg_insert_query, pg_on_conflict_clause.
    destruct (filter is_pk columns) as [| key keys]; [congruence |].
    set (keys_text := join ", " (map (fun col => dquoted (name col)) (key :: keys))).
    exists ("INSERT INTO " ++ pg_qualified target_schema target_table ++ " ("
            ++ join ", " (map (fun col => dquoted (name col)) columns) ++ ")"
            ++ pg_override_clause columns ++ " VALUES " ++ join ", " batch).
    cbn [map]. fold keys_text.
    rewrite !append_assoc. reflexivity.
  - intros batch rest offset copied_count st insert_result insert_code w
      insert_query Hrun.
    cbn [mysql_insert_chunks]. fold insert_query.
    unfold bind. unfold send at 1 2. rewrite Hrun.
    unfold mysql_real_error. split.
    + intros [-> | [Hdup | Hkey]].
      * reflexivity.
      * rewrite Hdup. simpl. now rewrite andb_false_r.
      * rewrite Hkey. simpl. now rewrite !andb_false_r.
    + intros Hcode Hdup Hkey. exists (offset + batch_size).
      apply Z.eqb_neq in Hcode. now rewrite Hcode, Hdup, Hkey.
Qed.

End TransferFacts.

(** C1. The first statement that [copy_data_mssql_to_pg] sends to the
    target, on every run and before it reads any count, is the [DELETE]
    of all rows of the target table. *)
Theorem pg_deletes_before_counting {World : Type} {DS : DataSource World}
    (server source_db source_schema source_table : string)
    (target_db target_schema target_table : string) (st : state World) :
  exists later,
    issued
      (snd (copy_data_mssql_to_pg server source_db source_schema source_table
              target_db target_schema target_table st))
    = (issued st ++ pg_delete target_schema target_table :: later)%list.
Proof.
  unfold copy_data_mssql_to_pg.
  match goal with
  | |- context [bind (send ?c ?d ?q) ?k] =>
      assert (Hrest : forall a, grows (k a))
  end.
  { intros [delete_result delete_code].
    repeat first [apply copy_data_mssql_to_pg_alternative_grows | grows_step]. }
  unfold bind at 1. unfold send at 1.
  destruct (run_sql_postgresql target_db
              (pg_delete target_schema target_table) (world st))
    as [answer w].
  destruct (Hrest answer
              (mk_state w (issued st ++ [pg_delete target_schema target_table])))
    as [later Hlater].
  exists later. rewrite Hlater. simpl. now rewrite <- app_assoc.
Qed.

Lemma insert_conflict_policy_witness :
  (exists head,
     pg_insert_query Demo.customer "Person" "Customer" ["(1, 'Ann', TRUE)"]
     = head ++ " ON CONFLICT ("
       ++ join ", "
            (map (fun col => dquoted (name col)) (filter is_pk Demo.customer))
       ++ ") DO NOTHING;")
  /\ @mysql_insert_chunks Demo.target Demo.source_ok "inventorymanagement"
       "Person" "Customer" Demo.customer [["(1, 'Ann', 1)"]] 0 0
       (Demo.rejecting 0)
     = @mysql_insert_chunks Demo.target Demo.source_ok "inventorymanagement"
         "Person" "Customer" Demo.customer [] 0 (0 + 1)
         (mk_state (Demo.mk_target 0 (Demo.duplicate_entry, 1))
            [mysql_insert_query Demo.customer "inventorymanagement"
               (table_name "Person" "Customer") ["(1, 'Ann', 1)"]]).
Proof.
  destruct (@insert_conflict_policy Demo.target Demo.source_ok
              "inventorymanagement" "Person" "Customer" Demo.customer)
    as [Hpg Hmysql].
  split.
  - apply Hpg. discriminate.
  - apply (Hmysql ["(1, 'Ann', 1)"] [] 0 0 (Demo.rejecting 0)
             Demo.duplicate_entry 1 (Demo.mk_target 0 (Demo.duplicate_entry, 1))).
    + reflexivity.
    + right. left. reflexivity.
Defined.

(** The MySQL path against a target that answers every [INSERT] with a
    duplicate-entry error: no row is stored, and the three rows of the
    failed chunk are returned as copied. *)
Lemma duplicate_chunk_is_counted :
  let run :=
    @copy_data_mssql_to_mysql_batch Demo.target Demo.source_ok "srv"
      "AdventureWorks2022" "Person" "Customer" "inventorymanagement" "Person"
      "Customer" Demo.customer 3 (Demo.rejecting 0) in
  fst run = Returns (Some (true, 3))
  /\ Demo.table_rows (world (snd run)) = 0
  /\ snd (Demo.insert_answer (world (snd run))) <> 0
  /\ issued (snd run)
     = [ mysql_delete "inventorymanagement" (table_name "Person" "Customer");
         mysql_insert_query Demo.customer "inventorymanagement"
           (table_name "Person" "Customer")
           ["(1, 'Ann', 1)"; "(2, 'Bob', NULL)"; "(3, 'Cy', 0)"] ].
Proof. vm_compute. repeat split; discriminate. Qed.

(** The scenario table is what the introspector reads from the demo
    source. *)
Lemma demo_customer_described :
  @get_table_definition_mssql Demo.target Demo.source_ok "srv"
    "AdventureWorks2022" "Person" "Customer"
  = Demo.customer.
Proof. reflexivity. Qed.

(** The PostgreSQL path on a target that already holds the three rows of
    the source: the rows are deleted, the count read afterwards is zero,
    and the table is copied again. *)
Lemma pg_rerun_deletes_and_recopies :
  @copy_data_mssql_to_pg Demo.target Demo.source_ok "srv" "AdventureWorks2022"
    "Person" "Customer" "personmanagement" "Person" "Customer"
    (Demo.accepting 3)
  = (Returns (Some (true, 3)),
     mk_state (Demo.mk_target 3 ("INSERT 0 3", 0))
       [ pg_delete "Person" "Customer";
         pg_count_query "Person" "Customer";
         pg_delete "Person" "Customer";
         pg_insert_query Demo.customer "Person" "Customer"
           ["(1, 'Ann', TRUE)"; "(2, 'Bob', NULL)"; "(3, 'Cy', FALSE)"] ]).
Proof. vm_compute. reflexivity. Qed.

(** The MySQL path does what the PostgreSQL path misses: when the target
    table exists and its count equals the source count, the function
    returns [(True, count)] after the two reading statements, and sends
    nothing else. *)
Lemma mysql_skips_when_counts_agree {World : Type} {DS : DataSource World}
    (server source_db source_schema source_table : string)
    (target_db target_schema target_table : string) (st : state World)
    (exists_text count_text target_text : string) (w1 w2 : World) (n : Z) :
  run_sql_mysql target_db
    (mysql_exists_query target_db (mysql_table_name target_schema target_table))
    (world st)
  = ((exists_text, 0), w1) ->
  positive_line (split_on nl_char exists_text) = Returns true ->
  get_table_definition_mssql server source_db source_schema source_table
  <> [] ->
  run_sql_mssql server source_db
    (source_count_query source_schema source_table) tab
  = (count_text, 0) ->
  first_number count_text = Returns n ->
  0 < n ->
  run_sql_mysql target_db
    (mysql_count_query target_db (mysql_table_name target_schema target_table))
    w1
  = ((target_text, 0), w2) ->
  first_number target_text = Returns n ->
  copy_data_mssql_to_mysql server source_db source_schema source_table
    target_db target_schema target_table st
  = (Returns (Some (true, n)),
     mk_state w2
       (issued st
        ++ [ mysql_exists_query target_db
               (mysql_table_name target_schema target_table);
             mysql_count_query target_db
               (mysql_table_name target_schema target_table) ])).
Proof.
  intros Hexists Hpositive Hcolumns Hcount Hn Hpos Htarget Hsame.
  unfold copy_data_mssql_to_mysql. cbv zeta.
  unfold bind at 1. unfold send at 1. rewrite Hexists.
  cbn [Z.eqb]. unfold bind at 1. unfold lift at 1. rewrite Hpositive.
  destruct (get_table_definition_mssql server source_db source_schema
              source_table) as [| col cols]; [congruence |].
  cbn [negb]. unfold bind at 1. unfold ret at 1. cbn [fst negb].
  rewrite Hcount. cbn [Z.eqb negb].
  unfold bind at 1. unfold lift at 1. rewrite Hn.
  assert (Hnz : (n =? 0) = false) by (apply Z.eqb_neq; lia).
  rewrite Hnz.
  unfold bind at 1. unfold send at 1. cbn [world]. rewrite Htarget.
  cbn [Z.eqb]. unfold bind at 1. unfold lift at 1. rewrite Hsame.
  assert (Hgt : (n >? 0) = true) by (apply Z.gtb_lt; lia).
  rewrite Hgt, Z.eqb_refl. cbn [andb]. unfold ret. cbn [issued].
  now rewrite <- app_assoc.
Qed.

(* ----------------------------------------------------------------- *)
(** ** The paging loops end within their fuel *)

Lemma page_fuel_covers (total_rows : Z) :
  total_rows <= 0 + batch_size * Z.of_nat (page_fuel total_rows).
Proof.
  unfold page_fuel, batch_size. rewrite Nat2Z.inj_succ.
  destruct (Z.le_gt_cases total_rows 0) as [Hneg | Hpos].
  - lia.
  - rewrite Z2Nat.id by (apply Z.div_pos; lia).
    pose proof (Z.mul_succ_div_gt total_rows 1000 ltac:(lia)). lia.
Qed.

Section FuelFacts.
Context {World : Type} {DS : DataSource World}.
Variables (server source_db source_schema source_table : string).
Variables (target_db target_schema target_table : string).
Variable columns : list column.

Lemma pg_insert_chunks_offset (todo : list (list string)) :
  forall offset copied_count st,
  exists offset' copied_count' st',
    pg_insert_chunks target_db target_schema target_table columns todo offset
      copied_count st
    = (Returns (offset', copied_count'), st')
    /\ offset <= offset'.
Proof.
  induction todo as [| batch rest IH]; intros offset copied_count st;
    cbn [pg_insert_chunks].
  - exists offset, copied_count, st. split; [reflexivity | lia].
  - unfold bind. unfold send at 1.
    destruct (run_sql_postgresql target_db
                (pg_insert_query columns target_schema target_table batch)
                (world st)) as [[insert_result insert_code] w].
    destruct (negb (insert_code =? 0) && pg_real_error insert_result).
    + destruct (IH (offset + batch_size) copied_count
                  (mk_state w
                     (issued st
                      ++ [pg_insert_query columns target_schema target_table
                            batch])))
        as [offset' [copied' [st' [-> Hle]]]].
      exists offset', copied', st'. split; [reflexivity |].
      unfold batch_size in Hle. lia.
    + apply IH.
Qed.

Lemma mysql_insert_chunks_offset (todo : list (list string)) :
  forall offset copied_count st,
  exists offset' copied_count' st',
    mysql_insert_chunks target_db target_schema target_table columns todo
      offset copied_count st
    = (Returns (offset', copied_count'), st')
    /\ offset <= offset'.
Proof.
  induction todo as [| batch rest IH]; intros offset copied_count st;
    cbn [mysql_insert_chunks].
  - exists offset, copied_count, st. split; [reflexivity | lia].
  - unfold bind. unfold send at 1.
    destruct (run_sql_mysql target_db
                (mysql_insert_query columns target_db
                   (table_name target_schema target_table) batch)
                (world st)) as [[insert_result insert_code] w].
    destruct (negb (insert_code =? 0) && mysql_real_error insert_result).
    + destruct (IH (offset + batch_size) copied_count
                  (mk_state w
                     (issued st
                      ++ [mysql_insert_query columns target_db
                            (table_name target_schema target_table) batch])))
        as [offset' [copied' [st' [-> Hle]]]].
      exists offset', copied', st'. split; [reflexivity |].
      unfold batch_size in Hle. lia.
    + apply IH.
Qed.

Lemma pg_page_advances (order_by : string) (offset copied_count : Z)
    (st st' : state World) (offset' copied_count' : Z) :
  pg_page server source_db source_schema source_table target_db target_schema
    target_table columns order_by offset copied_count st
  = (Returns (NextPage offset' copied_count'), st') ->
  offset + batch_size <= offset'.
Proof.
  unfold pg_page. cbv zeta.
  destruct (run_sql_mssql server source_db
              (pg_select_query columns source_schema source_table order_by
                 offset) tab) as [data_result data_code].
  destruct (negb (data_code =? 0)); [discriminate |].
  destruct (pg_rows (List.length columns) data_result) as [| row rows];
    [discriminate |].
  unfold bind at 1. unfold lift.
  destruct (rmap (render_tuple render_pg columns) (row :: rows))
    as [[| tuple tuples] | e]; try discriminate.
  - unfold ret. intros [= <- _ _]. lia.
  - unfold bind.
    destruct (pg_insert_chunks_offset
                (chunks insert_batch_size (tuple :: tuples)) offset
                copied_count st)
      as [o [c [st1 [-> Hle]]]].
    unfold ret. intros [= <- _ _]. lia.
Qed.

Lemma mysql_page_advances (order_by : string) (offset copied_count : Z)
    (st st' : state World) (offset' copied_count' : Z) :
  mysql_page server source_db source_schema source_table target_db
    target_schema target_table columns order_by offset copied_count st
  = (Returns (NextPage offset' copied_count'), st') ->
  offset + batch_size <= offset'.
Proof.
  unfold mysql_page. unfold bind at 1. unfold lift at 1.
  destruct (rmap mysql_col_select columns) as [col_selects | e];
    [| discriminate].
  cbv zeta.
  destruct (run_sql_mssql server source_db
              (mysql_select_query col_selects source_schema source_table
                 order_by offset) tab) as [data_result data_code].
  destruct (negb (data_code =? 0)); [discriminate |].
  destruct (mysql_rows (List.length columns) data_result) as [| row rows];
    [discriminate |].
  unfold bind at 1. unfold lift.
  destruct (rmap (render_tuple render_mysql columns) (row :: rows))
    as [[| tuple tuples] | e]; try discriminate.
  - unfold ret. intros [= <- _ _]. lia.
  - unfold bind.
    destruct (mysql_insert_chunks_offset
                (chunks insert_batch_size (tuple :: tuples)) offset
                copied_count st)
      as [o [c [st1 [-> Hle]]]].
    unfold ret. intros [= <- _ _]. lia.
Qed.

Lemma pg_pages_enough (total_rows : Z) (order_by : string) (fuel : nat) :
  forall offset copied_count st,
    total_rows <= offset + batch_size * Z.of_nat fuel ->
    fst (pg_pages server source_db source_schema source_table target_db
           target_schema target_table columns fuel total_rows order_by offset
           copied_count st)
    <> Returns None.
Proof.
  induction fuel as [| fuel IH]; intros offset copied_count st Hfuel;
    cbn [pg_pages].
  - destruct (Z.ltb_spec offset total_rows) as [Hmore | Hdone];
      [lia | discriminate].
  - destruct (Z.ltb_spec offset total_rows) as [Hmore | Hdone];
      [| discriminate].
    unfold bind.
    destruct (pg_page server source_db source_schema source_table target_db
                target_schema target_table columns order_by offset
                copied_count st)
      as [[[offset' copied_count' | copied_count' | value] | e] st'] eqn:E;
      try discriminate.
    apply IH. apply pg_page_advances in E.
    rewrite Nat2Z.inj_succ in Hfuel. lia.
Qed.

Lemma mysql_pages_enough (total_rows : Z) (order_by : string) (fuel : nat) :
  forall offset copied_count st,
    total_rows <= offset + batch_size * Z.of_nat fuel ->
    fst (mysql_pages server source_db source_schema source_table target_db
           target_schema target_table columns fuel total_rows order_by offset
           copied_count st)
    <> Returns None.
Proof.
  induction fuel as [| fuel IH]; intros offset copied_count st Hfuel;
    cbn [mysql_pages].
  - destruct (Z.ltb_spec offset total_rows) as [Hmore | Hdone];
      [lia | discriminate].
  - destruct (Z.ltb_spec offset total_rows) as [Hmore | Hdone];
      [| discriminate].
    unfold bind.
    destruct (mysql_page server source_db source_schema source_table target_db
                target_schema target_table columns order_by offset
                copied_count st)
      as [[[offset' copied_count' | copied_count' | value] | e] st'] eqn:E;
      try discriminate.
    apply IH. apply mysql_page_advances in E.
    rewrite Nat2Z.inj_succ in Hfuel. lia.
Qed.

(** The two batch functions never stop for lack of fuel: they return a
    pair, or raise. *)
Lemma batch_copy_ends (total_rows : Z) (st : state World) :
  fst (copy_data_mssql_to_pg_alternative server source_db source_schema
         source_table target_db target_schema target_table columns total_rows
         st)
  <> Returns None
  /\ fst (copy_data_mssql_to_mysql_batch server source_db source_schema
            source_table target_db target_schema target_table columns
            total_rows st)
     <> Returns None.
Proof.
  split.
  - unfold copy_data_mssql_to_pg_alternative.
    unfold bind at 1. unfold send at 1.
    destruct (run_sql_postgresql target_db
                (pg_delete target_schema target_table) (world st))
      as [answer w].
    unfold bind, lift.
    destruct (order_by_col columns) as [order_by | e]; [| discriminate].
    apply pg_pages_enough. apply page_fuel_covers.
  - unfold copy_data_mssql_to_mysql_batch.
    unfold bind at 1. unfold send at 1.
    destruct (run_sql_mysql target_db
                (mysql_delete target_db (table_name target_schema target_table))
                (world st))
      as [answer w].
    unfold bind, lift.
    destruct (order_by_col columns) as [order_by | e]; [| discriminate].
    apply mysql_pages_enough. apply (page_fuel_covers total_rows).
Qed.

End FuelFacts.

(* ================================================================= *)
(** * Further properties of the code *)

(* ----------------------------------------------------------------- *)
(** ** Insert chunks *)

Lemma chunks_from_concat {A : Type} (n : nat) (fuel : nat) :
  (0 < n)%nat ->
  forall l : list A, (List.length l <= fuel)%nat ->
    concat (chunks_from fuel n l) = l.
Proof.
  intros Hn. induction fuel as [| fuel IH]; intros l Hfuel.
  - destruct l; [reflexivity | simpl in Hfuel; lia].
  - destruct l as [| a r]; [reflexivity |].
    cbn [chunks_from concat]. rewrite IH.
    + apply firstn_skipn.
    + rewrite length_skipn. cbn [List.length] in *. lia.
Qed.

Lemma chunks_from_bounds {A : Type} (n : nat) (fuel : nat) :
  (0 < n)%nat ->
  forall l : list A,
    Forall (fun chunk => (1 <= List.length chunk <= n)%nat)
      (chunks_from fuel n l).
Proof.
  intros Hn. induction fuel as [| fuel IH]; intros l; cbn [chunks_from].
  - constructor.
  - destruct l as [| a r]; [constructor |].
    constructor; [| apply IH].
    rewrite length_firstn. cbn [List.length]. lia.
Qed.

Lemma chunks_from_count {A : Type} (n : nat) (fuel : nat) :
  (0 < n)%nat ->
  forall l : list A, (List.length l <= fuel)%nat ->
    List.length (chunks_from fuel n l) = ((List.length l + n - 1) / n)%nat.
Proof.
  intros Hn. induction fuel as [| fuel IH]; intros l Hfuel.
  - destruct l; [| simpl in Hfuel; lia].
    simpl. symmetry. apply Nat.div_small. lia.
  - destruct l as [| a r].
    + simpl. symmetry. apply Nat.div_small. lia.
    + cbn [chunks_from List.length]. rewrite IH.
      2:{ rewrite length_skipn. cbn [List.length] in *. lia. }
      rewrite length_skipn.
      set (len := List.length (a :: r)).
      assert (Hlen : (1 <= len)%nat) by (unfold len; simpl; lia).
      change (S (List.length r)) with len.
      destruct (Nat.le_gt_cases n len) as [Hfull | Hshort].
      * replace (len + n - 1)%nat with ((len - n + n - 1) + 1 * n)%nat by lia.
        rewrite Nat.div_add by lia. lia.
      * replace (len - n)%nat with 0%nat by lia.
        rewrite (Nat.div_small (0 + n - 1) n) by lia.
        apply (Nat.div_unique _ _ 1 (len - 1)); lia.
Qed.

(** X1. The insert chunks of a list, for a positive chunk size: put end
    to end they give the list back, each holds at least one and at most
    [n] elements, and there are [ceil(len / n)] of them. *)
Theorem chunks_partition {A : Type} (n : nat) (l : list A) :
  (0 < n)%nat ->
  concat (chunks n l) = l
  /\ Forall (fun chunk => (1 <= List.length chunk <= n)%nat) (chunks n l)
  /\ List.length (chunks n l) = ((List.length l + n - 1) / n)%nat.
Proof.
  intros Hn. unfold chunks. split; [| split].
  - now apply chunks_from_concat.
  - now apply chunks_from_bounds.
  - now apply chunks_from_count.
Qed.

Lemma chunks_partition_witness :
  concat (chunks insert_batch_size (repeat "(1)" 1000)) = repeat "(1)" 1000
  /\ Forall (fun chunk => (1 <= List.length chunk <= insert_batch_size)%nat)
       (chunks insert_batch_size (repeat "(1)" 1000))
  /\ List.length (chunks insert_batch_size (repeat "(1)" 1000)) = 5%nat.
Proof.
  apply (chunks_partition insert_batch_size (repeat "(1)" 1000)).
  unfold insert_batch_size. lia.
Defined.

(* ----------------------------------------------------------------- *)
(** ** SQLite types *)

Lemma assoc_sqlite_class (k : string) (row : type_row) :
  lookup_type k = Some row ->
  In (sqlite row) ["INTEGER"; "REAL"; "TEXT"; "BLOB"].
Proof.
  unfold lookup_type, TYPE_MAPPING. cbn [assoc].
  repeat match goal with
         | |- (if ?b then _ else _) = Some _ -> _ =>
             destruct b; [intros [= <-]; simpl; tauto |]
         end.
  discriminate.
Qed.

(** X2. The SQLite converter only ever answers with one of the four
    storage classes [INTEGER], [REAL], [TEXT] and [BLOB], whatever the
    source type, length, precision and scale. *)
Theorem sqlite_type_is_a_storage_class
    (mssql_type : string) (max_length precision scale : option string) :
  exists target,
    convert_type_mssql_to_sqlite mssql_type max_length precision scale
    = Returns target
    /\ In target ["INTEGER"; "REAL"; "TEXT"; "BLOB"].
Proof.
  unfold convert_type_mssql_to_sqlite.
  destruct (lookup_type (lower mssql_type)) as [row |] eqn:E.
  - repeat match goal with
           | |- context [if ?b then _ else _] =>
               destruct b; [eexists; split; [reflexivity | simpl; tauto] |]
           end.
    eexists. split; [reflexivity |]. now apply (assoc_sqlite_class _ _ E).
  - eexists. split; [reflexivity | simpl; tauto].
Qed.

(* ----------------------------------------------------------------- *)
(** ** Rows handed to the serializers *)

Lemma pg_row_of_line_length (ncols : nat) (line : string) (row : list string) :
  pg_row_of_line ncols line = Some row -> List.length row = ncols.
Proof.
  unfold pg_row_of_line.
  destruct (nonempty line && footer_free line); [| discriminate].
  destruct (Nat.leb_spec ncols (List.length (split_on tab_char line)))
    as [Hlen | Hlen]; [| discriminate].
  intros [= <-]. rewrite length_map, length_firstn. lia.
Qed.

(** X3. Every row that the page parsers of the three paths hand to the
    serializer has exactly one field per column, whatever the text of the
    page. *)
Theorem parsed_rows_have_one_field_per_column (ncols : nat)
    (data_result : string) (row : list string) :
  (In row (pg_rows ncols data_result) -> List.length row = ncols)
  /\ (In row (mysql_rows ncols data_result) -> List.length row = ncols)
  /\ (In row (sqlite_rows ncols data_result) -> List.length row = ncols).
Proof.
  split; [| split]; intros Hin; apply filter_map_In in Hin;
    destruct Hin as [line [_ Hline]].
  - now apply pg_row_of_line_length in Hline.
  - now apply row_of_line_length in Hline.
  - now apply row_of_line_length in Hline.
Qed.

Lemma parsed_rows_have_one_field_per_column_witness :
  List.length ["2"; "Bob"; "NULL"] = 3%nat.
Proof.
  apply (parsed_rows_have_one_field_per_column 3 Demo.page_answer
           ["2"; "Bob"; "NULL"]).
  vm_compute. tauto.
Defined.

Lemma strip_empty_or_stripped (p : string) :
  strip (if nonempty p then strip p else EmptyString)
  = (if nonempty p then strip p else EmptyString).
Proof. destruct (nonempty p); [apply strip_idempotent | reflexivity]. Qed.

Lemma clean_part_stripped (p : string) :
  strip (clean_part p) = clean_part p /\ clean_part p <> "[EMPTY]".
Proof.
  unfold clean_part.
  destruct (String.eqb_spec (if nonempty p then strip p else EmptyString)
              "[EMPTY]") as [E | E].
  - split; [reflexivity | discriminate].
  - split; [apply strip_empty_or_stripped | exact E].
Qed.

(** X4. Every field of every parsed row is free of white space at both
    ends, and on the MySQL and SQLite paths no field is the placeholder
    ['[EMPTY]'] that the page query puts in place of an empty string. *)
Theorem parsed_fields_are_stripped (ncols : nat) (data_result : string)
    (row : list string) (field : string) :
  In field row ->
  (In row (pg_rows ncols data_result) -> strip field = field)
  /\ (In row (mysql_rows ncols data_result) ->
      strip field = field /\ field <> "[EMPTY]")
  /\ (In row (sqlite_rows ncols data_result) ->
      strip field = field /\ field <> "[EMPTY]").
Proof.
  intros Hfield.
  assert (Hclean : forall line, row_of_line ncols line = Some row ->
                     strip field = field /\ field <> "[EMPTY]").
  { intros line. unfold row_of_line. destruct (nonempty line); [| discriminate].
    destruct (_ =? _)%nat; [| discriminate].
    intros [= <-]. apply in_map_iff in Hfield.
    destruct Hfield as [p [<- _]]. apply clean_part_stripped. }
  split; [| split]; intros Hin; apply filter_map_In in Hin;
    destruct Hin as [line [_ Hline]]; try now apply (Hclean line).
  unfold pg_row_of_line in Hline.
  destruct (nonempty line && footer_free line); [| discriminate].
  destruct (_ <=? _)%nat; [| discriminate].
  injection Hline as <-. apply in_map_iff in Hfield.
  destruct Hfield as [p [<- _]]. apply strip_idempotent.
Qed.

Lemma parsed_fields_are_stripped_witness :
  strip "long tail" = "long tail" /\ "long tail" <> "[EMPTY]".
Proof.
  apply (parsed_fields_are_stripped 3 Demo.wrapped_page
           ["7"; "long tail"; "z"] "long tail").
  - simpl. tauto.
  - vm_compute. tauto.
Defined.

(* ----------------------------------------------------------------- *)
(** ** Serialization *)

Lemma parse_or_null_cases {A : Type} (parse : string -> result A)
    (val : string) :
  (forall e, parse val = Raises e -> e = ValueError) ->
  parse_or_null parse val = Returns "NULL"
  \/ (parse_or_null parse val = Returns val /\ exists a, parse val = Returns a).
Proof.
  intros Hraise. unfold parse_or_null.
  destruct (nonempty val); [| now left].
  destruct (parse val) as [a | e] eqn:E.
  - right. split; [reflexivity | now exists a].
  - rewrite (Hraise e eq_refl). now left.
Qed.

Lemma float_raises_value_error (s : string) (e : exn) :
  float s = Raises e -> e = ValueError.
Proof. unfold float. destruct (float_parses s); congruence. Qed.

Lemma parse_or_null_int_returns (val : string) :
  exists literal, parse_or_null int val = Returns literal.
Proof.
  destruct (parse_or_null_cases int val (int_raises_value_error val))
    as [-> | [-> _]]; now eexists.
Qed.

Lemma parse_or_null_float_returns (val : string) :
  exists literal, parse_or_null float val = Returns literal.
Proof.
  destruct (parse_or_null_cases float val (float_raises_value_error val))
    as [-> | [-> _]]; now eexists.
Qed.

Lemma render_pg_returns (col : column) (raw : string) :
  exists literal, render_pg col raw = Returns literal.
Proof.
  unfold render_pg.
  set (val := if nonempty raw then strip raw else EmptyString).
  destruct (is_null_text val); [now eexists |].
  repeat match goal with
         | |- exists _, (if ?b then _ else _) = _ => destruct b
         end;
    first [apply parse_or_null_int_returns
          | apply parse_or_null_float_returns
          | now eexists].
Qed.

Lemma render_mysql_returns (col : column) (raw : string) :
  exists literal, render_mysql col raw = Returns literal.
Proof.
  unfold render_mysql.
  set (val := if nonempty raw then strip raw else EmptyString).
  destruct (is_null_text val); [now eexists |].
  repeat match goal with
         | |- exists _, (if ?b then _ else _) = _ => destruct b
         end;
    first [apply parse_or_null_int_returns
          | apply parse_or_null_float_returns
          | now eexists].
Qed.

Lemma render_sqlite_returns (col : column) (raw : string) :
  exists literal, render_sqlite col raw = Returns literal.
Proof.
  unfold render_sqlite.
  set (val := if nonempty raw then strip raw else EmptyString).
  destruct (is_null_text val); [now eexists |].
  repeat match goal with
         | |- exists _, (if ?b then _ else _) = _ => destruct b
         end;
    first [apply parse_or_null_int_returns
          | apply parse_or_null_float_returns
          | now eexists].
Qed.

Lemma render_values_returns (render : column -> string -> result string)
    (columns : list column) :
  (forall col raw, exists literal, render col raw = Returns literal) ->
  forall row, exists values,
    render_values render columns row = Returns values
    /\ List.length values = List.length columns.
Proof.
  intros Hrender. induction columns as [| col rest IH]; intros row.
  - now exists [].
  - cbn [render_values].
    destruct (Hrender col (hd EmptyString row)) as [v ->].
    destruct (IH (tl row)) as [vs [-> Hlen]].
    exists (v :: vs). simpl. now rewrite Hlen.
Qed.

Lemma render_tuples_returns (render : column -> string -> result string)
    (columns : list column) (rows : list (list string)) :
  (forall col raw, exists literal, render col raw = Returns literal) ->
  exists tuples,
    rmap (render_tuple render columns) rows = Returns tuples
    /\ List.length tuples = List.length rows.
Proof.
  intros Hrender. apply rmap_returns. intros row _.
  unfold render_tuple.
  destruct (render_values_returns render columns Hrender row) as [values [-> _]].
  now eexists.
Qed.

(** X5. On each of the three paths the serializer never raises, gives one
    literal per column for every row, and so turns every parsed row of a
    page into one value tuple: no row is dropped between parsing and the
    [INSERT] statements. *)
Theorem every_row_becomes_a_tuple (columns : list column)
    (rows : list (list string)) :
  (forall row, exists values,
     render_values render_pg columns row = Returns values
     /\ List.length values = List.length columns)
  /\ (exists tuples,
        rmap (render_tuple render_pg columns) rows = Returns tuples
        /\ List.length tuples = List.length rows)
  /\ (exists tuples,
        rmap (render_tuple render_mysql columns) rows = Returns tuples
        /\ List.length tuples = List.length rows)
  /\ (exists tuples,
        rmap (render_tuple render_sqlite columns) rows = Returns tuples
        /\ List.length tuples = List.length rows).
Proof.
  split; [apply render_values_returns, render_pg_returns |].
  split; [apply render_tuples_returns, render_pg_returns |].
  split; [apply render_tuples_returns, render_mysql_returns |].
  apply render_tuples_returns, render_sqlite_returns.
Qed.

(** X6. The two [replace] calls that escape a string are made in one
    order on the PostgreSQL path and in the other on the MySQL and SQLite
    paths; the escaped text is the same for every value. *)
Theorem escaping_order_is_immaterial (val : string) :
  escape_pg val = escape_mysql val /\ escape_mysql val = escape_sqlite val.
Proof.
  split.
  - now rewrite escape_pg_each, escape_mysql_each.
  - reflexivity.
Qed.

Lemma null_or_empty_number (col : column) :
  In (lower (data_type col)) (integer_types ++ numeric_types) ->
  null_or_empty col = "NULL".
Proof.
  intros Hfamily. rewrite null_or_empty_spec.
  destruct (negb (is_nullable col)); [| reflexivity].
  simpl in Hfamily.
  repeat (destruct Hfamily as [<- | Hfamily]; [reflexivity |]).
  contradiction.
Qed.

Lemma render_integer (col : column) (raw : string) :
  In (lower (data_type col)) integer_types ->
  render_pg col raw
  = (if is_null_text (field_value raw) then Returns "NULL"
     else parse_or_null int (field_value raw))
  /\ render_mysql col raw
     = (if is_null_text (field_value raw) then Returns "NULL"
        else parse_or_null int (field_value raw))
  /\ render_sqlite col raw
     = (if is_null_text (field_value raw) then Returns "NULL"
        else parse_or_null int (field_value raw)).
Proof.
  intros Hfamily.
  assert (Hnull : null_or_empty col = "NULL").
  { apply null_or_empty_number. apply in_or_app. now left. }
  unfold render_pg, render_mysql, render_sqlite. rewrite Hnull.
  fold (field_value raw). simpl in Hfamily.
  repeat (destruct Hfamily as [<- | Hfamily];
          [repeat split; destruct (is_null_text (field_value raw));
           reflexivity |]).
  contradiction.
Qed.

Lemma render_numeric (col : column) (raw : string) :
  In (lower (data_type col)) numeric_types ->
  render_pg col raw
  = (if is_null_text (field_value raw) then Returns "NULL"
     else parse_or_null float (field_value raw))
  /\ render_mysql col raw
     = (if is_null_text (field_value raw) then Returns "NULL"
        else parse_or_null float (field_value raw))
  /\ render_sqlite col raw
     = (if is_null_text (field_value raw) then Returns "NULL"
        else parse_or_null float (field_value raw)).
Proof.
  intros Hfamily.
  assert (Hnull : null_or_empty col = "NULL").
  { apply null_or_empty_number. apply in_or_app. now right. }
  unfold render_pg, render_mysql, render_sqlite. rewrite Hnull.
  fold (field_value raw). simpl in Hfamily.
  repeat (destruct Hfamily as [<- | Hfamily];
          [repeat split; destruct (is_null_text (field_value raw));
           reflexivity |]).
  contradiction.
Qed.

(** X7. On the three paths the literal of a column of the integer family
    is [NULL] or a text that [int] accepts, and the literal of a column of
    the decimal, money or floating family is [NULL] or a text that
    [float] accepts: a value that does not read as a number is never
    copied into the statement, quoted or not. *)
Theorem number_literals_read_as_numbers (col : column) (raw literal : string) :
  render_pg col raw = Returns literal
  \/ render_mysql col raw = Returns literal
  \/ render_sqlite col raw = Returns literal ->
  (In (lower (data_type col)) integer_types ->
   literal = "NULL" \/ exists n, int literal = Returns n)
  /\ (In (lower (data_type col)) numeric_types ->
      literal = "NULL" \/ float_parses literal = true).
Proof.
  intros Hrendered. split; intros Hfamily.
  - destruct (render_integer col raw Hfamily) as [Hpg [Hmysql Hsqlite]].
    assert (Hlit :
      (if is_null_text (field_value raw) then Returns "NULL"
       else parse_or_null int (field_value raw)) = Returns literal).
    { destruct Hrendered as [H | [H | H]]; congruence. }
    destruct (is_null_text (field_value raw)); [left; congruence |].
    destruct (parse_or_null_cases int (field_value raw)
                (int_raises_value_error _)) as [E | [E [n Hn]]];
      rewrite E in Hlit; injection Hlit as <-.
    + now left.
    + right. now exists n.
  - destruct (render_numeric col raw Hfamily) as [Hpg [Hmysql Hsqlite]].
    assert (Hlit :
      (if is_null_text (field_value raw) then Returns "NULL"
       else parse_or_null float (field_value raw)) = Returns literal).
    { destruct Hrendered as [H | [H | H]]; congruence. }
    destruct (is_null_text (field_value raw)); [left; congruence |].
    destruct (parse_or_null_cases float (field_value raw)
                (float_raises_value_error _)) as [E | [E [u Hu]]];
      rewrite E in Hlit; injection Hlit as <-.
    + now left.
    + right. unfold float in Hu.
      destruct (float_parses (field_value raw)); [reflexivity | discriminate].
Qed.

Lemma number_literals_read_as_numbers_witness :
  ("NULL" = "NULL" \/ exists n, int "NULL" = Returns n)
  /\ ("12" = "NULL" \/ exists n, int "12" = Returns n).
Proof.
  split.
  - apply (number_literals_read_as_numbers
             (mk_column "ID" "int" false None (Some "10") (Some "0") true true)
             "12; DROP TABLE x" "NULL").
    + left. reflexivity.
    + simpl. tauto.
  - apply (number_literals_read_as_numbers
             (mk_column "ID" "int" false None (Some "10") (Some "0") true true)
             " 12 " "12").
    + right. left. reflexivity.
    + simpl. tauto.
Defined.

Lemma filter_chars_all (p : ascii -> bool) (s : string) :
  all_chars p (filter_chars p s) = true.
Proof.
  induction s as [| c r IH]; simpl; [reflexivity |].
  destruct (p c) eqn:E; simpl; [now rewrite E |]; exact IH.
Qed.

Lemma render_hex_cases (wrap : string -> string) (val : string) :
  render_hex wrap val = "NULL"
  \/ exists digits,
       render_hex wrap val = wrap digits
       /\ digits <> EmptyString
       /\ all_chars is_hex_digit digits = true.
Proof.
  unfold render_hex.
  destruct (nonempty val && startswith "0x" val).
  - destruct (nonempty (filter_chars is_hex_digit _)) eqn:E; [| now left].
    right. eexists. split; [reflexivity |]. split.
    + now apply nonempty_true.
    + apply filter_chars_all.
  - destruct (nonempty val); [| now left].
    destruct (nonempty (filter_chars is_hex_digit _)) eqn:E; [| now left].
    right. eexists. split; [reflexivity |]. split.
    + now apply nonempty_true.
    + apply filter_chars_all.
Qed.

Lemma render_binary (col : column) (raw : string) :
  In (lower (data_type col)) ["varbinary"; "image"; "timestamp"] ->
  render_mysql col raw
  = Returns (if is_null_text (field_value raw) then "NULL"
             else render_hex unhex (field_value raw))
  /\ render_sqlite col raw
     = Returns (if is_null_text (field_value raw) then "NULL"
                else render_hex xhex (field_value raw)).
Proof.
  intros Hfamily.
  assert (Hnull : null_or_empty col = "NULL").
  { rewrite null_or_empty_spec.
    destruct (negb (is_nullable col)); [| reflexivity].
    simpl in Hfamily.
    repeat (destruct Hfamily as [<- | Hfamily]; [reflexivity |]).
    contradiction. }
  unfold render_mysql, render_sqlite. rewrite Hnull.
  fold (field_value raw). simpl in Hfamily.
  repeat (destruct Hfamily as [<- | Hfamily];
          [split; destruct (is_null_text (field_value raw)); reflexivity |]).
  contradiction.
Qed.

(** X8. For a [varbinary], [image] or [timestamp] column the MySQL path
    renders [NULL] or [UNHEX('H')] and the SQLite path [NULL] or [X'H'],
    where [H] is not empty and holds nothing but the characters
    [0-9A-F]: whatever the field text, no other character reaches the
    statement. *)
Theorem binary_literals_hold_hex_digits_only (col : column) (raw : string) :
  In (lower (data_type col)) ["varbinary"; "image"; "timestamp"] ->
  (render_mysql col raw = Returns "NULL"
   \/ exists digits,
        render_mysql col raw = Returns ("UNHEX('" ++ digits ++ "')")
        /\ digits <> EmptyString /\ all_chars is_hex_digit digits = true)
  /\ (render_sqlite col raw = Returns "NULL"
      \/ exists digits,
           render_sqlite col raw = Returns ("X'" ++ digits ++ "'")
           /\ digits <> EmptyString /\ all_chars is_hex_digit digits = true).
Proof.
  intros Hfamily.
  destruct (render_binary col raw Hfamily) as [-> ->].
  destruct (is_null_text (field_value raw)); [split; now left |].
  split.
  - destruct (render_hex_cases unhex (field_value raw))
      as [-> | [digits [-> Hdigits]]]; [now left |].
    right. now exists digits.
  - destruct (render_hex_cases xhex (field_value raw))
      as [-> | [digits [-> Hdigits]]]; [now left |].
    right. now exists digits.
Qed.

Lemma binary_literals_hold_hex_digits_only_witness :
  (render_mysql (mk_column "Photo" "varbinary" true (Some "-1") None None
                   false false) "0x4a'),(1"
   = Returns "NULL"
   \/ exists digits,
        render_mysql (mk_column "Photo" "varbinary" true (Some "-1") None None
                        false false) "0x4a'),(1"
        = Returns ("UNHEX('" ++ digits ++ "')")
        /\ digits <> EmptyString /\ all_chars is_hex_digit digits = true)
  /\ (render_sqlite (mk_column "Photo" "varbinary" true (Some "-1") None None
                       false false) "0x4a'),(1"
      = Returns "NULL"
      \/ exists digits,
           render_sqlite (mk_column "Photo" "varbinary" true (Some "-1") None
                            None false false) "0x4a'),(1"
           = Returns ("X'" ++ digits ++ "'")
           /\ digits <> EmptyString /\ all_chars is_hex_digit digits = true).
Proof.
  apply (binary_literals_hold_hex_digits_only
           (mk_column "Photo" "varbinary" true (Some "-1") None None false false)
           "0x4a'),(1").
  simpl. tauto.
Defined.

(* ----------------------------------------------------------------- *)
(** ** Tests against lower-cased text *)

Lemma prefix_chars (p s : string) :
  String.prefix p s = true ->
  forall c, In c (list_ascii_of_string p) -> In c (list_ascii_of_string s).
Proof.
  revert s. induction p as [| a p' IH]; intros s Hprefix c Hc.
  - contradiction.
  - destruct s as [| b s']; [discriminate |].
    simpl in Hprefix. destruct (ascii_dec a b) as [<- | _]; [| discriminate].
    simpl in *. destruct Hc as [<- | Hc]; [now left |].
    right. now apply (IH s').
Qed.

Lemma contains_chars (p s : string) :
  contains p s = true ->
  forall c, In c (list_ascii_of_string p) -> In c (list_ascii_of_string s).
Proof.
  induction s as [| b s' IH]; intros Hcontains c Hc.
  - cbn [contains] in Hcontains.
    destruct (String.prefix p EmptyString) eqn:E; [| discriminate].
    now apply (prefix_chars p EmptyString E).
  - cbn [contains] in Hcontains.
    destruct (String.prefix p (String b s')) eqn:E.
    + now apply (prefix_chars p _ E).
    + simpl. right. now apply IH.
Qed.

Lemma lower_char_not_upper (c : ascii) : is_upper (lower_char c) = false.
Proof.
  unfold lower_char. destruct (is_upper c) eqn:E; [| exact E].
  unfold is_upper in *. apply andb_true_iff in E. destruct E as [Hlo Hhi].
  apply Nat.leb_le in Hlo, Hhi.
  unfold code in *. rewrite nat_ascii_embedding by lia.
  apply andb_false_iff. right. apply Nat.leb_gt. lia.
Qed.

Lemma lower_chars_not_upper (s : string) (c : ascii) :
  In c (list_ascii_of_string (lower s)) -> is_upper c = false.
Proof.
  induction s as [| a r IH]; simpl; [contradiction |].
  intros [<- | Hc]; [apply lower_char_not_upper | now apply IH].
Qed.

(** A needle with an upper-case letter is never found in lower-cased
    text. *)
Lemma upper_case_needle_never_found (needle text : string) (c : ascii) :
  In c (list_ascii_of_string needle) -> is_upper c = true ->
  contains needle (lower text) = false.
Proof.
  intros Hc Hupper. destruct (contains needle (lower text)) eqn:E;
    [| reflexivity].
  pose proof (contains_chars _ _ E c Hc) as Hin.
  apply lower_chars_not_upper in Hin. congruence.
Qed.

(** X9. The header test of the introspector looks for ['COLUMN_NAME'] in
    the lower-cased line and so never fires: a line of the key, identity
    and computed-column answers is kept whenever it is not empty and does
    not start with [(] or [-], and the same holds for the column answer
    apart from its test for ['rows']. *)
Theorem header_test_never_fires (line : string) :
  contains "COLUMN_NAME" (lower line) = false
  /\ name_line_kept line
     = (nonempty line && negb (startswith "(" line)
        && negb (startswith "-" line))
  /\ column_line_kept line
     = (nonempty line && negb (startswith "(" line)
        && negb (startswith "-" line) && negb (contains "rows" (lower line))).
Proof.
  assert (Hnever : contains "COLUMN_NAME" (lower line) = false).
  { apply (upper_case_needle_never_found "COLUMN_NAME" line "C");
      [simpl; tauto | reflexivity]. }
  unfold column_line_kept, name_line_kept. rewrite Hnever.
  cbn [negb]. now rewrite !andb_true_r.
Qed.

Section SQLiteFacts.
Context {World : Type} {DS : DataSource World}.
Variables (db_path target_schema target_table : string).
Variable columns : list column.

(** X10. The SQLite path looks for ['UNIQUE constraint'] in the
    lower-cased error text, which never holds it: a chunk whose insert
    fails counts as copied only when the text holds ['duplicate']; with
    any other text, the unique-constraint message of SQLite included, its
    rows are not counted and the loop goes on with the next chunk. *)
Theorem sqlite_unique_error_is_not_recognised
    (batch : list string) (rest : list (list string))
    (offset copied_count : Z) (st : state World)
    (insert_result : string) (insert_code : Z) (w : World) :
  let insert_query :=
    sqlite_insert_query columns (sqlite_table_name target_schema target_table)
      batch in
  run_sql_sqlite db_path insert_query (world st)
  = ((insert_result, insert_code), w) ->
  insert_code <> 0 ->
  contains "duplicate" (lower insert_result) = false ->
  sqlite_real_error insert_result = true
  /\ sqlite_insert_chunks db_path target_schema target_table columns
       (batch :: rest) offset copied_count st
     = sqlite_insert_chunks db_path target_schema target_table columns rest
         (offset + batch_size) copied_count
         (mk_state w (issued st ++ [insert_query])).
Proof.
  intros insert_query Hrun Hcode Hdup.
  assert (Hreal : sqlite_real_error insert_result = true).
  { unfold sqlite_real_error. rewrite Hdup.
    rewrite (upper_case_needle_never_found "UNIQUE constraint" insert_result
               "U"); [reflexivity | simpl; tauto | reflexivity]. }
  split; [exact Hreal |].
  cbn [sqlite_insert_chunks]. fold insert_query.
  unfold bind. unfold send at 1. rewrite Hrun.
  apply Z.eqb_neq in Hcode. now rewrite Hcode, Hreal.
Qed.

End SQLiteFacts.

Lemma sqlite_unique_error_is_not_recognised_witness :
  sqlite_real_error Lab.unique_error = true
  /\ @sqlite_insert_chunks Demo.target Lab.usual "logistics.db" "Person"
       "Customer" Demo.customer [["(1, 'Ann', 1)"]] 0 0
       (Lab.failing 3 Lab.unique_error)
     = @sqlite_insert_chunks Demo.target Lab.usual "logistics.db" "Person"
         "Customer" Demo.customer [] (0 + batch_size) 0
         (mk_state (Demo.mk_target 3 (Lab.unique_error, 1))
            [sqlite_insert_query Demo.customer
               (sqlite_table_name "Person" "Customer") ["(1, 'Ann', 1)"]]).
Proof.
  apply (@sqlite_unique_error_is_not_recognised Demo.target Lab.usual
           "logistics.db" "Person" "Customer" Demo.customer
           ["(1, 'Ann', 1)"] [] 0 0 (Lab.failing 3 Lab.unique_error)
           Lab.unique_error 1 (Demo.mk_target 3 (Lab.unique_error, 1))).
  - reflexivity.
  - discriminate.
  - reflexivity.
Defined.

(* ----------------------------------------------------------------- *)
(** ** Counts and the ordering column *)





Lemma positive_line_returns (lines : list string) :
  exists found, positive_line lines = Returns found.
Proof.
  induction lines as [| raw rest IH]; cbn [positive_line].
  - now exists false.
  - destruct (nonempty (strip raw) && isdigit (strip raw)) eqn:E; [| exact IH].
    apply andb_true_iff in E. destruct E as [_ Hd].
    destruct (isdigit_int _ Hd) as [n ->]. cbn [rbind].
    destruct (n >? 0); [now exists true | exact IH].
Qed.



(** X12. The column that orders the pages: for a table with at least one
    column it is the name of one of its columns, and the name of the
    first primary-key column when the table has a key and a column that
    is not [xml]; without any column the expression raises
    [IndexError]. *)
Theorem ordering_column_is_a_column (columns : list column) :
  (columns <> [] ->
   exists col, In col columns /\ order_by_col columns = Returns (name col))
  /\ (forall key keys col,
        filter is_pk columns = key :: keys ->
        In col columns -> lower (data_type col) <> "xml" ->
        order_by_col columns = Returns (name key))
  /\ (columns = [] -> order_by_col columns = Raises IndexError).
Proof.
  split; [| split].
  - intros Hne. unfold order_by_col.
    destruct (filter (fun col => negb (String.eqb (lower (data_type col)) "xml"))
                columns) as [| plain plains] eqn:Eplain.
    + destruct columns as [| col rest]; [congruence |].
      exists col. split; [now left | reflexivity].
    + cbn [map].
      destruct (filter is_pk columns) as [| key keys] eqn:Ekey; cbn [map].
      * exists plain. split; [| reflexivity].
        assert (Hin : In plain (plain :: plains)) by now left.
        rewrite <- Eplain in Hin. now apply filter_In in Hin.
      * exists key. split; [| reflexivity].
        assert (Hin : In key (key :: keys)) by now left.
        rewrite <- Ekey in Hin. now apply filter_In in Hin.
  - intros key keys col Hkey Hcol Hplain. unfold order_by_col.
    rewrite Hkey. cbn [map].
    destruct (filter (fun c => negb (String.eqb (lower (data_type c)) "xml"))
                columns) as [| plain plains] eqn:Eplain; [| reflexivity].
    exfalso.
    assert (Hin : In col (filter
                            (fun c => negb (String.eqb (lower (data_type c)) "xml"))
                            columns)).
    { apply filter_In. split; [exact Hcol |].
      apply negb_true_iff. now apply String.eqb_neq. }
    rewrite Eplain in Hin. contradiction.
  - intros ->. reflexivity.
Qed.

Lemma ordering_column_is_a_column_witness :
  order_by_col Demo.customer = Returns "ID"
  /\ order_by_col [] = Raises IndexError.
Proof.
  destruct (ordering_column_is_a_column Demo.customer) as [_ [Hkey _]].
  destruct (ordering_column_is_a_column []) as [_ [_ Hnone]].
  split.
  - apply (Hkey (mk_column "ID" "int" false None (Some "10") (Some "0") true true)
             []
             (mk_column "Name" "nvarchar" false (Some "50") None None
                false false)).
    + reflexivity.
    + simpl. tauto.
    + discriminate.
  - now apply Hnone.
Defined.

(* ----------------------------------------------------------------- *)
(** ** What the insert loops send and count *)

Section ChunkFacts.
Context {World : Type} {DS : DataSource World}.
Variables (target_db db_path target_schema target_table : string).
Variable columns : list column.

Lemma pg_insert_chunks_run (todo : list (list string)) :
  forall offset copied_count st,
  exists offset' copied_count' w,
    pg_insert_chunks target_db target_schema target_table columns todo offset
      copied_count st
    = (Returns (offset', copied_count'),
       mk_state w
         (issued st
          ++ map (pg_insert_query columns target_schema target_table) todo))
    /\ offset <= offset' <= offset + batch_size * Z.of_nat (List.length todo)
    /\ copied_count <= copied_count'
       <= copied_count + Z.of_nat (List.length (concat todo)).
Proof.
  induction todo as [| batch rest IH]; intros offset copied_count st;
    cbn [pg_insert_chunks].
  - exists offset, copied_count, (world st). destruct st as [w sent].
    cbn. rewrite app_nil_r. unfold batch_size. repeat split; lia.
  - unfold bind. unfold send at 1.
    destruct (run_sql_postgresql target_db
                (pg_insert_query columns target_schema target_table batch)
                (world st)) as [[insert_result insert_code] w].
    cbn [map concat]. rewrite length_app, !Nat2Z.inj_add.
    cbn [List.length]. rewrite Nat2Z.inj_succ.
    destruct (negb (insert_code =? 0) && pg_real_error insert_result).
    + destruct (IH (offset + batch_size) copied_count
                  (mk_state w
                     (issued st
                      ++ [pg_insert_query columns target_schema target_table
                            batch])))
        as [o [c [w' [-> [Ho Hc]]]]].
      exists o, c, w'. cbn [issued]. rewrite <- app_assoc.
      unfold batch_size in *. repeat split; try reflexivity; lia.
    + destruct (IH offset (copied_count + Z.of_nat (List.length batch))
                  (mk_state w
                     (issued st
                      ++ [pg_insert_query columns target_schema target_table
                            batch])))
        as [o [c [w' [-> [Ho Hc]]]]].
      exists o, c, w'. cbn [issued]. rewrite <- app_assoc.
      unfold batch_size in *. repeat split; try reflexivity; lia.
Qed.

Lemma mysql_insert_chunks_run (todo : list (list string)) :
  forall offset copied_count st,
  exists offset' copied_count' w,
    mysql_insert_chunks target_db target_schema target_table columns todo
      offset copied_count st
    = (Returns (offset', copied_count'),
       mk_state w
         (issued st
          ++ map (mysql_insert_query columns target_db
                    (table_name target_schema target_table)) todo))
    /\ offset <= offset' <= offset + batch_size * Z.of_nat (List.length todo)
    /\ copied_count <= copied_count'
       <= copied_count + Z.of_nat (List.length (concat todo)).
Proof.
  induction todo as [| batch rest IH]; intros offset copied_count st;
    cbn [mysql_insert_chunks].
  - exists offset, copied_count, (world st). destruct st as [w sent].
    cbn. rewrite app_nil_r. unfold batch_size. repeat split; lia.
  - unfold bind. unfold send at 1.
    destruct (run_sql_mysql target_db
                (mysql_insert_query columns target_db
                   (table_name target_schema target_table) batch)
                (world st)) as [[insert_result insert_code] w].
    cbn [map concat]. rewrite length_app, !Nat2Z.inj_add.
    cbn [List.length]. rewrite Nat2Z.inj_succ.
    destruct (negb (insert_code =? 0) && mysql_real_error insert_result).
    + destruct (IH (offset + batch_size) copied_count
                  (mk_state w
                     (issued st
                      ++ [mysql_insert_query columns target_db
                            (table_name target_schema target_table) batch])))
        as [o [c [w' [-> [Ho Hc]]]]].
      exists o, c, w'. cbn [issued]. rewrite <- app_assoc.
      unfold batch_size in *. repeat split; try reflexivity; lia.
    + destruct (IH offset (copied_count + Z.of_nat (List.length batch))
                  (mk_state w
                     (issued st
                      ++ [mysql_insert_query columns target_db
                            (table_name target_schema target_table) batch])))
        as [o [c [w' [-> [Ho Hc]]]]].
      exists o, c, w'. cbn [issued]. rewrite <- app_assoc.
      unfold batch_size in *. repeat split; try reflexivity; lia.
Qed.

Lemma sqlite_insert_chunks_run (todo : list (list string)) :
  forall offset copied_count st,
  exists offset' copied_count' w,
    sqlite_insert_chunks db_path target_schema target_table columns todo
      offset copied_count st
    = (Returns (offset', copied_count'),
       mk_state w
         (issued st
          ++ map (sqlite_insert_query columns
                    (sqlite_table_name target_schema target_table)) todo))
    /\ offset <= offset' <= offset + batch_size * Z.of_nat (List.length todo)
    /\ copied_count <= copied_count'
       <= copied_count + Z.of_nat (List.length (concat todo)).
Proof.
  induction todo as [| batch rest IH]; intros offset copied_count st;
    cbn [sqlite_insert_chunks].
  - exists offset, copied_count, (world st). destruct st as [w sent].
    cbn. rewrite app_nil_r. unfold batch_size. repeat split; lia.
  - unfold bind. unfold send at 1.
    destruct (run_sql_sqlite db_path
                (sqlite_insert_query columns
                   (sqlite_table_name target_schema target_table) batch)
                (world st)) as [[insert_result insert_code] w].
    cbn [map concat]. rewrite length_app, !Nat2Z.inj_add.
    cbn [List.length]. rewrite Nat2Z.inj_succ.
    destruct (negb (insert_code =? 0) && sqlite_real_error insert_result).
    + destruct (IH (offset + batch_size) copied_count
                  (mk_state w
                     (issued st
                      ++ [sqlite_insert_query columns
                            (sqlite_table_name target_schema target_table)
                            batch])))
        as [o [c [w' [-> [Ho Hc]]]]].
      exists o, c, w'. cbn [issued]. rewrite <- app_assoc.
      unfold batch_size in *. repeat split; try reflexivity; lia.
    + destruct (IH offset (copied_count + Z.of_nat (List.length batch))
                  (mk_state w
                     (issued st
                      ++ [sqlite_insert_query columns
                            (sqlite_table_name target_schema target_table)
                            batch])))
        as [o [c [w' [-> [Ho Hc]]]]].
      exists o, c, w'. cbn [issued]. rewrite <- app_assoc.
      unfold batch_size in *. repeat split; try reflexivity; lia.
Qed.

(** X13. The insert loop of each path, for any list of chunks and any
    answers of the target: it never raises, it sends exactly one [INSERT]
    per chunk, in order, and nothing else; the count it returns has grown
    by at most the number of tuples in the chunks and never shrinks; the
    offset has grown by at most one page per chunk. *)
Theorem insert_loop_sends_one_statement_per_chunk
    (todo : list (list string)) (offset copied_count : Z) (st : state World) :
  (exists offset' copied_count' w,
     pg_insert_chunks target_db target_schema target_table columns todo offset
       copied_count st
     = (Returns (offset', copied_count'),
        mk_state w
          (issued st
           ++ map (pg_insert_query columns target_schema target_table) todo))
     /\ offset <= offset' <= offset + batch_size * Z.of_nat (List.length todo)
     /\ copied_count <= copied_count'
        <= copied_count + Z.of_nat (List.length (concat todo)))
  /\ (exists offset' copied_count' w,
        mysql_insert_chunks target_db target_schema target_table columns todo
          offset copied_count st
        = (Returns (offset', copied_count'),
           mk_state w
             (issued st
              ++ map (mysql_insert_query columns target_db
                        (table_name target_schema target_table)) todo))
        /\ offset <= offset'
           <= offset + batch_size * Z.of_nat (List.length todo)
        /\ copied_count <= copied_count'
           <= copied_count + Z.of_nat (List.length (concat todo)))
  /\ (exists offset' copied_count' w,
        sqlite_insert_chunks db_path target_schema target_table columns todo
          offset copied_count st
        = (Returns (offset', copied_count'),
           mk_state w
             (issued st
              ++ map (sqlite_insert_query columns
                        (sqlite_table_name target_schema target_table)) todo))
        /\ offset <= offset'
           <= offset + batch_size * Z.of_nat (List.length todo)
        /\ copied_count <= copied_count'
           <= copied_count + Z.of_nat (List.length (concat todo))).
Proof.
  split; [apply pg_insert_chunks_run |].
  split; [apply mysql_insert_chunks_run | apply sqlite_insert_chunks_run].
Qed.

End ChunkFacts.

Lemma sends_only_ret {World A : Type} (statement : list string -> string)
    (a : A) :
  sends_only statement (@ret World A a).
Proof. intros st. exists []. simpl. now rewrite app_nil_r. Qed.

Lemma sends_only_lift {World A : Type} (statement : list string -> string)
    (r : result A) :
  sends_only statement (@lift World A r).
Proof. intros st. exists []. simpl. now rewrite app_nil_r. Qed.

Lemma sends_only_bind {World A B : Type} (statement : list string -> string)
    (m : M World A) (k : A -> M World B) :
  sends_only statement m -> (forall a, sends_only statement (k a)) ->
  sends_only statement (bind m k).
Proof.
  intros Hm Hk st. unfold bind.
  destruct (Hm st) as [batches1 H1].
  destruct (m st) as [[a | e] st1]; simpl in H1.
  - destruct (Hk a st1) as [batches2 H2].
    exists (batches1 ++ batches2)%list.
    now rewrite H2, H1, map_app, app_assoc.
  - now exists batches1.
Qed.

Ltac sends_only_step :=
  first
    [ apply sends_only_ret
    | apply sends_only_lift
    | apply sends_only_bind; [| intros ?]
    | match goal with
      | |- sends_only _ (match ?x with _ => _ end) => destruct x
      | |- sends_only _ (if ?b then _ else _) => destruct b
      end ].

Section StatementFacts.
Context {World : Type} {DS : DataSource World}.
Variables (server source_db source_schema source_table : string).
Variables (target_db db_path target_schema target_table : string).
Variable columns : list column.

Lemma pg_insert_chunks_sends_only (todo : list (list string))
    (offset copied_count : Z) :
  sends_only (pg_insert_query columns target_schema target_table)
    (pg_insert_chunks target_db target_schema target_table columns todo offset
       copied_count).
Proof.
  intros st.
  destruct (pg_insert_chunks_run target_db target_schema target_table columns
              todo offset copied_count st) as [o [c [w [-> _]]]].
  now exists todo.
Qed.

Lemma mysql_insert_chunks_sends_only (todo : list (list string))
    (offset copied_count : Z) :
  sends_only
    (mysql_insert_query columns target_db
       (table_name target_schema target_table))
    (mysql_insert_chunks target_db target_schema target_table columns todo
       offset copied_count).
Proof.
  intros st.
  destruct (mysql_insert_chunks_run target_db target_schema target_table
              columns todo offset copied_count st) as [o [c [w [-> _]]]].
  now exists todo.
Qed.

Lemma sqlite_insert_chunks_sends_only (todo : list (list string))
    (offset copied_count : Z) :
  sends_only
    (sqlite_insert_query columns
       (sqlite_table_name target_schema target_table))
    (sqlite_insert_chunks db_path target_schema target_table columns todo
       offset copied_count).
Proof.
  intros st.
  destruct (sqlite_insert_chunks_run db_path target_schema target_table
              columns todo offset copied_count st) as [o [c [w [-> _]]]].
  now exists todo.
Qed.

Lemma pg_pages_sends_only (fuel : nat) (total_rows : Z) (order_by : string) :
  forall offset copied_count,
    sends_only (pg_insert_query columns target_schema target_table)
      (pg_pages server source_db source_schema source_table target_db
         target_schema target_table columns fuel total_rows order_by offset
         copied_count).
Proof.
  induction fuel as [| fuel IH]; intros offset copied_count;
    cbn [pg_pages].
  - repeat sends_only_step.
  - destruct (offset <? total_rows); [| apply sends_only_ret].
    apply sends_only_bind.
    + unfold pg_page. cbv zeta.
      repeat first [apply pg_insert_chunks_sends_only | sends_only_step].
    + intros [offset' copied_count' | copied_count' | value];
        [apply IH | apply sends_only_ret | apply sends_only_ret].
Qed.

Lemma mysql_pages_sends_only (fuel : nat) (total_rows : Z) (order_by : string) :
  forall offset copied_count,
    sends_only
      (mysql_insert_query columns target_db
         (table_name target_schema target_table))
      (mysql_pages server source_db source_schema source_table target_db
         target_schema target_table columns fuel total_rows order_by offset
         copied_count).
Proof.
  induction fuel as [| fuel IH]; intros offset copied_count;
    cbn [mysql_pages].
  - repeat sends_only_step.
  - destruct (offset <? total_rows); [| apply sends_only_ret].
    apply sends_only_bind.
    + unfold mysql_page. cbv zeta.
      repeat first [apply mysql_insert_chunks_sends_only | sends_only_step].
    + intros [offset' copied_count' | copied_count' | value];
        [apply IH | apply sends_only_ret | apply sends_only_ret].
Qed.

Lemma sqlite_pages_sends_only (fuel : nat) (total_rows : Z) (order_by : string) :
  forall offset copied_count,
    sends_only
      (sqlite_insert_query columns
         (sqlite_table_name target_schema target_table))
      (sqlite_pages server source_db source_schema source_table db_path
         target_schema target_table columns fuel total_rows order_by offset
         copied_count).
Proof.
  induction fuel as [| fuel IH]; intros offset copied_count;
    cbn [sqlite_pages].
  - repeat sends_only_step.
  - destruct (offset <? total_rows); [| apply sends_only_ret].
    apply sends_only_bind.
    + unfold sqlite_page. cbv zeta.
      repeat first [apply sqlite_insert_chunks_sends_only | sends_only_step].
    + intros [offset' copied_count' | copied_count' | value];
        [apply IH | apply sends_only_ret | apply sends_only_ret].
Qed.

(** X14. What a batch copy sends to its target, whatever the source and
    the target answer: on the PostgreSQL and MySQL paths one [DELETE] of
    the target table followed only by [INSERT] statements into that table;
    on the SQLite path [INSERT] statements into that table and nothing
    else. No other kind of statement is ever sent. *)
Theorem batch_copy_sends_inserts_only (total_rows : Z) (st : state World) :
  (exists batches,
     issued
       (snd (copy_data_mssql_to_pg_alternative server source_db source_schema
               source_table target_db target_schema target_table columns
               total_rows st))
     = (issued st
        ++ pg_delete target_schema target_table
           :: map (pg_insert_query columns target_schema target_table) batches)%list)
  /\ (exists batches,
        issued
          (snd (copy_data_mssql_to_mysql_batch server source_db source_schema
                  source_table target_db target_schema target_table columns
                  total_rows st))
        = (issued st
           ++ mysql_delete target_db (table_name target_schema target_table)
              :: map (mysql_insert_query columns target_db
                        (table_name target_schema target_table)) batches)%list)
  /\ (exists batches,
        issued
          (snd (copy_data_mssql_to_sqlite_batch server source_db source_schema
                  source_table db_path target_schema target_table columns
                  total_rows st))
        = (issued st
           ++ map (sqlite_insert_query columns
                     (sqlite_table_name target_schema target_table)) batches)%list).
Proof.
  split; [| split].
  - unfold copy_data_mssql_to_pg_alternative.
    unfold bind at 1. unfold send at 1.
    destruct (run_sql_postgresql target_db
                (pg_delete target_schema target_table) (world st))
      as [answer w].
    match goal with
    | |- context [snd (?m ?s)] =>
        assert (Hrest : sends_only
                          (pg_insert_query columns target_schema target_table) m)
    end.
    { repeat first [apply pg_pages_sends_only | sends_only_step]. }
    destruct (Hrest (mk_state w
                       (issued st ++ [pg_delete target_schema target_table])))
      as [batches Hbatches].
    exists batches. rewrite Hbatches. cbn [issued]. now rewrite <- app_assoc.
  - unfold copy_data_mssql_to_mysql_batch.
    unfold bind at 1. unfold send at 1.
    destruct (run_sql_mysql target_db
                (mysql_delete target_db (table_name target_schema target_table))
                (world st))
      as [answer w].
    match goal with
    | |- context [snd (?m ?s)] =>
        assert (Hrest : sends_only
                          (mysql_insert_query columns target_db
                             (table_name target_schema target_table)) m)
    end.
    { repeat first [apply mysql_pages_sends_only | sends_only_step]. }
    destruct (Hrest (mk_state w
                       (issued st
                        ++ [mysql_delete target_db
                              (table_name target_schema target_table)])))
      as [batches Hbatches].
    exists batches. rewrite Hbatches. cbn [issued]. now rewrite <- app_assoc.
  - assert (Hall : sends_only
                     (sqlite_insert_query columns
                        (sqlite_table_name target_schema target_table))
                     (copy_data_mssql_to_sqlite_batch server source_db
                        source_schema source_table db_path target_schema
                        target_table columns total_rows)).
    { unfold copy_data_mssql_to_sqlite_batch.
      repeat first [apply sqlite_pages_sends_only | sends_only_step]. }
    apply Hall.
Qed.

End StatementFacts.

(* ----------------------------------------------------------------- *)
(** ** The transfers come to an end *)

Lemma ends_ret {World A : Type} (a : A) : ends (@ret World (option A) (Some a)).
Proof. intros st. discriminate. Qed.

Lemma ends_bind {World A B : Type} (m : M World A)
    (k : A -> M World (option B)) :
  (forall a, ends (k a)) -> ends (bind m k).
Proof.
  intros Hk st. unfold bind.
  destruct (m st) as [[a | e] st1]; [apply Hk | discriminate].
Qed.

Ltac ends_step :=
  first
    [ apply ends_ret
    | apply ends_bind; intros ?
    | match goal with
      | |- ends (match ?x with _ => _ end) => destruct x
      | |- ends (if ?b then _ else _) => destruct b
      end ].

Section EndFacts.
Context {World : Type} {DS : DataSource World}.
Variables (server source_db source_schema source_table : string).
Variables (target_db db_path target_schema target_table : string).

Lemma sqlite_page_advances (columns : list column) (order_by : string)
    (offset copied_count : Z) (st st' : state World)
    (offset' copied_count' : Z) :
  sqlite_page server source_db source_schema source_table db_path
    target_schema target_table columns order_by offset copied_count st
  = (Returns (NextPage offset' copied_count'), st') ->
  offset + batch_size <= offset'.
Proof.
  unfold sqlite_page. unfold bind at 1. unfold lift at 1.
  destruct (rmap mysql_col_select columns) as [col_selects | e];
    [| discriminate].
  cbv zeta.
  destruct (run_sql_mssql server source_db
              (sqlite_select_query col_selects source_schema source_table
                 order_by offset) tab) as [data_result data_code].
  destruct (negb (data_code =? 0)); [discriminate |].
  destruct (sqlite_rows (List.length columns) data_result) as [| row rows];
    [discriminate |].
  unfold bind at 1. unfold lift.
  destruct (rmap (render_tuple render_sqlite columns) (row :: rows))
    as [[| tuple tuples] | e]; try discriminate.
  - unfold ret. intros [= <- _ _]. lia.
  - unfold bind.
    destruct (sqlite_insert_chunks_run db_path target_schema target_table
                columns (chunks insert_batch_size (tuple :: tuples)) offset
                copied_count st)
      as [o [c [w [-> [Ho _]]]]].
    unfold ret. intros [= <- _ _]. lia.
Qed.

Lemma sqlite_pages_enough (columns : list column) (total_rows : Z)
    (order_by : string) (fuel : nat) :
  forall offset copied_count,
    total_rows <= offset + batch_size * Z.of_nat fuel ->
    ends (sqlite_pages server source_db source_schema source_table db_path
            target_schema target_table columns fuel total_rows order_by offset
            copied_count).
Proof.
  induction fuel as [| fuel IH]; intros offset copied_count Hfuel st;
    cbn [sqlite_pages].
  - destruct (Z.ltb_spec offset total_rows) as [Hmore | Hdone];
      [lia | discriminate].
  - destruct (Z.ltb_spec offset total_rows) as [Hmore | Hdone];
      [| discriminate].
    unfold bind.
    destruct (sqlite_page server source_db source_schema source_table db_path
                target_schema target_table columns order_by offset
                copied_count st)
      as [[[offset' copied_count' | copied_count' | value] | e] st'] eqn:E;
      try discriminate.
    apply IH. apply sqlite_page_advances in E.
    rewrite Nat2Z.inj_succ in Hfuel. lia.
Qed.

Lemma pg_batch_ends (columns : list column) (total_rows : Z) :
  ends (copy_data_mssql_to_pg_alternative server source_db source_schema
          source_table target_db target_schema target_table columns
          total_rows).
Proof.
  intros st.
  apply (batch_copy_ends server source_db source_schema source_table target_db
           target_schema target_table columns total_rows st).
Qed.

Lemma mysql_batch_ends (columns : list column) (total_rows : Z) :
  ends (copy_data_mssql_to_mysql_batch server source_db source_schema
          source_table target_db target_schema target_table columns
          total_rows).
Proof.
  intros st.
  apply (batch_copy_ends server source_db source_schema source_table target_db
           target_schema target_table columns total_rows st).
Qed.

Lemma sqlite_batch_ends (columns : list column) (total_rows : Z) :
  ends (copy_data_mssql_to_sqlite_batch server source_db source_schema
          source_table db_path target_schema target_table columns
          total_rows).
Proof.
  unfold copy_data_mssql_to_sqlite_batch.
  apply ends_bind. intros order_by.
  apply sqlite_pages_enough. apply page_fuel_covers.
Qed.

(** X15. The three transfer functions come to an end for every source
    and every target: each turn of the paging loop adds at least one page
    of 1000 rows to the offset, so the loop is left after at most
    [total_rows / 1000 + 1] turns, the fuel of the model, and the function
    returns its pair or raises. *)
Theorem transfers_come_to_an_end :
  ends (copy_data_mssql_to_pg server source_db source_schema source_table
          target_db target_schema target_table)
  /\ ends (copy_data_mssql_to_mysql server source_db source_schema
             source_table target_db target_schema target_table)
  /\ ends (copy_data_mssql_to_sqlite server source_db source_schema
             source_table db_path target_schema target_table).
Proof.
  split; [| split].
  - unfold copy_data_mssql_to_pg.
    repeat first [apply pg_batch_ends | ends_step].
  - unfold copy_data_mssql_to_mysql. cbv zeta.
    repeat first [apply mysql_batch_ends | ends_step].
  - unfold copy_data_mssql_to_sqlite. cbv zeta.
    repeat first [apply sqlite_batch_ends | ends_step].
Qed.

End EndFacts.

(* ----------------------------------------------------------------- *)
(** ** Turns of the paging loop *)

Section PageFacts.
Context {World : Type} {DS : DataSource World}.
Variables (server source_db source_schema source_table : string).
Variables (target_db db_path target_schema target_table : string).
Variable columns : list column.

(** X16. A page that is fetched without error but yields no row ends the
    copy at once as a success with the count reached so far, on each of
    the three paths and at any offset below [total_rows]: the function
    returns [(True, copied_count)] although fewer than [total_rows] rows
    may have been copied, and sends nothing more to the target. *)
Theorem empty_page_ends_the_copy (fuel : nat) (total_rows : Z)
    (order_by : string) (offset copied_count : Z) (st : state World)
    (data_result : string) :
  offset < total_rows ->
  (run_sql_mssql server source_db
     (pg_select_query columns source_schema source_table order_by offset) tab
   = (data_result, 0) ->
   pg_rows (List.length columns) data_result = [] ->
   pg_pages server source_db source_schema source_table target_db
     target_schema target_table columns (S fuel) total_rows order_by offset
     copied_count st
   = (Returns (Some (true, copied_count)), st))
  /\ (forall col_selects,
        rmap mysql_col_select columns = Returns col_selects ->
        run_sql_mssql server source_db
          (mysql_select_query col_selects source_schema source_table order_by
             offset) tab
        = (data_result, 0) ->
        mysql_rows (List.length columns) data_result = [] ->
        mysql_pages server source_db source_schema source_table target_db
          target_schema target_table columns (S fuel) total_rows order_by
          offset copied_count st
        = (Returns (Some (true, copied_count)), st))
  /\ (forall col_selects,
        rmap mysql_col_select columns = Returns col_selects ->
        run_sql_mssql server source_db
          (sqlite_select_query col_selects source_schema source_table
             order_by offset) tab
        = (data_result, 0) ->
        sqlite_rows (List.length columns) data_result = [] ->
        sqlite_pages server source_db source_schema source_table db_path
          target_schema target_table columns (S fuel) total_rows order_by
          offset copied_count st
        = (Returns (Some (true, copied_count)), st)).
Proof.
  intros Hmore. apply Z.ltb_lt in Hmore. split; [| split].
  - intros Hfetch Hrows. cbn [pg_pages]. rewrite Hmore.
    unfold bind, pg_page. cbv zeta. rewrite Hfetch. cbn [Z.eqb negb].
    now rewrite Hrows.
  - intros col_selects Hselects Hfetch Hrows. cbn [mysql_pages].
    rewrite Hmore. unfold mysql_page, lift, bind. cbv beta.
    rewrite Hselects. cbv beta iota zeta. rewrite Hfetch. cbn [Z.eqb negb].
    now rewrite Hrows.
  - intros col_selects Hselects Hfetch Hrows. cbn [sqlite_pages].
    rewrite Hmore. unfold sqlite_page, lift, bind. cbv beta.
    rewrite Hselects. cbv beta iota zeta. rewrite Hfetch. cbn [Z.eqb negb].
    now rewrite Hrows.
Qed.

Lemma chunks_single {A : Type} (n : nat) (l : list A) :
  l <> [] -> (List.length l <= n)%nat -> chunks n l = [l].
Proof.
  intros Hne Hlen. unfold chunks.
  destruct l as [| a r]; [congruence |].
  cbn [List.length chunks_from].
  rewrite firstn_all2 by exact Hlen.
  rewrite skipn_all2 by exact Hlen.
  now destruct (List.length r).
Qed.

(** X17. On the MySQL path, a page whose tuples fit in one chunk and
    whose insert fails with a text that holds neither ['duplicate'] nor
    ['key']: the count is unchanged and the next page is fetched two
    pages further, at [offset + 2000], because the offset is advanced
    both where the error is met and at the end of the turn. The rows of
    the page in between are never fetched. *)
Theorem failed_chunk_skips_a_page (order_by : string)
    (offset copied_count : Z) (st : state World)
    (col_selects : list string) (data_result : string)
    (row : list string) (rows : list (list string)) (tuples : list string)
    (insert_result : string) (insert_code : Z) (w : World) :
  rmap mysql_col_select columns = Returns col_selects ->
  run_sql_mssql server source_db
    (mysql_select_query col_selects source_schema source_table order_by
       offset) tab
  = (data_result, 0) ->
  mysql_rows (List.length columns) data_result = row :: rows ->
  rmap (render_tuple render_mysql columns) (row :: rows) = Returns tuples ->
  (List.length tuples <= insert_batch_size)%nat ->
  run_sql_mysql target_db
    (mysql_insert_query columns target_db
       (table_name target_schema target_table) tuples) (world st)
  = ((insert_result, insert_code), w) ->
  insert_code <> 0 ->
  mysql_real_error insert_result = true ->
  mysql_page server source_db source_schema source_table target_db
    target_schema target_table columns order_by offset copied_count st
  = (Returns (NextPage (offset + 2 * batch_size) copied_count),
     mk_state w
       (issued st
        ++ [mysql_insert_query columns target_db
              (table_name target_schema target_table) tuples])).
Proof.
  intros Hselects Hfetch Hrows Htuples Hfit Hinsert Hcode Hreal.
  assert (Hne : tuples <> []).
  { destruct (render_tuples_returns render_mysql columns (row :: rows)
                render_mysql_returns) as [ts [Hts Hlen]].
    rewrite Htuples in Hts. injection Hts as <-.
    destruct tuples; [discriminate | discriminate]. }
  unfold mysql_page, lift, bind. cbv beta.
  rewrite Hselects. cbv beta iota zeta. rewrite Hfetch. cbn [Z.eqb negb].
  rewrite Hrows, Htuples.
  destruct tuples as [| tuple more]; [congruence |].
  rewrite (chunks_single insert_batch_size (tuple :: more) Hne Hfit).
  cbn [mysql_insert_chunks]. unfold bind, send. rewrite Hinsert.
  apply Z.eqb_neq in Hcode. rewrite Hcode, Hreal. cbn [negb andb].
  unfold ret. unfold batch_size.
  replace (offset + 1000 + 1000) with (offset + 2 * 1000) by lia.
  reflexivity.
Qed.

End PageFacts.

Lemma empty_page_ends_the_copy_witness :
  @pg_pages Demo.target Lab.blank_pages "srv" "AdventureWorks2022" "Person"
    "Customer" "personmanagement" "Person" "Customer" Demo.customer 1 3 "ID" 0
    0 (Demo.accepting 0)
  = (Returns (Some (true, 0)), Demo.accepting 0)
  /\ @mysql_pages Demo.target Lab.blank_pages "srv" "AdventureWorks2022"
       "Person" "Customer" "inventorymanagement" "Person" "Customer"
       Demo.customer 1 3 "ID" 0 0 (Demo.accepting 0)
     = (Returns (Some (true, 0)), Demo.accepting 0)
  /\ @sqlite_pages Demo.target Lab.blank_pages "srv" "AdventureWorks2022"
       "Person" "Customer" "logistics.db" "Person" "Customer" Demo.customer 1
       3 "ID" 0 0 (Demo.accepting 0)
     = (Returns (Some (true, 0)), Demo.accepting 0).
Proof.
  destruct (@empty_page_ends_the_copy Demo.target Lab.blank_pages "srv"
              "AdventureWorks2022" "Person" "Customer" "personmanagement"
              "logistics.db" "Person" "Customer" Demo.customer 0 3 "ID" 0 0
              (Demo.accepting 0) (nl ++ "(0 rows affected)" ++ nl)
              eq_refl)
    as [Hpg _].
  destruct (@empty_page_ends_the_copy Demo.target Lab.blank_pages "srv"
              "AdventureWorks2022" "Person" "Customer" "inventorymanagement"
              "logistics.db" "Person" "Customer" Demo.customer 0 3 "ID" 0 0
              (Demo.accepting 0) (nl ++ "(0 rows affected)" ++ nl)
              eq_refl)
    as [_ [Hmysql Hsqlite]].
  split; [| split].
  - apply Hpg; reflexivity.
  - eapply Hmysql; reflexivity.
  - eapply Hsqlite; reflexivity.
Defined.

Lemma failed_chunk_skips_a_page_witness :
  @mysql_page Demo.target Lab.usual "srv" "AdventureWorks2022" "Person"
    "Customer" "inventorymanagement" "Person" "Customer" Demo.customer "ID" 0
    0 (Lab.failing 0 Lab.not_null_error)
  = (Returns (NextPage (0 + 2 * batch_size) 0),
     mk_state (Demo.mk_target 0 (Lab.not_null_error, 1))
       [mysql_insert_query Demo.customer "inventorymanagement"
          (table_name "Person" "Customer")
          ["(1, 'Ann', 1)"; "(2, 'Bob', NULL)"; "(3, 'Cy', 0)"]]).
Proof.
  eapply (@failed_chunk_skips_a_page Demo.target Lab.usual "srv"
            "AdventureWorks2022" "Person" "Customer" "inventorymanagement"
            "Person" "Customer" Demo.customer "ID" 0 0
            (Lab.failing 0 Lab.not_null_error)).
  - reflexivity.
  - reflexivity.
  - reflexivity.
  - reflexivity.
  - vm_compute. lia.
  - reflexivity.
  - discriminate.
  - reflexivity.
Defined.

(* ----------------------------------------------------------------- *)
(** ** Table creation *)

Lemma sqlite_col_defs_returns (columns : list column) :
  exists col_defs, sqlite_col_defs columns = Returns col_defs.
Proof.
  unfold sqlite_col_defs.
  destruct (rmap_returns (sqlite_col_def columns) columns) as [defs [-> _]].
  { intros col _. apply sqlite_col_def_returns. }
  cbn [rbind]. now eexists.
Qed.

Lemma mysql_col_defs_returns (columns : list column) :
  exists col_defs, mysql_col_defs columns = Returns col_defs.
Proof.
  unfold mysql_col_defs.
  destruct (rmap_returns (mysql_col_def columns) columns) as [defs [-> _]].
  { intros col _. apply mysql_col_def_returns. }
  destruct (mysql_pk_cols_returns columns) as [pk_cols [-> _]].
  cbn [rbind]. now eexists.
Qed.

Lemma pg_col_defs_returns (columns : list column) :
  exists col_defs, pg_col_defs columns = Returns col_defs.
Proof.
  unfold pg_col_defs.
  destruct (rmap_returns pg_col_def columns) as [defs [-> _]].
  { intros col _. unfold pg_col_def.
    destruct (convert_pg_returns (data_type col) (max_length col)
                (precision col) (scale col)) as [t ->].
    cbn [rbind]. now eexists. }
  cbn [rbind]. now eexists.
Qed.

Section TableFacts.
Context {World : Type} {DS : DataSource World}.
Variable columns : list column.
Variables (schema table database : string).

Lemma create_table_sqlite_run (st : state World) :
  exists col_defs,
    sqlite_col_defs columns = Returns col_defs
    /\ let table_name := sqlite_table_name schema table in
       let dropped :=
         run_sql_sqlite database (sqlite_drop_statement table_name)
           (world st) in
       let created :=
         run_sql_sqlite database
           (sqlite_create_statement table_name col_defs) (snd dropped) in
       create_table_sqlite columns schema table database st
       = (Returns (snd (fst created) =? 0, fst (fst created)),
          mk_state (snd created)
            (issued st
             ++ [sqlite_drop_statement table_name;
                 sqlite_create_statement table_name col_defs])).
Proof.
  destruct (sqlite_col_defs_returns columns) as [col_defs Hdefs].
  exists col_defs. split; [exact Hdefs |].
  cbv zeta. unfold create_table_sqlite, sqlite_drop_statement. cbv zeta.
  unfold bind at 1. unfold lift at 1. rewrite Hdefs.
  unfold bind at 1. unfold send at 1.
  destruct (run_sql_sqlite database _ (world st)) as [drop_answer w1].
  unfold bind at 1. unfold send at 1. cbn [world issued snd].
  destruct (run_sql_sqlite database _ w1) as [[result_text code] w2].
  unfold ret. cbn [fst snd]. now rewrite <- app_assoc.
Qed.

Lemma create_table_mysql_run (st : state World) :
  exists col_defs,
    mysql_col_defs columns = Returns col_defs
    /\ let table_name := mysql_table_name schema table in
       let dropped :=
         run_sql_mysql database (mysql_drop_statement database table_name)
           (world st) in
       let created :=
         run_sql_mysql database
           (mysql_create_statement database table_name col_defs)
           (snd dropped) in
       create_table_mysql columns schema table database st
       = (Returns (snd (fst created) =? 0, fst (fst created)),
          mk_state (snd created)
            (issued st
             ++ [mysql_drop_statement database table_name;
                 mysql_create_statement database table_name col_defs])).
Proof.
  destruct (mysql_col_defs_returns columns) as [col_defs Hdefs].
  exists col_defs. split; [exact Hdefs |].
  cbv zeta. unfold create_table_mysql, mysql_drop_statement. cbv zeta.
  unfold bind at 1. unfold lift at 1. rewrite Hdefs.
  unfold bind at 1. unfold send at 1.
  destruct (run_sql_mysql database _ (world st)) as [drop_answer w1].
  unfold bind at 1. unfold send at 1. cbn [world issued snd].
  destruct (run_sql_mysql database _ w1) as [[result_text code] w2].
  unfold ret. cbn [fst snd]. now rewrite <- app_assoc.
Qed.

(** X18. [create_table_sqlite] and [create_table_mysql] never raise,
    whatever the columns: each sends exactly two statements, the
    [DROP TABLE IF EXISTS] of the target table and then its
    [CREATE TABLE], and reports success exactly when the second one came
    back with code 0; the outcome of the [DROP] is not looked at. *)
Theorem table_creation_drops_then_creates (st : state World) :
  (exists col_defs,
     sqlite_col_defs columns = Returns col_defs
     /\ let table_name := sqlite_table_name schema table in
        let dropped :=
          run_sql_sqlite database (sqlite_drop_statement table_name)
            (world st) in
        let created :=
          run_sql_sqlite database
            (sqlite_create_statement table_name col_defs) (snd dropped) in
        create_table_sqlite columns schema table database st
        = (Returns (snd (fst created) =? 0, fst (fst created)),
           mk_state (snd created)
             (issued st
              ++ [sqlite_drop_statement table_name;
                  sqlite_create_statement table_name col_defs])))
  /\ (exists col_defs,
        mysql_col_defs columns = Returns col_defs
        /\ let table_name := mysql_table_name schema table in
           let dropped :=
             run_sql_mysql database (mysql_drop_statement database table_name)
               (world st) in
           let created :=
             run_sql_mysql database
               (mysql_create_statement database table_name col_defs)
               (snd dropped) in
           create_table_mysql columns schema table database st
           = (Returns (snd (fst created) =? 0, fst (fst created)),
              mk_state (snd created)
                (issued st
                 ++ [mysql_drop_statement database table_name;
                     mysql_create_statement database table_name col_defs]))).
Proof.
  split; [apply create_table_sqlite_run | apply create_table_mysql_run].
Qed.

(** X19. [create_table_pg] starts with [CREATE SCHEMA IF NOT EXISTS]. When
    that statement fails the function returns [(False, its output)] and
    sends nothing else: the table is neither dropped nor created. When it
    succeeds the function sends the [DROP TABLE ... CASCADE] and the
    [CREATE TABLE], in that order, and never raises. *)
Theorem schema_failure_stops_table_creation (st : state World)
    (schema_result : string) (schema_code : Z) (w : World) :
  run_sql_postgresql database (pg_create_schema schema) (world st)
  = ((schema_result, schema_code), w) ->
  (schema_code <> 0 ->
   create_table_pg columns schema table database st
   = (Returns (false, schema_result),
      mk_state w (issued st ++ [pg_create_schema schema])))
  /\ (schema_code = 0 ->
      exists col_defs,
        pg_col_defs columns = Returns col_defs
        /\ let dropped :=
             run_sql_postgresql database (pg_drop_statement schema table) w in
           let created :=
             run_sql_postgresql database
               (pg_create_statement schema table col_defs) (snd dropped) in
           create_table_pg columns schema table database st
           = (Returns (snd (fst created) =? 0, fst (fst created)),
              mk_state (snd created)
                (issued st
                 ++ [pg_create_schema schema; pg_drop_statement schema table;
                     pg_create_statement schema table col_defs]))).
Proof.
  intros Hschema. split.
  - intros Hcode. apply Z.eqb_neq in Hcode.
    unfold create_table_pg. unfold bind at 1. unfold send at 1.
    rewrite Hschema. cbv beta iota zeta. rewrite Hcode. reflexivity.
  - intros ->.
    destruct (pg_col_defs_returns columns) as [col_defs Hdefs].
    exists col_defs. split; [exact Hdefs |].
    cbv zeta. unfold create_table_pg. unfold bind at 1. unfold send at 1.
    rewrite Hschema. cbv beta iota zeta. cbn [Z.eqb negb].
    unfold bind at 1. unfold lift at 1. rewrite Hdefs.
    unfold bind at 1. unfold send at 1. cbn [world issued].
    destruct (run_sql_postgresql database _ w) as [drop_answer w1].
    unfold bind at 1. unfold send at 1. cbn [world issued snd].
    destruct (run_sql_postgresql database _ w1) as [[result_text code] w2].
    unfold ret. cbn [fst snd]. now rewrite <- !app_assoc.
Qed.

End TableFacts.

Lemma schema_failure_stops_table_creation_witness :
  @create_table_pg Demo.target Lab.no_schema Demo.customer "Person" "Customer"
    "personmanagement" (Demo.accepting 0)
  = (Returns (false, "ERROR:  permission denied for database"),
     mk_state (Demo.mk_target 0 ("INSERT 0 3", 0))
       [pg_create_schema "Person"]).
Proof.
  apply (@schema_failure_stops_table_creation Demo.target Lab.no_schema
           Demo.customer "Person" "Customer" "personmanagement"
           (Demo.accepting 0) "ERROR:  permission denied for database" 1
           (Demo.mk_target 0 ("INSERT 0 3", 0))).
  - reflexivity.
  - discriminate.
Defined.

(* ----------------------------------------------------------------- *)
(** ** The transfers before the first page *)

Section TopLevelFacts.
Context {World : Type} {DS : DataSource World}.
Variables (server source_db source_schema source_table : string).
Variables (target_db db_path target_schema target_table : string).

Lemma sqlite_skips_when_counts_agree (st : state World)
    (exists_text count_text target_text : string) (w1 w2 : World) (n : Z) :
  run_sql_sqlite db_path
    (sqlite_exists_query (sqlite_table_name target_schema target_table))
    (world st)
  = ((exists_text, 0), w1) ->
  names_table (sqlite_table_name target_schema target_table) exists_text
  = true ->
  get_table_definition_mssql server source_db source_schema source_table
  <> [] ->
  run_sql_mssql server source_db
    (source_count_query source_schema source_table) tab
  = (count_text, 0) ->
  first_number count_text = Returns n ->
  0 < n ->
  run_sql_sqlite db_path
    (sqlite_count_query (sqlite_table_name target_schema target_table)) w1
  = ((target_text, 0), w2) ->
  first_number target_text = Returns n ->
  copy_data_mssql_to_sqlite server source_db source_schema source_table
    db_path target_schema target_table st
  = (Returns (Some (true, n)),
     mk_state w2
       (issued st
        ++ [ sqlite_exists_query
               (sqlite_table_name target_schema target_table);
             sqlite_count_query
               (sqlite_table_name target_schema target_table) ])).
Proof.
  intros Hexists Hnamed Hcolumns Hcount Hn Hpos Htarget Hsame.
  unfold copy_data_mssql_to_sqlite. cbv zeta.
  unfold bind at 1. unfold send at 1. rewrite Hexists.
  cbn [Z.eqb]. rewrite Hnamed.
  destruct (get_table_definition_mssql server source_db source_schema
              source_table) as [| col cols]; [congruence |].
  cbn [negb]. unfold bind at 1. unfold ret at 1. cbn [fst negb].
  rewrite Hcount. cbn [Z.eqb negb].
  unfold bind at 1. unfold lift at 1. rewrite Hn.
  assert (Hnz : (n =? 0) = false) by (apply Z.eqb_neq; lia).
  rewrite Hnz.
  unfold bind at 1. unfold send at 1. cbn [world]. rewrite Htarget.
  cbn [Z.eqb]. unfold bind at 1. unfold lift at 1. rewrite Hsame.
  assert (Hgt : (n >? 0) = true) by (apply Z.gtb_lt; lia).
  rewrite Hgt, Z.eqb_refl. cbn [andb]. unfold ret. cbn [issued].
  now rewrite <- app_assoc.
Qed.

(** X20. The MySQL and SQLite transfers leave a full target alone: when
    the target table exists and holds as many rows as the source table,
    and that number is positive, the function returns [(True, count)]
    after its two reading statements, the existence query and the count
    query, and sends nothing else: no row is deleted and none is
    inserted. *)
Theorem full_target_is_left_alone (st : state World)
    (exists_text count_text target_text : string) (w1 w2 : World) (n : Z) :
  get_table_definition_mssql server source_db source_schema source_table
  <> [] ->
  run_sql_mssql server source_db
    (source_count_query source_schema source_table) tab
  = (count_text, 0) ->
  first_number count_text = Returns n ->
  0 < n ->
  first_number target_text = Returns n ->
  (run_sql_mysql target_db
     (mysql_exists_query target_db
        (mysql_table_name target_schema target_table))
     (world st)
   = ((exists_text, 0), w1) ->
   positive_line (split_on nl_char exists_text) = Returns true ->
   run_sql_mysql target_db
     (mysql_count_query target_db
        (mysql_table_name target_schema target_table)) w1
   = ((target_text, 0), w2) ->
   copy_data_mssql_to_mysql server source_db source_schema source_table
     target_db target_schema target_table st
   = (Returns (Some (true, n)),
      mk_state w2
        (issued st
         ++ [ mysql_exists_query target_db
                (mysql_table_name target_schema target_table);
              mysql_count_query target_db
                (mysql_table_name target_schema target_table) ])))
  /\ (run_sql_sqlite db_path
        (sqlite_exists_query (sqlite_table_name target_schema target_table))
        (world st)
      = ((exists_text, 0), w1) ->
      names_table (sqlite_table_name target_schema target_table) exists_text
      = true ->
      run_sql_sqlite db_path
        (sqlite_count_query (sqlite_table_name target_schema target_table)) w1
      = ((target_text, 0), w2) ->
      copy_data_mssql_to_sqlite server source_db source_schema source_table
        db_path target_schema target_table st
      = (Returns (Some (true, n)),
         mk_state w2
           (issued st
            ++ [ sqlite_exists_query
                   (sqlite_table_name target_schema target_table);
                 sqlite_count_query
                   (sqlite_table_name target_schema target_table) ]))).
Proof.
  intros Hcolumns Hcount Hn Hpos Hsame. split.
  - intros Hexists Hpositive Htarget.
    now apply (mysql_skips_when_counts_agree server source_db source_schema
                 source_table target_db target_schema target_table st
                 exists_text count_text target_text w1 w2 n).
  - intros Hexists Hnamed Htarget.
    now apply (sqlite_skips_when_counts_agree st exists_text count_text
                 target_text w1 w2 n).
Qed.

(** X21. A source table that cannot be described: when the column query
    comes back with a nonzero code, the MySQL and SQLite transfers return
    [(False, 0)] having sent nothing but their existence query, so the
    target table is neither created nor cleared. The PostgreSQL transfer
    also returns [(False, 0)], but only after its [DELETE] (and, when that
    failed, its [TRUNCATE]) of the target table. *)
Theorem undescribed_table_is_not_copied (st : state World)
    (columns_text : string) (columns_code : Z) :
  run_sql_mssql server source_db (columns_query source_schema source_table)
    ","
  = (columns_text, columns_code) ->
  columns_code <> 0 ->
  (let run :=
     copy_data_mssql_to_mysql server source_db source_schema source_table
       target_db target_schema target_table st in
   fst run = Returns (Some (false, 0))
   /\ issued (snd run)
      = (issued st
         ++ [mysql_exists_query target_db
               (mysql_table_name target_schema target_table)])%list)
  /\ (let run :=
        copy_data_mssql_to_sqlite server source_db source_schema source_table
          db_path target_schema target_table st in
      fst run = Returns (Some (false, 0))
      /\ issued (snd run)
         = (issued st
            ++ [sqlite_exists_query
                  (sqlite_table_name target_schema target_table)])%list)
  /\ (let run :=
        copy_data_mssql_to_pg server source_db source_schema source_table
          target_db target_schema target_table st in
      fst run = Returns (Some (false, 0))
      /\ (issued (snd run)
          = (issued st ++ [pg_delete target_schema target_table])%list
          \/ issued (snd run)
             = (issued st
                ++ [pg_delete target_schema target_table;
                    pg_truncate target_schema target_table])%list)).
Proof.
  intros Hquery Hcode. apply Z.eqb_neq in Hcode.
  assert (Hnone : get_table_definition_mssql server source_db source_schema
                    source_table = []).
  { unfold get_table_definition_mssql. rewrite Hquery. now rewrite Hcode. }
  split; [| split]; intros run.
  - assert (Hrun : exists w,
               run = (Returns (Some (false, 0)),
                      mk_state w
                        (issued st
                         ++ [mysql_exists_query target_db
                               (mysql_table_name target_schema
                                  target_table)]))).
    { unfold run, copy_data_mssql_to_mysql. cbv zeta. rewrite Hnone.
      unfold bind at 1. unfold send at 1.
      destruct (run_sql_mysql target_db _ (world st))
        as [[check_result check_code] w1].
      unfold bind at 1.
      destruct (check_code =? 0).
      - unfold lift at 1.
        destruct (positive_line_returns (split_on nl_char check_result))
          as [found ->].
        unfold ret. now exists w1.
      - unfold ret. now exists w1. }
    destruct Hrun as [w ->]. now split.
  - assert (Hrun : exists w,
               run = (Returns (Some (false, 0)),
                      mk_state w
                        (issued st
                         ++ [sqlite_exists_query
                               (sqlite_table_name target_schema
                                  target_table)]))).
    { unfold run, copy_data_mssql_to_sqlite. cbv zeta. rewrite Hnone.
      unfold bind at 1. unfold send at 1.
      destruct (run_sql_sqlite db_path _ (world st))
        as [[check_result check_code] w1].
      unfold ret. now exists w1. }
    destruct Hrun as [w ->]. now split.
  - assert (Hrun : exists w more,
               run = (Returns (Some (false, 0)),
                      mk_state w
                        (issued st
                         ++ pg_delete target_schema target_table :: more))
               /\ (more = []
                   \/ more = [pg_truncate target_schema target_table])).
    { unfold run, copy_data_mssql_to_pg. cbv zeta. rewrite Hnone.
      unfold bind at 1. unfold send at 1.
      destruct (run_sql_postgresql target_db _ (world st))
        as [[delete_result delete_code] w1].
      cbv beta iota zeta. unfold bind at 1.
      destruct (delete_code =? 0); cbn [negb].
      - unfold ret. exists w1, []. split; [reflexivity | now left].
      - unfold bind at 1. unfold send at 1. cbn [world issued].
        destruct (run_sql_postgresql target_db _ w1) as [truncate_answer w2].
        unfold ret. exists w2, [pg_truncate target_schema target_table].
        split; [| now right]. now rewrite <- app_assoc. }
    destruct Hrun as [w [more [-> Hmore]]]. cbn [fst snd issued].
    split; [reflexivity |].
    destruct Hmore as [-> | ->]; [now left | now right].
Qed.

(** X22. An empty source table: when the source table is described and
    its count reads 0, the MySQL and SQLite transfers return a pair whose
    count is 0 and send, after their existence query, either nothing or
    the [DROP] and [CREATE] of a missing target table. The count query
    of the target is not sent, and no row is deleted or inserted. *)
Theorem empty_source_table_is_not_copied (st : state World)
    (count_text : string) :
  get_table_definition_mssql server source_db source_schema source_table
  <> [] ->
  run_sql_mssql server source_db
    (source_count_query source_schema source_table) tab
  = (count_text, 0) ->
  first_number count_text = Returns 0 ->
  (let run :=
     copy_data_mssql_to_mysql server source_db source_schema source_table
       target_db target_schema target_table st in
   let table_name := mysql_table_name target_schema target_table in
   (exists success, fst run = Returns (Some (success, 0)))
   /\ (issued (snd run)
       = (issued st ++ [mysql_exists_query target_db table_name])%list
       \/ exists col_defs,
            issued (snd run)
            = (issued st
               ++ [mysql_exists_query target_db table_name;
                   mysql_drop_statement target_db table_name;
                   mysql_create_statement target_db table_name col_defs])%list))
  /\ (let run :=
        copy_data_mssql_to_sqlite server source_db source_schema source_table
          db_path target_schema target_table st in
      let table_name := sqlite_table_name target_schema target_table in
      (exists success, fst run = Returns (Some (success, 0)))
      /\ (issued (snd run)
          = (issued st ++ [sqlite_exists_query table_name])%list
          \/ exists col_defs,
               issued (snd run)
               = (issued st
                  ++ [sqlite_exists_query table_name;
                      sqlite_drop_statement table_name;
                      sqlite_create_statement table_name col_defs])%list)).
Proof.
  intros Hcolumns Hcount Hzero. split; intros run table_name.
  - assert (Hrun : exists success w more,
               run = (Returns (Some (success, 0)),
                      mk_state w
                        (issued st
                         ++ mysql_exists_query target_db table_name :: more))
               /\ (more = []
                   \/ exists col_defs,
                        more
                        = [mysql_drop_statement target_db table_name;
                           mysql_create_statement target_db table_name
                             col_defs])).
    { unfold run, copy_data_mssql_to_mysql. cbv zeta. fold table_name.
      destruct (get_table_definition_mssql server source_db source_schema
                  source_table) as [| col cols] eqn:Ecolumns; [congruence |].
      unfold bind at 1. unfold send at 1.
      destruct (run_sql_mysql target_db _ (world st))
        as [[check_result check_code] w1].
      set (st1 := mk_state w1 _).
      assert (Hexists :
                exists found,
                  (if check_code =? 0
                   then lift (positive_line (split_on nl_char check_result))
                   else ret false) st1
                  = (Returns found, st1)).
      { destruct (check_code =? 0); [| now exists false].
        unfold lift.
        destruct (positive_line_returns (split_on nl_char check_result))
          as [found ->].
        now exists found. }
      destruct Hexists as [found Hfound].
      unfold bind at 1. rewrite Hfound.
      destruct found; cbn [negb].
      - unfold bind at 1. unfold ret at 1. cbn [fst negb].
        rewrite Hcount. cbn [Z.eqb negb].
        unfold bind at 1. unfold lift at 1. rewrite Hzero. cbn [Z.eqb].
        unfold ret. exists true, w1, []. split; [reflexivity | now left].
      - unfold bind at 1.
        destruct (create_table_mysql_run (col :: cols) target_schema
                    target_table target_db st1) as [col_defs [_ Hcreate]].
        cbv zeta in Hcreate. fold table_name in Hcreate. rewrite Hcreate.
        set (created := run_sql_mysql target_db _ _).
        assert (Hsent :
                  (issued st1
                   ++ [mysql_drop_statement target_db table_name;
                       mysql_create_statement target_db table_name
                         col_defs])%list
                  = (issued st
                     ++ mysql_exists_query target_db table_name
                        :: [mysql_drop_statement target_db table_name;
                            mysql_create_statement target_db table_name
                              col_defs])%list).
        { unfold st1. cbn [issued]. now rewrite <- app_assoc. }
        rewrite Hsent. cbn [fst].
        destruct (snd (fst created) =? 0); cbn [negb].
        + rewrite Hcount. cbn [Z.eqb negb].
          unfold bind at 1. unfold lift at 1. rewrite Hzero. cbn [Z.eqb].
          unfold ret. exists true, (snd created). eexists.
          split; [reflexivity | right; now exists col_defs].
        + unfold ret. exists false, (snd created). eexists.
          split; [reflexivity | right; now exists col_defs]. }
    destruct Hrun as [success [w [more [-> Hmore]]]]. cbn [fst snd issued].
    split; [now exists success |].
    destruct Hmore as [-> | [col_defs ->]];
      [now left | right; now exists col_defs].
  - assert (Hrun : exists success w more,
               run = (Returns (Some (success, 0)),
                      mk_state w
                        (issued st ++ sqlite_exists_query table_name :: more))
               /\ (more = []
                   \/ exists col_defs,
                        more
                        = [sqlite_drop_statement table_name;
                           sqlite_create_statement table_name col_defs])).
    { unfold run, copy_data_mssql_to_sqlite. cbv zeta. fold table_name.
      destruct (get_table_definition_mssql server source_db source_schema
                  source_table) as [| col cols] eqn:Ecolumns; [congruence |].
      unfold bind at 1. unfold send at 1.
      destruct (run_sql_sqlite db_path _ (world st))
        as [[check_result check_code] w1].
      set (st1 := mk_state w1 _).
      destruct (if check_code =? 0
                then names_table table_name check_result
                else false); cbn [negb].
      - unfold bind at 1. unfold ret at 1. cbn [fst negb].
        rewrite Hcount. cbn [Z.eqb negb].
        unfold bind at 1. unfold lift at 1. rewrite Hzero. cbn [Z.eqb].
        unfold ret. exists true, w1, []. split; [reflexivity | now left].
      - unfold bind at 1.
        destruct (create_table_sqlite_run (col :: cols) target_schema
                    target_table db_path st1) as [col_defs [_ Hcreate]].
        cbv zeta in Hcreate. fold table_name in Hcreate. rewrite Hcreate.
        set (created := run_sql_sqlite db_path _ _).
        assert (Hsent :
                  (issued st1
                   ++ [sqlite_drop_statement table_name;
                       sqlite_create_statement table_name col_defs])%list
                  = (issued st
                     ++ sqlite_exists_query table_name
                        :: [sqlite_drop_statement table_name;
                            sqlite_create_statement table_name
                              col_defs])%list).
        { unfold st1. cbn [issued]. now rewrite <- app_assoc. }
        rewrite Hsent. cbn [fst].
        destruct (snd (fst created) =? 0); cbn [negb].
        + rewrite Hcount. cbn [Z.eqb negb].
          unfold bind at 1. unfold lift at 1. rewrite Hzero. cbn [Z.eqb].
          unfold ret. exists true, (snd created). eexists.
          split; [reflexivity | right; now exists col_defs].
        + unfold ret. exists false, (snd created). eexists.
          split; [reflexivity | right; now exists col_defs]. }
    destruct Hrun as [success [w [more [-> Hmore]]]]. cbn [fst snd issued].
    split; [now exists success |].
    destruct Hmore as [-> | [col_defs ->]];
      [now left | right; now exists col_defs].
Qed.

End TopLevelFacts.

Lemma full_target_is_left_alone_witness :
  @copy_data_mssql_to_mysql Demo.target Lab.usual "srv" "AdventureWorks2022"
    "Person" "Customer" "inventorymanagement" "Person" "Customer"
    (Demo.accepting 3)
  = (Returns (Some (true, 3)),
     mk_state (Demo.mk_target 3 ("INSERT 0 3", 0))
       [ mysql_exists_query "inventorymanagement"
           (mysql_table_name "Person" "Customer");
         mysql_count_query "inventorymanagement"
           (mysql_table_name "Person" "Customer") ])
  /\ @copy_data_mssql_to_sqlite Demo.target Lab.usual "srv"
       "AdventureWorks2022" "Person" "Customer" "logistics.db" "Person"
       "Customer" (Demo.accepting 3)
     = (Returns (Some (true, 3)),
        mk_state (Demo.mk_target 3 ("INSERT 0 3", 0))
          [ sqlite_exists_query (sqlite_table_name "Person" "Customer");
            sqlite_count_query (sqlite_table_name "Person" "Customer") ]).
Proof.
  split.
  - apply (@full_target_is_left_alone Demo.target Lab.usual "srv"
             "AdventureWorks2022" "Person" "Customer" "inventorymanagement"
             "logistics.db" "Person" "Customer" (Demo.accepting 3)
             ("1" ++ nl) (fst Lab.three_rows) ("3" ++ nl)
             (Demo.mk_target 3 ("INSERT 0 3", 0))
             (Demo.mk_target 3 ("INSERT 0 3", 0)) 3).
    + vm_compute. discriminate.
    + reflexivity.
    + reflexivity.
    + lia.
    + reflexivity.
    + reflexivity.
    + reflexivity.
    + reflexivity.
  - apply (@full_target_is_left_alone Demo.target Lab.usual "srv"
             "AdventureWorks2022" "Person" "Customer" "inventorymanagement"
             "logistics.db" "Person" "Customer" (Demo.accepting 3)
             ("Person_Customer" ++ nl) (fst Lab.three_rows) ("3" ++ nl)
             (Demo.mk_target 3 ("INSERT 0 3", 0))
             (Demo.mk_target 3 ("INSERT 0 3", 0)) 3).
    + vm_compute. discriminate.
    + reflexivity.
    + reflexivity.
    + lia.
    + reflexivity.
    + reflexivity.
    + reflexivity.
    + reflexivity.
Defined.

Lemma undescribed_table_is_not_copied_witness :
  (let run :=
     @copy_data_mssql_to_mysql Demo.target Lab.undescribed "srv"
       "AdventureWorks2022" "Person" "Customer" "inventorymanagement" "Person"
       "Customer" (Demo.accepting 3) in
   fst run = Returns (Some (false, 0))
   /\ issued (snd run)
      = (issued (Demo.accepting 3)
         ++ [mysql_exists_query "inventorymanagement"
               (mysql_table_name "Person" "Customer")])%list)
  /\ (let run :=
        @copy_data_mssql_to_sqlite Demo.target Lab.undescribed "srv"
          "AdventureWorks2022" "Person" "Customer" "logistics.db" "Person"
          "Customer" (Demo.accepting 3) in
      fst run = Returns (Some (false, 0))
      /\ issued (snd run)
         = (issued (Demo.accepting 3)
            ++ [sqlite_exists_query
                  (sqlite_table_name "Person" "Customer")])%list)
  /\ (let run :=
        @copy_data_mssql_to_pg Demo.target Lab.undescribed "srv"
          "AdventureWorks2022" "Person" "Customer" "inventorymanagement"
          "Person" "Customer" (Demo.accepting 3) in
      fst run = Returns (Some (false, 0))
      /\ (issued (snd run)
          = (issued (Demo.accepting 3) ++ [pg_delete "Person" "Customer"])%list
          \/ issued (snd run)
             = (issued (Demo.accepting 3)
                ++ [pg_delete "Person" "Customer";
                    pg_truncate "Person" "Customer"])%list)).
Proof.
  apply (@undescribed_table_is_not_copied Demo.target Lab.undescribed "srv"
           "AdventureWorks2022" "Person" "Customer" "inventorymanagement"
           "logistics.db" "Person" "Customer" (Demo.accepting 3) "Timeout" 1).
  - reflexivity.
  - discriminate.
Defined.

Lemma empty_source_table_is_not_copied_witness :
  (let run :=
     @copy_data_mssql_to_mysql Demo.target Lab.empty_table "srv"
       "AdventureWorks2022" "Person" "Customer" "inventorymanagement" "Person"
       "Customer" (Demo.accepting 0) in
   let table_name := mysql_table_name "Person" "Customer" in
   (exists success, fst run = Returns (Some (success, 0)))
   /\ (issued (snd run)
       = (issued (Demo.accepting 0)
          ++ [mysql_exists_query "inventorymanagement" table_name])%list
       \/ exists col_defs,
            issued (snd run)
            = (issued (Demo.accepting 0)
               ++ [mysql_exists_query "inventorymanagement" table_name;
                   mysql_drop_statement "inventorymanagement" table_name;
                   mysql_create_statement "inventorymanagement" table_name
                     col_defs])%list))
  /\ (let run :=
        @copy_data_mssql_to_sqlite Demo.target Lab.empty_table "srv"
          "AdventureWorks2022" "Person" "Customer" "logistics.db" "Person"
          "Customer" (Demo.accepting 0) in
      let table_name := sqlite_table_name "Person" "Customer" in
      (exists success, fst run = Returns (Some (success, 0)))
      /\ (issued (snd run)
          = (issued (Demo.accepting 0)
             ++ [sqlite_exists_query table_name])%list
          \/ exists col_defs,
               issued (snd run)
               = (issued (Demo.accepting 0)
                  ++ [sqlite_exists_query table_name;
                      sqlite_drop_statement table_name;
                      sqlite_create_statement table_name col_defs])%list)).
Proof.
  apply (@empty_source_table_is_not_copied Demo.target Lab.empty_table "srv"
           "AdventureWorks2022" "Person" "Customer" "inventorymanagement"
           "logistics.db" "Person" "Customer" (Demo.accepting 0)
           (fst Lab.no_rows)).
  - vm_compute. discriminate.
  - reflexivity.
  - reflexivity.
Defined.

(* ----------------------------------------------------------------- *)
(** ** Table discovery *)

Lemma lower_app (x y : string) : lower (x ++ y) = lower x ++ lower y.
Proof.
  unfold lower. induction x as [| c r IH]; simpl; [reflexivity |].
  now rewrite IH.
Qed.

Lemma prefix_app_r (p x y : string) :
  String.prefix p x = true -> String.prefix p (x ++ y) = true.
Proof.
  revert x. induction p as [| a p' IH]; intros x Hprefix.
  - now destruct (x ++ y).
  - destruct x as [| b x']; [discriminate |].
    simpl in *. destruct (ascii_dec a b); [now apply IH | discriminate].
Qed.

Lemma prefix_contains (p s : string) :
  String.prefix p s = true -> contains p s = true.
Proof. intros Hprefix. destruct s; cbn [contains]; now rewrite Hprefix. Qed.

Lemma contains_app_r (p x y : string) :
  contains p x = true -> contains p (x ++ y) = true.
Proof.
  induction x as [| a r IH]; cbn [contains]; intros Hcontains.
  - destruct (String.prefix p EmptyString) eqn:E; [| discriminate].
    apply prefix_contains. now apply (prefix_app_r p EmptyString y).
  - destruct (String.prefix p (String a r)) eqn:E.
    + apply prefix_contains. now apply prefix_app_r.
    + change (String a r ++ y) with (String a (r ++ y)). cbn [contains].
      destruct (String.prefix p (String a (r ++ y))); [reflexivity |].
      now apply IH.
Qed.

Lemma contains_app_l (p x y : string) :
  contains p y = true -> contains p (x ++ y) = true.
Proof.
  intros Hcontains. induction x as [| a r IH]; [exact Hcontains |].
  change (String a r ++ y) with (String a (r ++ y)). cbn [contains].
  now destruct (String.prefix p (String a (r ++ y))).
Qed.

Lemma lstrip_suffix (s : string) : exists a, s = a ++ lstrip s.
Proof.
  induction s as [| c r [a IH]]; cbn [lstrip].
  - now exists EmptyString.
  - destruct (is_space c).
    + exists (String c a). simpl. now rewrite <- IH.
    + now exists EmptyString.
Qed.

Lemma rstrip_prefix (s : string) : exists b, s = rstrip s ++ b.
Proof.
  induction s as [| c r [b IH]]; cbn [rstrip].
  - now exists EmptyString.
  - destruct (rstrip r) as [| c' r'].
    + destruct (is_space c).
      * now exists (String c r).
      * now exists r.
    + exists b. simpl. f_equal. exact IH.
Qed.

Lemma strip_inside (s : string) : exists a b, s = a ++ strip s ++ b.
Proof.
  unfold strip. destruct (lstrip_suffix s) as [a Ha].
  destruct (rstrip_prefix (lstrip s)) as [b Hb].
  exists a, b. now rewrite <- Hb.
Qed.

Lemma split_on_head (c : ascii) (s h : string) (t : list string) :
  split_on c s = h :: t -> exists b, s = h ++ b.
Proof.
  revert h t. induction s as [| a r IH]; cbn [split_on]; intros h t Hsplit.
  - injection Hsplit as <- _. now exists EmptyString.
  - destruct (Ascii.eqb a c).
    + injection Hsplit as <- _. now exists (String a r).
    + destruct (split_on c r) as [| h' t'] eqn:E.
      * injection Hsplit as <- _. now exists r.
      * injection Hsplit as <- _.
        destruct (IH h' t' eq_refl) as [b ->]. now exists b.
Qed.

(** A needle that is not in a lower-cased text is not in a lower-cased
    part of it. *)
Lemma not_contained_inside (needle a s b : string) :
  contains needle (lower (a ++ s ++ b)) = false ->
  contains needle (lower s) = false.
Proof.
  intros Hnot. destruct (contains needle (lower s)) eqn:E; [| reflexivity].
  rewrite !lower_app in Hnot.
  rewrite (contains_app_l needle (lower a) (lower s ++ lower b)) in Hnot;
    [discriminate |].
  now apply contains_app_r.
Qed.

Lemma table_of_line_name (raw t : string) :
  table_of_line raw = Some t ->
  valid_table_name t = true
  /\ contains "name" (lower t) = false
  /\ strip t = t.
Proof.
  unfold table_of_line. destruct (table_line_kept (strip raw)) eqn:Ekept;
    [| discriminate].
  set (table_name := match split_on "," (strip raw) with
                     | p :: _ => strip p
                     | [] => strip (strip raw)
                     end).
  destruct (valid_table_name table_name) eqn:Evalid; [| discriminate].
  intros [= <-]. split; [exact Evalid |].
  unfold table_line_kept in Ekept.
  repeat (apply andb_true_iff in Ekept; destruct Ekept as [Ekept ?]).
  assert (Hnot : contains "name" (lower (strip raw)) = false)
    by now apply negb_true_iff.
  unfold table_name.
  destruct (split_on "," (strip raw)) as [| p ps] eqn:Esplit.
  - rewrite !strip_idempotent. now split.
  - split; [| apply strip_idempotent].
    destruct (split_on_head _ _ _ _ Esplit) as [rest Hline].
    destruct (strip_inside p) as [a [b Hp]].
    apply (not_contained_inside "name" a (strip p) (b ++ rest)).
    replace (a ++ strip p ++ b ++ rest) with (strip raw); [exact Hnot |].
    rewrite Hline. rewrite Hp at 1. now rewrite !append_assoc.
Qed.

(** X23. [get_tables_mssql] returns only names of at least two
    characters that start with a letter and carry no white space at
    either end, and never a name that holds ['name'], letter case apart:
    a table such as [FirstNames] is taken for the header line and left
    out of the list. When the query fails the list is empty. *)
Theorem listed_tables_are_plain_names {World : Type} {DS : DataSource World}
    (server database schema : string) :
  (forall t,
     In t (get_tables_mssql server database schema) ->
     (2 <= String.length t)%nat
     /\ first_is_alpha t = true
     /\ isdigit t = false
     /\ strip t = t
     /\ contains "name" (lower t) = false)
  /\ (snd (run_sql_mssql server database (tables_query schema) ",") <> 0 ->
      get_tables_mssql server database schema = []).
Proof.
  unfold get_tables_mssql.
  destruct (run_sql_mssql server database (tables_query schema) ",")
    as [result_text code].
  split.
  - intros t Hin. destruct (code =? 0); [| contradiction].
    apply filter_map_In in Hin. destruct Hin as [raw [_ Hline]].
    apply table_of_line_name in Hline.
    destruct Hline as [Hvalid [Hname Hstrip]].
    unfold valid_table_name in Hvalid.
    repeat (apply andb_true_iff in Hvalid; destruct Hvalid as [Hvalid ?]).
    repeat split; try assumption.
    + match goal with
      | Hlen : (1 <? _)%nat = true |- _ => apply Nat.ltb_lt in Hlen; lia
      end.
    + now apply negb_true_iff.
  - cbn [snd]. intros Hcode. apply Z.eqb_neq in Hcode. now rewrite Hcode.
Qed.

Lemma listed_tables_are_plain_names_witness :
  @get_tables_mssql Demo.target Lab.usual "srv" "AdventureWorks2022" "Person"
  = ["Customer"]
  /\ (2 <= String.length "Customer")%nat
  /\ first_is_alpha "Customer" = true
  /\ isdigit "Customer" = false
  /\ strip "Customer" = "Customer"
  /\ contains "name" (lower "Customer") = false.
Proof.
  split; [reflexivity |].
  apply (@listed_tables_are_plain_names Demo.target Lab.usual "srv"
           "AdventureWorks2022" "Person").
  simpl. now left.
Defined.

(* ----------------------------------------------------------------- *)
(** ** The columns the introspector returns *)

Lemma lower_idempotent (s : string) : lower (lower s) = lower s.
Proof.
  unfold lower. induction s as [| c r IH]; simpl; [reflexivity |].
  rewrite IH. f_equal.
  unfold lower_char at 1. now rewrite lower_char_not_upper.
Qed.

Lemma map_strip_stripped (l : list string) :
  Forall (fun p => strip p = p) (map strip l).
Proof.
  induction l as [| p r IH]; simpl; constructor;
    [apply strip_idempotent | exact IH].
Qed.

Lemma field_or_none_normal (p : string) :
  strip p = p -> normal_field (field_or_none p).
Proof.
  intros Hstrip s. unfold field_or_none.
  destruct (nonempty p) eqn:Ene; cbn [andb]; [| discriminate].
  destruct (String.eqb_spec p "NULL") as [-> | Hnull]; cbn [negb andb];
    [discriminate |].
  intros [= <-]. repeat split; try assumption.
  now apply nonempty_true.
Qed.

Lemma parse_column_line_normal (pk_columns identity_columns : list string)
    (raw : string) (col : column) :
  parse_column_line pk_columns identity_columns raw = Some col ->
  strip (name col) = name col
  /\ lower (data_type col) = data_type col
  /\ normal_field (max_length col)
  /\ normal_field (precision col)
  /\ normal_field (scale col).
Proof.
  unfold parse_column_line.
  destruct (column_line_kept (strip raw)); [| discriminate].
  pose proof (map_strip_stripped (split_on "," (strip raw))) as Hparts.
  destruct (map strip (split_on "," (strip raw)))
    as [| p0 [| p1 [| p2 [| p3 [| p4 [| p5 rest]]]]]]; try discriminate.
  destruct (nonempty p0 && (1 <? String.length p0)%nat); [| discriminate].
  intros [= <-]. cbn [name data_type max_length precision scale].
  repeat match goal with
         | H : Forall _ (_ :: _) |- _ => inversion H; clear H; subst
         end.
  split; [assumption |].
  split; [apply lower_idempotent |].
  split; [| split]; now apply field_or_none_normal.
Qed.

(** X24. Every column returned by [get_table_definition_mssql] is in
    normal form: its name has no white space at either end, its type
    name is in lower case, and each of its length, precision and scale
    is either absent or a text that is not empty, not ['NULL'] and
    without white space around it. The text ['NULL'] printed by the
    client for a missing value never reaches the builders. *)
Theorem described_columns_are_normalised
    {World : Type} {DS : DataSource World}
    (server database schema table : string) (col : column) :
  In col (get_table_definition_mssql server database schema table) ->
  strip (name col) = name col
  /\ lower (data_type col) = data_type col
  /\ normal_field (max_length col)
  /\ normal_field (precision col)
  /\ normal_field (scale col).
Proof.
  unfold get_table_definition_mssql.
  destruct (run_sql_mssql server database (columns_query schema table) ",")
    as [result1 code1].
  destruct (negb (code1 =? 0)); [intros [] |].
  intros Hin. apply filter_In in Hin. destruct Hin as [Hin _].
  apply filter_map_In in Hin. destruct Hin as [raw [_ Hparse]].
  now apply parse_column_line_normal in Hparse.
Qed.

Lemma described_columns_are_normalised_witness :
  let col :=
    mk_column "Name" "nvarchar" false (Some "50") None None false false in
  strip (name col) = name col
  /\ lower (data_type col) = data_type col
  /\ normal_field (max_length col)
  /\ normal_field (precision col)
  /\ normal_field (scale col).
Proof.
  apply (@described_columns_are_normalised Demo.target Demo.source_ok "srv"
           "AdventureWorks2022" "Person" "Customer").
  vm_compute. right. now left.
Defined.

(* ----------------------------------------------------------------- *)
(** ** The SQL Server builder *)

(** X25. In [create_table_mssql_sql] a character column gets its declared
    length when [max_length] is a text other than the empty one, ['-1']
    and ['NULL'], and [(MAX)] otherwise; the second test for ['-1'],
    nested in the first, is never true. For a column in the normal form
    of the introspector this leaves [(MAX)] for an absent length and for
    ['-1'], and the length itself in every other case. *)
Theorem mssql_character_type_definition (col : column) :
  in_list (upper (data_type col)) ["VARCHAR"; "NVARCHAR"; "CHAR"; "NCHAR"]
  = true ->
  mssql_type_def col
  = upper (data_type col)
    ++ (if truthy (max_length col) && differs (max_length col) "-1"
           && differs (max_length col) "NULL"
        then "(" ++ fmt (max_length col) ++ ")"
        else "(MAX)")
  /\ (normal_field (max_length col) ->
      mssql_type_def col
      = upper (data_type col)
        ++ match max_length col with
           | Some n => if String.eqb n "-1" then "(MAX)" else "(" ++ n ++ ")"
           | None => "(MAX)"
           end).
Proof.
  intros Hfamily.
  assert (Hgeneral :
            mssql_type_def col
            = upper (data_type col)
              ++ (if truthy (max_length col) && differs (max_length col) "-1"
                     && differs (max_length col) "NULL"
                  then "(" ++ fmt (max_length col) ++ ")"
                  else "(MAX)")).
  { unfold mssql_type_def. cbv zeta. rewrite Hfamily.
    destruct (truthy (max_length col)); cbn [andb]; [| reflexivity].
    destruct (differs (max_length col) "-1"); cbn [andb negb];
      [| reflexivity].
    now destruct (differs (max_length col) "NULL"). }
  split; [exact Hgeneral |].
  intros Hnormal. rewrite Hgeneral. f_equal.
  destruct (max_length col) as [n |]; [| reflexivity].
  destruct (Hnormal n eq_refl) as [Hne [Hnull _]].
  cbn [truthy differs fmt].
  apply nonempty_true in Hne. rewrite Hne. cbn [andb].
  apply String.eqb_neq in Hnull. rewrite Hnull. cbn [negb].
  rewrite andb_true_r. now destruct (String.eqb n "-1").
Qed.

Lemma mssql_character_type_definition_witness :
  mssql_type_def
    (mk_column "Name" "nvarchar" false (Some "50") None None false false)
  = "NVARCHAR(50)"
  /\ mssql_type_def
       (mk_column "Notes" "nvarchar" true (Some "-1") None None false false)
     = "NVARCHAR(MAX)".
Proof.
  split.
  - destruct (mssql_character_type_definition
                (mk_column "Name" "nvarchar" false (Some "50") None None false
                   false)) as [Hgeneral _]; [reflexivity | exact Hgeneral].
  - destruct (mssql_character_type_definition
                (mk_column "Notes" "nvarchar" true (Some "-1") None None false
                   false)) as [_ Hnormal]; [reflexivity |].
    apply Hnormal. intros s [= <-].
    split; [discriminate | split; [discriminate | reflexivity]].
Defined.
